(** * Weekly AI-analysis pipeline of the BRB dashboard

    A shallow embedding of the analysis generation and caching pipeline:

    - the cache-key derivation ([dataKey]) and the single-flight guard of
      [src/components/AIAnalysis.tsx] (the same code is in
      [VehicleMetrics.tsx], with a refresh button);
    - the ordered model fallback [callGeminiAPI], the coordinator
      [generateWeeklyAnalysis] and the aggregation [aggregateByCampaign]
      of [src/services/gemini.ts];
    - the cache service [src/services/cache.ts] ([getCachedAnalysis],
      [setCachedAnalysis], [getAnalysisHistory], [getAnalysisByDate],
      [cleanOldCache]);
    - the persistence endpoint [handler] of [api/analysis.ts].

    Conventions.  JavaScript numbers that hold counts are integers ([Z] or
    [nat]); they are added as binary64 values are, and printed in
    decimal, as [String(n)] prints an integer below [10^21].
    A value that may be [null] or [undefined] is an [option].  Instants are
    milliseconds since the epoch; the time zone of the endpoint is UTC and
    the time zone of the browser is a field of its world.  Asynchronous
    code is written in a state-and-exception monad over an explicit world;
    every [await] on the outside world leaves an event in the world's log.

    The first part of the file holds the embedding, the second part the
    lemmas and the theorems. *)

From stdpp Require Import base strings pretty list gmap.
From Stdlib Require Import Ascii ZArith Lia.

Open Scope string_scope.
Open Scope list_scope.
Open Scope Z_scope.

(** ** Strings *)

Module Str.

(** [s.includes(c)] for a single character [c]. *)
Fixpoint includes (c : ascii) (s : string) : bool :=
  match s with
  | EmptyString => false
  | String a rest => if decide (a = c) then true else includes c rest
  end.

(** [s.startsWith(p)]. *)
Fixpoint startsWith (p s : string) : bool :=
  match p, s with
  | EmptyString, _ => true
  | String a p', String b s' => if decide (a = b) then startsWith p' s' else false
  | String _ _, EmptyString => false
  end.

(** [s.includes(needle)]. *)
Fixpoint includesStr (needle s : string) : bool :=
  startsWith needle s ||
  match s with
  | EmptyString => false
  | String _ rest => includesStr needle rest
  end.

(** [s.split(c)[0]]: the part of [s] before the first [c]. *)
Fixpoint before (c : ascii) (s : string) : string :=
  match s with
  | EmptyString => EmptyString
  | String a rest => if decide (a = c) then EmptyString else String a (before c rest)
  end.

(** The first [n] characters of [s], and [s] without them. *)
Fixpoint take (n : nat) (s : string) : string :=
  match n, s with
  | S n', String a rest => String a (take n' rest)
  | _, _ => EmptyString
  end.

Fixpoint drop (n : nat) (s : string) : string :=
  match n, s with
  | S n', String _ rest => drop n' rest
  | _, _ => s
  end.

(** JavaScript truthiness of a possibly missing string: [!!s]. *)
Definition truthy (s : option string) : bool :=
  match s with
  | Some EmptyString | None => false
  | Some (String _ _) => true
  end.

(** [a || b] where [b] is a string. *)
Definition or_else (a : option string) (b : string) : string :=
  match a with
  | Some (String c r) => String c r
  | Some EmptyString | None => b
  end.

(** [a < b] on strings whose characters are all below U+0080, where the
    comparison by code units is the comparison by bytes. *)
Definition lt (a b : string) : bool :=
  match String.compare a b with
  | Lt => true
  | _ => false
  end.

End Str.

(** ** Numbers

    A count is a JavaScript number that holds an integer: a binary64
    value.  Below [2^53] in magnitude every integer is such a value and
    the sum of two of them is exact when it stays in that range; beyond,
    the sum is rounded to 53 significant bits, to the nearest value and to
    the even one on a tie.  (The model has no [Infinity]: it follows the
    code for magnitudes below [2^1024].) *)

Module Number.

(** [Number.MAX_SAFE_INTEGER], [2^53 - 1]. *)
Definition MAX_SAFE_INTEGER : Z := 9007199254740991.

(** The binary64 value nearest to an integer. *)
Definition round (x : Z) : Z :=
  let a := Z.abs x in
  let e := Z.log2 a - 52 in
  if bool_decide (e ≤ 0) then x
  else
    let q := Z.shiftr a e in
    let r := a - Z.shiftl q e in
    let half := Z.shiftl 1 (e - 1) in
    let q' := if bool_decide (half < r) || (bool_decide (r = half) && Z.odd q)
              then q + 1 else q in
    Z.sgn x * Z.shiftl q' e.

(** [a + b]. *)
Definition add (a b : Z) : Z := round (a + b).

End Number.

(** ** Printing numbers

    [String(n)] of an integer below [10^21] in magnitude is its decimal
    numeral, with a leading minus sign for a negative one; stdpp's
    [pretty] prints the same numerals. *)

Definition numberToString (n : Z) : string := pretty n.

Definition is_digit (c : ascii) : bool :=
  bool_decide (c ∈ ["0"; "1"; "2"; "3"; "4"; "5"; "6"; "7"; "8"; "9"]%char).

Fixpoint all_chars (P : ascii → bool) (s : string) : bool :=
  match s with
  | EmptyString => true
  | String a rest => P a && all_chars P rest
  end.

(** ** Dates

    [Date] values are instants in milliseconds since the epoch.  The
    calendar date of a day number follows the proleptic Gregorian calendar
    (the usual civil-from-days computation). *)

Module JsDate.

Definition msPerDay : Z := 86400000.

(** Zero padding to a width of [w] digits, for a number that is not
    negative. *)
Fixpoint zeros (n : nat) : string :=
  match n with
  | O => ""
  | S n' => "0" +:+ zeros n'
  end.

Definition pad (w : nat) (n : Z) : string :=
  let s := numberToString n in
  zeros (w - String.length s) +:+ s.

(** Year, month and day of the month of a day number. *)
Definition civil (days : Z) : Z * Z * Z :=
  let z := days + 719468 in
  let era := z `div` 146097 in
  let doe := z - era * 146097 in
  let yoe := (doe - doe `div` 1460 + doe `div` 36524 - doe `div` 146096) `div` 365 in
  let doy := doe - (365 * yoe + yoe `div` 4 - yoe `div` 100) in
  let mp := (5 * doy + 2) `div` 153 in
  let d := doy - (153 * mp + 2) `div` 5 + 1 in
  let m := if bool_decide (mp < 10) then mp + 3 else mp - 9 in
  let y := yoe + era * 400 + (if bool_decide (m ≤ 2) then 1 else 0) in
  (y, m, d).

(** [date.toISOString()], for years 0 to 9999. *)
Definition toISOString (ms : Z) : string :=
  let '(y, m, d) := civil (ms `div` msPerDay) in
  let t := ms `mod` msPerDay in
  pad 4 y +:+ "-" +:+ pad 2 m +:+ "-" +:+ pad 2 d +:+ "T" +:+
  pad 2 (t `div` 3600000) +:+ ":" +:+ pad 2 ((t `div` 60000) `mod` 60) +:+ ":" +:+
  pad 2 ((t `div` 1000) `mod` 60) +:+ "." +:+ pad 3 (t `mod` 1000) +:+ "Z".

(** [date.toISOString().split('T')[0]]. *)
Definition isoDay (ms : Z) : string := Str.before "T" (toISOString ms).

(** date-fns [subDays(date, n)], and [d.setDate(d.getDate() - n)], where
    the local time is UTC. *)
Definition subDays (ms : Z) (n : Z) : Z := ms - n * msPerDay.

(** The time zone of the browser, as ECMAScript's [LocalTZA(t, isUTC)]:
    the offset of the local time in milliseconds, at the instant [t] when
    [isUTC] is true, and at the local time [t] when it is false. *)
Definition Zone : Type := Z → bool → Z.

Definition utc : Zone := λ _ _, 0.

(** ECMAScript's [LocalTime(t)] and [UTC(t)]. *)
Definition LocalTime (zone : Zone) (t : Z) : Z := t + zone t true.
Definition UTC (zone : Zone) (t : Z) : Z := t - zone t false.

(** date-fns [format(date, 'yyyy-MM-dd')]: the day of the local
    calendar. *)
Definition format_yyyy_MM_dd (zone : Zone) (ms : Z) : string :=
  let '(y, m, d) := civil (LocalTime zone ms `div` msPerDay) in
  pad 4 y +:+ "-" +:+ pad 2 m +:+ "-" +:+ pad 2 d.

(** date-fns [subDays(date, n)], and [d.setDate(d.getDate() - n)], in the
    browser: [n] days back on the local calendar, at the same local time
    of day. *)
Definition subLocalDays (zone : Zone) (ms : Z) (n : Z) : Z :=
  UTC zone (LocalTime zone ms - n * msPerDay).

End JsDate.

(** ** Campaign rows ([src/types/campaign.ts]) *)

Record ProcessedCampaignData := {
  date : Z;
  campaignName : string;
  impressions : Z;
  clicks : Z;
  videoViews : Z;
  videoCompletions : Z;
  totalEngagements : Z;
  veiculo : string;
  tipoDeCompra : string;
  campanha : string;
}.

(** ** The cache key of a component ([AIAnalysis.tsx], [dataKey]) *)

Inductive PeriodFilter := Days7 | AllPeriod.

Global Instance PeriodFilter_eq_dec : EqDecision PeriodFilter.
Proof. solve_decision. Defined.

(** [data.reduce((sum, item) => sum + item.impressions, 0)]. *)
Definition totalImpressions (data : list ProcessedCampaignData) : Z :=
  foldl (λ sum item, Number.add sum (impressions item)) 0 data.

(** The template string
    [`${selectedCampaign || 'all'}-${totalRecords}-${totalImpressions}`]. *)
Definition derive (selectedCampaign : option string) (totalRecords : nat)
    (totalImpressions : Z) : string :=
  Str.or_else selectedCampaign "all" +:+ "-" +:+
  numberToString (Z.of_nat totalRecords) +:+ "-" +:+
  numberToString totalImpressions.

Definition dataKey (data : list ProcessedCampaignData) (periodFilter : PeriodFilter)
    (selectedCampaign : option string) : option string :=
  if bool_decide (periodFilter ≠ Days7) || bool_decide (length data = 0%nat)
  then None
  else Some (derive selectedCampaign (length data) (totalImpressions data)).

(** ** Exceptions and effects

    A thrown value is an [Error] object; an axios error also carries the
    response it got, when it got one.  A computation over a state [S]
    either returns or throws, and leaves a new state in both cases. *)

Record ErrResponse := {
  err_status : Z;                      (* [error.response.status] *)
  err_apiMessage : option string;      (* [error.response.data?.error?.message] *)
}.

Record JsError := {
  err_message : string;                (* [error.message] *)
  err_response : option ErrResponse;   (* [error.response] *)
}.

(** [new Error(msg)]. *)
Definition Error (msg : string) : JsError :=
  {| err_message := msg; err_response := None |}.

Inductive Outcome (A : Type) :=
| Return (a : A)
| Throw (e : JsError).
Arguments Return {A} a.
Arguments Throw {A} e.

Definition M (S A : Type) : Type := S → Outcome A * S.

Definition ret {S A} (a : A) : M S A := λ s, (Return a, s).

Definition throw {S A} (e : JsError) : M S A := λ s, (Throw e, s).

Definition bind {S A B} (m : M S A) (k : A → M S B) : M S B := λ s,
  match m s with
  | (Return a, s') => k a s'
  | (Throw e, s') => (Throw e, s')
  end.

(** [try { m } catch (error) { h error }]. *)
Definition try_catch {S A} (m : M S A) (h : JsError → M S A) : M S A := λ s,
  match m s with
  | (Return a, s') => (Return a, s')
  | (Throw e, s') => h e s'
  end.

(** [try { m } finally { f }], for a [finally] block that does not throw
    and does not return. *)
Definition try_finally {S A} (m : M S A) (f : S → S) : M S A := λ s,
  let '(r, s') := m s in (r, f s').

Notation "'let*' x ':=' m 'in' k" := (bind m (λ x, k))
  (at level 10, x pattern, m at level 100, k at level 200).

(** ** The store behind the endpoint (Redis, through [ioredis] or [@vercel/kv]) *)

Module Redis.

Inductive Cmd :=
| GET (key : string)
| SET (key value : string) (ex : Z).

(** The keys, each with its value and the instant at which it expires; the
    commands sent so far; and, for every position in that sequence, whether
    the command sent at that position is rejected (connection lost, server
    busy), with the message of the rejection. *)
Record t := {
  kv : gmap string (string * Z);
  rejects : nat → option string;
  cmds : list Cmd;
}.

Definition sent (c : Cmd) (r : t) : t :=
  {| kv := kv r; rejects := rejects r; cmds := cmds r ++ [c] |}.

(** The value of a key at an instant: an expired key is a missing key. *)
Definition lookup (now : Z) (key : string) (r : t) : option string :=
  match kv r !! key with
  | Some (v, expires) => if bool_decide (now < expires) then Some v else None
  | None => None
  end.

(** [await redis.get(key)]. *)
Definition get (now : Z) (key : string) : M t (option string) := λ r,
  match rejects r (length (cmds r)) with
  | Some msg => (Throw (Error msg), sent (GET key) r)
  | None => (Return (lookup now key r), sent (GET key) r)
  end.

(** [await redis.set(key, value, 'EX', ex)]. *)
Definition set (now : Z) (key value : string) (ex : Z) : M t unit := λ r,
  match rejects r (length (cmds r)) with
  | Some msg => (Throw (Error msg), sent (SET key value ex) r)
  | None =>
      (Return (),
       {| kv := <[key := (value, now + ex * 1000)]> (kv r);
          rejects := rejects r;
          cmds := cmds r ++ [SET key value ex] |})
  end.

Definition is_write (c : Cmd) : bool :=
  match c with
  | SET _ _ _ => true
  | GET _ => false
  end.

End Redis.

(** ** The persistence endpoint ([api/analysis.ts]) *)

Record HistoryEntry := {
  he_date : string;
  he_analysis : string;
  he_timestamp : string;
}.

(** A JSON object of the endpoint: each of its responses has some of these
    fields. *)
Record Obj := {
  analysis : option string;
  cached : option bool;
  timestamp : option string;
  message : option string;
  error : option string;
}.

Inductive Json :=
| JObject (o : Obj)
| JArray (entries : list HistoryEntry)
| JEmpty.

Record AnalysisRequest := {
  body_dataKey : option string;
  body_analysis : option string;
}.

Record Request := {
  method : string;
  url : option string;
  query : gmap string string;
  body : option AnalysisRequest;
}.

Record Response := {
  status : Z;
  json : Json;
}.

(** The key scheme: [`analysis:${day}:${dataKey}`] and its timestamp key. *)
Definition cacheKeyOf (day dataKey : string) : string :=
  "analysis:" +:+ day +:+ ":" +:+ dataKey.

Definition timestampKeyOf (cacheKey : string) : string :=
  cacheKey +:+ ":timestamp".

Module Api.

Definition hit (a t : string) : Json :=
  JObject {| analysis := Some a; cached := Some true; timestamp := Some t;
             message := None; error := None |}.

Definition miss : Json :=
  JObject {| analysis := None; cached := Some false; timestamp := None;
             message := Some "Análise não encontrada no cache"; error := None |}.

Definition saved (a t : string) : Json :=
  JObject {| analysis := Some a; cached := Some false; timestamp := Some t;
             message := Some "Análise salva no cache"; error := None |}.

Definition failure (e : string) (m : option string) : Json :=
  JObject {| analysis := None; cached := None; timestamp := None;
             message := m; error := Some e |}.

Definition respond (st : Z) (j : Json) : M Redis.t Response :=
  ret {| status := st; json := j |}.

(** Reading a field of [req.body]: a [TypeError] when there is no body. *)
Definition bodyField {A} (req : Request) (f : AnalysisRequest → option A)
    : M Redis.t (option A) :=
  match body req with
  | Some b => ret (f b)
  | None => throw (Error "Cannot read properties of undefined")
  end.

(** The iterations of the history loop, [i] running over [days]. *)
Fixpoint historyLoop (today : Z) (dataKey : string) (days : list nat)
    (history : list HistoryEntry) : M Redis.t (list HistoryEntry) :=
  match days with
  | [] => ret history
  | i :: rest =>
      let date := JsDate.subDays today (Z.of_nat i) in
      let dateStr := JsDate.isoDay date in
      let cacheKey := cacheKeyOf dateStr dataKey in
      let* cached := Redis.get today cacheKey in
      let* timestamp := Redis.get today (timestampKeyOf cacheKey) in
      match cached with
      | Some (String c r) =>
          historyLoop today dataKey rest
            (history ++ [{| he_date := dateStr;
                            he_analysis := String c r;
                            he_timestamp := Str.or_else timestamp (JsDate.toISOString date) |}])
      | _ => historyLoop today dataKey rest history
      end
  end.

(** The read branch: [GET], or a request without analysis text. *)
Definition readEntry (now : Z) (cacheKey : string) : M Redis.t Response :=
  let* cached := Redis.get now cacheKey in
  match cached with
  | Some (String c r) =>
      let* timestamp := Redis.get now (timestampKeyOf cacheKey) in
      respond 200 (hit (String c r) (Str.or_else timestamp (JsDate.toISOString now)))
  | _ => respond 404 miss
  end.

(** The write branch, with the retention of the deployment in seconds. *)
Definition writeEntry (now : Z) (cacheKey a : string) (ttl : Z) : M Redis.t Response :=
  let timestamp := JsDate.toISOString now in
  let* _ := Redis.set now cacheKey a ttl in
  let* _ := Redis.set now (timestampKeyOf cacheKey) timestamp ttl in
  respond 200 (saved a timestamp).

Definition serverError (e : JsError) : M Redis.t Response :=
  respond 500 (failure "Erro ao processar requisição" (Some (err_message e))).

(** The handler of the extended deployment (history, lookup by day, 30 days
    of retention), at the instant [now]. *)
Definition handler (now : Z) (req : Request) : M Redis.t Response :=
  if bool_decide (method req = "OPTIONS") then respond 200 JEmpty
  else
    try_catch
      (if bool_decide (method req = "GET") &&
          from_option (Str.includesStr "/history") false (url req)
       then
         let dataKey := query req !! "dataKey" in
         if negb (Str.truthy dataKey) then
           respond 400 (failure "dataKey é obrigatório" None)
         else
           let* history := historyLoop now (default "" dataKey) (seq 0 30) [] in
           respond 200 (JArray history)
       else
         let* dataKey :=
           if bool_decide (method req = "GET") then ret (query req !! "dataKey")
           else bodyField req body_dataKey in
         let* analysis :=
           if bool_decide (method req = "POST") then bodyField req body_analysis
           else ret None in
         let requestDate :=
           if bool_decide (method req = "GET") then query req !! "date" else None in
         if negb (Str.truthy dataKey) then
           respond 400 (failure "dataKey é obrigatório" None)
         else
           let targetDate := Str.or_else requestDate (JsDate.isoDay now) in
           let cacheKey := cacheKeyOf targetDate (default "" dataKey) in
           if bool_decide (method req = "GET") || negb (Str.truthy analysis) then
             readEntry now cacheKey
           else if bool_decide (method req = "POST") && Str.truthy analysis then
             writeEntry now cacheKey (default "" analysis) 2592000
           else
             respond 405 (failure "Método não permitido" None))
      serverError.

(** The handler of the minimal deployment ([@vercel/kv], one day of
    retention): both fields are read from the body, for every method. *)
Definition handler_kv (now : Z) (req : Request) : M Redis.t Response :=
  if bool_decide (method req = "OPTIONS") then respond 200 JEmpty
  else
    try_catch
      (let* dataKey := bodyField req body_dataKey in
       let* analysis := bodyField req body_analysis in
       if negb (Str.truthy dataKey) then
         respond 400 (failure "dataKey é obrigatório" None)
       else
         let today := JsDate.isoDay now in
         let cacheKey := cacheKeyOf today (default "" dataKey) in
         if bool_decide (method req = "GET") || negb (Str.truthy analysis) then
           readEntry now cacheKey
         else if bool_decide (method req = "POST") && Str.truthy analysis then
           writeEntry now cacheKey (default "" analysis) 86400
         else
           respond 405 (failure "Método não permitido" None))
      serverError.

End Api.

(** ** The browser side: what the pipeline talks to *)

(** One candidate of a model response: its text, or a candidate without
    content, on which reading [content.parts[0].text] raises a
    [TypeError]. *)
Inductive Candidate :=
| WithText (text : string)
| NoContent.

(** What [await axios.post(url, payload, ...)] gives for a model. *)
Inductive AxiosReply :=
| Resolved (status : Z) (candidates : option (list Candidate))
| Rejected (e : JsError).

Inductive StorageOp :=
| GetItem (key : string)
| SetItem (key value : string)
| RemoveItem (key : string)
| Keys.

Inductive Event :=
| CacheRequest (req : Request)              (* a request to [/api/analysis] *)
| StorageAccess (op : StorageOp)            (* an access to [localStorage] *)
| ModelCall (model : string) (prompt : string)   (* a call of a model *)
| Sleep (ms : Z).                           (* [setTimeout(resolve, ms)] *)

Definition is_CacheRequest (e : Event) : bool :=
  match e with CacheRequest _ => true | _ => false end.

Definition is_ModelCall (e : Event) : bool :=
  match e with ModelCall _ _ => true | _ => false end.

(** The models called in a trace, in order. *)
Definition calls (tr : list Event) : list string :=
  omap (λ e, match e with ModelCall m _ => Some m | _ => None end) tr.

Definition slept (tr : list Event) : Z :=
  foldr (λ e acc, match e with Sleep ms => ms + acc | _ => acc end) 0 tr.

(** ** The fallback over the models ([callGeminiAPI], [gemini.ts]) *)

Module Gemini.

Definition MODELS : list string :=
  ["gemini-robotics-er-1.5-preview"; "gemini-2.5-flash-lite"; "gemini-2.5-flash"].

Definition fatalMessage (statusCode : Z) (errorMessage : string) : string :=
  "Erro fatal na API do Gemini (" +:+ numberToString statusCode +:+ "): " +:+ errorMessage.

Definition noContentMessage (model : string) : string :=
  "Modelo " +:+ model +:+ " não retornou conteúdo válido".

Definition exhaustedMessage (n : nat) (lastError : option JsError) : string :=
  "Todos os " +:+ numberToString (Z.of_nat n) +:+
  " modelos falharam ou atingiram o limite. " +:+
  "Último erro: " +:+ Str.or_else (err_message <$> lastError) "Desconhecido" +:+ ". " +:+
  "Tente novamente em alguns minutos.".

(** [error.response?.status]. *)
Definition statusCodeOf (e : JsError) : option Z := err_status <$> err_response e.

(** [error.response?.data?.error?.message || error.message]. *)
Definition errorMessageOf (e : JsError) : string :=
  Str.or_else (err_response e ≫= err_apiMessage) (err_message e).

Definition status_in (codes : list Z) (statusCode : option Z) : bool :=
  match statusCode with
  | Some c => bool_decide (c ∈ codes)
  | None => false
  end.

Section Loop.

(** The reply of the backend to the attempt at position [i], made on model
    [model]. *)
Variable post : nat → string → AxiosReply.
Variable prompt : string.
(** [MODELS.length]. *)
Variable n : nat.

(** The [for] loop from index [i] on, [models] being the models from
    position [i] on.  The result comes with the calls and the waits made,
    in order. *)
Fixpoint tryModels (i : nat) (models : list string) (lastError : option JsError)
    : Outcome string * list Event :=
  match models with
  | [] => (Throw (Error (exhaustedMessage n lastError)), [])
  | model :: rest =>
      let next (lastError : option JsError) (wait : list Event) :=
        let '(r, tr) := tryModels (S i) rest lastError in
        (r, ModelCall model prompt :: wait ++ tr) in
      let caught (error : JsError) :=
        let statusCode := statusCodeOf error in
        let errorMessage := errorMessageOf error in
        if status_in [429; 503; 500] statusCode then
          next (Some error) (if bool_decide (i < n - 1)%nat then [Sleep 2000] else [])
        else if status_in [400; 403; 401] statusCode then
          (Throw (Error (fatalMessage (default 0 statusCode) errorMessage)),
           [ModelCall model prompt])
        else if bool_decide (i < n - 1)%nat then
          next (Some error) [Sleep 2000]
        else
          next (Some error) [] in
      match post i model with
      | Resolved status candidates =>
          if bool_decide (status = 200) &&
             bool_decide (0 < length (default [] candidates))%nat
          then
            match default [] candidates with
            | WithText text :: _ => (Return text, [ModelCall model prompt])
            | _ => caught (Error "Cannot read properties of undefined (reading 'parts')")
            end
          else next (Some (Error (noContentMessage model))) []
      | Rejected error => caught error
      end
  end.

End Loop.

(** The whole loop over a list of models. *)
Definition callGeminiAPIWith (post : nat → string → AxiosReply)
    (models : list string) (prompt : string) : Outcome string * list Event :=
  tryModels post prompt (length models) 0 models None.

End Gemini.

(** ** The world of the browser *)

Record World := {
  (** [import.meta.env.PROD]. *)
  PROD : bool;
  clock : Z;
  (** The time zone of the browser. *)
  localTZA : JsDate.Zone;
  (** The store behind the endpoint. *)
  server : Redis.t;
  (** Whether the request to the endpoint at a position in the sequence of
      these requests fails in transport (no response). *)
  offline : nat → bool;
  localStorage : gmap string string;
  (** Every access to [localStorage] throws (storage disabled). *)
  storageDenied : bool;
  (** [setItem] throws (quota exceeded). *)
  storageFull : bool;
  (** The reply of the model backend, by the number of model calls made
      before, the model and the prompt. *)
  gemini : nat → string → string → AxiosReply;
  (** The prompt builder of [gemini.ts] together with the benchmark tables
      it fetches: a text, or an exception. *)
  buildAnalysisPrompt :
    list ProcessedCampaignData → option (list ProcessedCampaignData) → Outcome string;
  log : list Event;
}.

Definition with_log (w : World) (l : list Event) : World :=
  {| PROD := PROD w; clock := clock w; localTZA := localTZA w; server := server w;
     offline := offline w;
     localStorage := localStorage w; storageDenied := storageDenied w;
     storageFull := storageFull w; gemini := gemini w;
     buildAnalysisPrompt := buildAnalysisPrompt w; log := l |}.

Definition with_server (w : World) (r : Redis.t) : World :=
  {| PROD := PROD w; clock := clock w; localTZA := localTZA w; server := r;
     offline := offline w;
     localStorage := localStorage w; storageDenied := storageDenied w;
     storageFull := storageFull w; gemini := gemini w;
     buildAnalysisPrompt := buildAnalysisPrompt w; log := log w |}.

Definition with_localStorage (w : World) (m : gmap string string) : World :=
  {| PROD := PROD w; clock := clock w; localTZA := localTZA w; server := server w;
     offline := offline w;
     localStorage := m; storageDenied := storageDenied w;
     storageFull := storageFull w; gemini := gemini w;
     buildAnalysisPrompt := buildAnalysisPrompt w; log := log w |}.

Definition with_clock (w : World) (t : Z) : World :=
  {| PROD := PROD w; clock := t; localTZA := localTZA w; server := server w;
     offline := offline w;
     localStorage := localStorage w; storageDenied := storageDenied w;
     storageFull := storageFull w; gemini := gemini w;
     buildAnalysisPrompt := buildAnalysisPrompt w; log := log w |}.

Definition emit (e : Event) (w : World) : World := with_log w (log w ++ [e]).

(** [new Date()]. *)
Definition now : M World Z := λ w, (Return (clock w), w).

(** The time zone that the local getters and setters of a [Date] and the
    functions of date-fns work in. *)
Definition timeZone : M World JsDate.Zone := λ w, (Return (localTZA w), w).

(** [callGeminiAPI(prompt)] in the world: the loop over [MODELS], its calls
    and waits appended to the log, the clock advanced by the waits. *)
Definition callGeminiAPI (prompt : string) : M World string := λ w,
  let before := length (filter is_ModelCall (log w)) in
  let '(r, tr) :=
    Gemini.callGeminiAPIWith (λ i model, gemini w (before + i)%nat model prompt)
      Gemini.MODELS prompt in
  (r, with_clock (with_log w (log w ++ tr)) (clock w + slept tr)).

(** *** axios against the endpoint

    The request reaches the handler unless the transport fails; axios
    resolves with the body of a 2xx response and rejects otherwise, with
    the response attached.  The parameters of a request are its [query];
    its [url] is the path, without the query string. *)
Definition axiosCache (req : Request) : M World Json := λ w,
  let k := length (filter is_CacheRequest (log w)) in
  let w1 := emit (CacheRequest req) w in
  if offline w k then
    (Throw {| err_message := "Network Error"; err_response := None |}, w1)
  else
    let '(res, srv) := Api.handler (clock w) req (server w) in
    let w2 := with_server w1 srv in
    let rejected (st : Z) :=
      (Throw {| err_message := "Request failed with status code " +:+ numberToString st;
                err_response := Some {| err_status := st; err_apiMessage := None |} |},
       w2) in
    match res with
    | Return r =>
        if bool_decide (200 ≤ status r) && bool_decide (status r < 300)
        then (Return (json r), w2)
        else rejected (status r)
    | Throw _ => rejected 500
    end.

(** *** localStorage *)

Definition getItem (key : string) : M World (option string) := λ w,
  let w1 := emit (StorageAccess (GetItem key)) w in
  if storageDenied w then (Throw (Error "SecurityError"), w1)
  else (Return (localStorage w !! key), w1).

Definition setItem (key value : string) : M World unit := λ w,
  let w1 := emit (StorageAccess (SetItem key value)) w in
  if storageDenied w then (Throw (Error "SecurityError"), w1)
  else if storageFull w then (Throw (Error "QuotaExceededError"), w1)
  else (Return (), with_localStorage w1 (<[key := value]> (localStorage w))).

Definition removeItem (key : string) : M World unit := λ w,
  let w1 := emit (StorageAccess (RemoveItem key)) w in
  if storageDenied w then (Throw (Error "SecurityError"), w1)
  else (Return (), with_localStorage w1 (delete key (localStorage w))).

(** [Object.keys(localStorage)]; the order of the keys is not modelled. *)
Definition storageKeys : M World (list string) := λ w,
  let w1 := emit (StorageAccess Keys) w in
  if storageDenied w then (Throw (Error "SecurityError"), w1)
  else (Return (map fst (map_to_list (localStorage w))), w1).

(** ** The cache service ([src/services/cache.ts]) *)

Module Cache.

(** [CACHE_API_URL]: the endpoint in production, [null] locally. *)
Definition CACHE_API_URL (w : World) : option string :=
  if PROD w then Some "/api/analysis" else None.

Definition readUrl : M World (option string) := λ w, (Return (CACHE_API_URL w), w).

(** The object [{ analysis, cached, timestamp }]. *)
Definition cacheResponse (a : string) (c : bool) (t : string) : Json :=
  JObject {| analysis := Some a; cached := Some c; timestamp := Some t;
             message := None; error := None |}.

(** [error.response?.status === 404]. *)
Definition is404 (e : JsError) : bool :=
  match err_response e with
  | Some r => bool_decide (err_status r = 404)
  | None => false
  end.

(** [null] is [None]; a value read from a response is whatever the
    endpoint sent. *)
Definition getCachedAnalysis (dataKey : string) : M World (option Json) :=
  try_catch
    (let* api := readUrl in
     match api with
     | Some apiUrl =>
         try_catch
           (let* data :=
              axiosCache {| method := "GET"; url := Some apiUrl;
                            query := {[ "dataKey" := dataKey ]}; body := None |} in
            ret (Some data))
           (λ error, if is404 error then ret None else throw error)
     | None =>
         let* t := now in
         let today := JsDate.isoDay t in
         let cacheKey := cacheKeyOf today dataKey in
         let* cached := getItem cacheKey in
         let* timestamp := getItem (timestampKeyOf cacheKey) in
         match cached with
         | Some (String c r) =>
             ret (Some (cacheResponse (String c r) true
                          (Str.or_else timestamp (JsDate.toISOString t))))
         | _ => ret None
         end
     end)
    (λ _, ret None).

(** The first match of [/analysis:(\d{4}-\d{2}-\d{2}):/] in a key: its
    group. *)
Definition dateShape (d : string) : bool :=
  match d with
  | String y1 (String y2 (String y3 (String y4 (String "-"
      (String m1 (String m2 (String "-" (String d1 (String d2 EmptyString))))))))) =>
      is_digit y1 && is_digit y2 && is_digit y3 && is_digit y4 &&
      is_digit m1 && is_digit m2 && is_digit d1 && is_digit d2
  | _ => false
  end.

Definition dateAtStart (s : string) : option string :=
  let d := Str.take 10 (Str.drop 9 s) in
  if Str.startsWith "analysis:" s && dateShape d &&
     Str.startsWith ":" (Str.drop 19 s)
  then Some d else None.

Fixpoint dateMatch (s : string) : option string :=
  match dateAtStart s with
  | Some d => Some d
  | None =>
      match s with
      | EmptyString => None
      | String _ rest => dateMatch rest
      end
  end.

(** The [forEach] of [cleanOldCache] over the keys. *)
Fixpoint removeOld (cutoffDate : string) (keys : list string) : M World unit :=
  match keys with
  | [] => ret ()
  | key :: rest =>
      let* _ :=
        if Str.startsWith "analysis:" key then
          match dateMatch key with
          | Some d => if Str.lt d cutoffDate then removeItem key else ret ()
          | None => ret ()
          end
        else ret () in
      removeOld cutoffDate rest
  end.

Definition cleanOldCache : M World unit :=
  try_catch
    (let* keys := storageKeys in
     let* t := now in
     let* zone := timeZone in
     let cutoffDate := JsDate.format_yyyy_MM_dd zone (JsDate.subLocalDays zone t 30) in
     removeOld cutoffDate keys)
    (λ _, ret ()).

Definition setCachedAnalysis (dataKey a : string) : M World unit :=
  try_catch
    (let* t := now in
     let timestamp := JsDate.toISOString t in
     let* api := readUrl in
     match api with
     | Some apiUrl =>
         let* _ :=
           axiosCache {| method := "POST"; url := Some apiUrl; query := ∅;
                         body := Some {| body_dataKey := Some dataKey;
                                         body_analysis := Some a |} |} in
         ret ()
     | None =>
         let today := JsDate.isoDay t in
         let cacheKey := cacheKeyOf today dataKey in
         let* _ := setItem cacheKey a in
         let* _ := setItem (timestampKeyOf cacheKey) timestamp in
         cleanOldCache
     end)
    (λ _, ret ()).

(** The local loop of [getAnalysisHistory], [i] running over [days]. *)
Fixpoint historyLoop (zone : JsDate.Zone) (today : Z) (dataKey : string)
    (days : list nat) (history : list HistoryEntry) : M World (list HistoryEntry) :=
  match days with
  | [] => ret history
  | i :: rest =>
      let date := JsDate.subLocalDays zone today (Z.of_nat i) in
      let dateStr := JsDate.format_yyyy_MM_dd zone date in
      let cacheKey := cacheKeyOf dateStr dataKey in
      let* cached := getItem cacheKey in
      let* timestamp := getItem (timestampKeyOf cacheKey) in
      match cached with
      | Some (String c r) =>
          historyLoop zone today dataKey rest
            (history ++ [{| he_date := dateStr;
                            he_analysis := String c r;
                            he_timestamp := Str.or_else timestamp (JsDate.toISOString date) |}])
      | _ => historyLoop zone today dataKey rest history
      end
  end.

Definition getAnalysisHistory (dataKey : string) : M World Json :=
  try_catch
    (let* api := readUrl in
     match api with
     | Some apiUrl =>
         try_catch
           (axiosCache {| method := "GET"; url := Some (apiUrl +:+ "/history");
                          query := {[ "dataKey" := dataKey ]}; body := None |})
           (λ _, ret (JArray []))
     | None =>
         let* today := now in
         let* zone := timeZone in
         let* history := historyLoop zone today dataKey (seq 0 30) [] in
         ret (JArray history)
     end)
    (λ _, ret (JArray [])).

End Cache.

(** ** The coordinator ([generateWeeklyAnalysis], [gemini.ts]) *)

Definition noDataText : string :=
  "Não há dados disponíveis para análise desta semana.".

(** Truthiness of what [getCachedAnalysis] gave: [null] and an empty
    body are falsy. *)
Definition truthyJson (j : option Json) : bool :=
  match j with
  | Some (JObject _) | Some (JArray _) => true
  | Some JEmpty | None => false
  end.

(** [Math.min(...l)] and [Math.max(...l)] of a list that is not empty. *)
Definition minimum (l : list Z) : Z := foldr Z.min (hd 0 l) l.
Definition maximum (l : list Z) : Z := foldr Z.max (hd 0 l) l.

(** The rows of the seven days before the current period. *)
Definition previousWeek (currentWeekData allData : list ProcessedCampaignData)
    : list ProcessedCampaignData :=
  let dates := map date currentWeekData in
  let previousWeekStart := JsDate.subDays (minimum dates) 7 in
  let previousWeekEnd := JsDate.subDays (maximum dates) 7 in
  filter (λ item, previousWeekStart ≤ date item ∧ date item ≤ previousWeekEnd) allData.

Definition buildPrompt (currentWeekData previousWeekData : list ProcessedCampaignData)
    : M World string := λ w,
  (buildAnalysisPrompt w currentWeekData
     (if bool_decide (0 < length previousWeekData)%nat then Some previousWeekData else None),
   w).

Definition generateWeeklyAnalysis (currentWeekData allData : list ProcessedCampaignData)
    (dataKey : string) (forceRefresh : bool) : M World Json :=
  try_catch
    (if bool_decide (length currentWeekData = 0%nat) then
       let* t := now in
       ret (Cache.cacheResponse noDataText false (JsDate.toISOString t))
     else
       let* cached :=
         if negb forceRefresh then Cache.getCachedAnalysis dataKey else ret None in
       if truthyJson cached then ret (default JEmpty cached)
       else
         let* prompt := buildPrompt currentWeekData (previousWeek currentWeekData allData) in
         let* text := callGeminiAPI prompt in
         let* _ := Cache.setCachedAnalysis dataKey text in
         let* t := now in
         ret (Cache.cacheResponse text false (JsDate.toISOString t)))
    (λ error, throw (Error (Str.or_else (Some (err_message error)) "Erro ao gerar análise"))).

(** ** The component ([AIAnalysis.tsx]; [VehicleMetrics.tsx] adds the
    refresh button)

    The component is driven by the event loop: a render runs the effect
    when its dependencies changed, a click calls [generateAnalysis(true)],
    and the promise of a pending [generateWeeklyAnalysis] settles, which
    resumes [generateAnalysis] after its [await].  The effects of an
    invocation on the world are taken in the turn in which its promise
    settles. *)

Record Props := {
  data : list ProcessedCampaignData;
  allData : list ProcessedCampaignData;
  periodFilter : PeriodFilter;
  selectedCampaign : option string;
}.

(** An invocation of [generateWeeklyAnalysis] whose promise is pending. *)
Record Invocation := {
  inv_data : list ProcessedCampaignData;
  inv_allData : list ProcessedCampaignData;
  inv_dataKey : string;
  inv_forceRefresh : bool;
}.

Record Component := {
  props : Props;
  st_analysis : option string;
  st_loading : bool;
  st_error : option string;
  isGeneratingRef : bool;
  lastProcessedKeyRef : option string;
  (** The dependencies of the last run of the effect. *)
  deps : option (option string * PeriodFilter);
  (** The pending invocations, oldest first, and how many were made. *)
  pending : list Invocation;
  invoked : nat;
}.

Definition mount (p : Props) : Component :=
  {| props := p; st_analysis := Some ""; st_loading := false; st_error := None;
     isGeneratingRef := false; lastProcessedKeyRef := None; deps := None;
     pending := []; invoked := 0 |}.

Definition keyOf (p : Props) : option string :=
  dataKey (data p) (periodFilter p) (selectedCampaign p).

(** [generateAnalysis(forceRefresh)] up to its [await]. *)
Definition generateAnalysis (forceRefresh : bool) (c : Component) : Component :=
  if isGeneratingRef c then c
  else
    match keyOf (props c) with
    | Some (String a r) =>
        {| props := props c; st_analysis := st_analysis c;
           st_loading := true; st_error := None;
           isGeneratingRef := true;
           lastProcessedKeyRef := lastProcessedKeyRef c; deps := deps c;
           pending := pending c ++
             [{| inv_data := data (props c); inv_allData := allData (props c);
                 inv_dataKey := String a r; inv_forceRefresh := forceRefresh |}];
           invoked := S (invoked c) |}
    | _ => c
    end.

(** [generateAnalysis] from its [await] on: the rest of the [try] block,
    or the [catch] block, and then the [finally] block. *)
Definition resume (r : Outcome Json) (c : Component) : Component :=
  let '(a, e) :=
    match r with
    | Return (JObject o) => (analysis o, st_error c)
    | Return _ => (None, st_error c)
    | Throw err =>
        (st_analysis c,
         Some (Str.or_else (Some (err_message err)) "Erro ao gerar análise. Tente novamente."))
    end in
  {| props := props c; st_analysis := a;
     st_loading := false; st_error := e;
     isGeneratingRef := false;
     lastProcessedKeyRef := lastProcessedKeyRef c; deps := deps c;
     pending := pending c; invoked := invoked c |}.

(** The body of the effect. *)
Definition effect (c : Component) : Component :=
  let p := props c in
  if bool_decide (periodFilter p = Days7) && bool_decide (0 < length (data p))%nat
     && Str.truthy (keyOf p)
  then
    if bool_decide (keyOf p = lastProcessedKeyRef c) then c
    else if isGeneratingRef c then c
    else
      generateAnalysis false
        {| props := props c; st_analysis := st_analysis c;
           st_loading := st_loading c; st_error := st_error c;
           isGeneratingRef := isGeneratingRef c;
           lastProcessedKeyRef := keyOf p; deps := deps c;
           pending := pending c; invoked := invoked c |}
  else
    {| props := props c; st_analysis := Some "";
       st_loading := st_loading c; st_error := None;
       isGeneratingRef := isGeneratingRef c;
       lastProcessedKeyRef := None; deps := deps c;
       pending := pending c; invoked := invoked c |}.

(** A render with new props; the effect runs when [[dataKey, periodFilter]]
    changed, and on the first render. *)
Definition render (p : Props) (c : Component) : Component :=
  let d := Some (keyOf p, periodFilter p) in
  let c1 :=
    {| props := p; st_analysis := st_analysis c;
       st_loading := st_loading c; st_error := st_error c;
       isGeneratingRef := isGeneratingRef c;
       lastProcessedKeyRef := lastProcessedKeyRef c; deps := d;
       pending := pending c; invoked := invoked c |} in
  if bool_decide (deps c = d) then
    {| props := p; st_analysis := st_analysis c;
       st_loading := st_loading c; st_error := st_error c;
       isGeneratingRef := isGeneratingRef c;
       lastProcessedKeyRef := lastProcessedKeyRef c; deps := deps c;
       pending := pending c; invoked := invoked c |}
  else effect c1.

Inductive UiEvent :=
| Render (p : Props)
| RefreshClick
| Settle.

(** One turn of the event loop, on the component and the world. *)
Definition step (ev : UiEvent) (s : Component * World) : Component * World :=
  let '(c, w) := s in
  match ev with
  | Render p => (render p c, w)
  | RefreshClick => (generateAnalysis true c, w)
  | Settle =>
      match pending c with
      | [] => (c, w)
      | inv :: rest =>
          let '(r, w') :=
            generateWeeklyAnalysis (inv_data inv) (inv_allData inv)
              (inv_dataKey inv) (inv_forceRefresh inv) w in
          (resume r
             {| props := props c; st_analysis := st_analysis c;
                st_loading := st_loading c; st_error := st_error c;
                isGeneratingRef := isGeneratingRef c;
                lastProcessedKeyRef := lastProcessedKeyRef c; deps := deps c;
                pending := rest; invoked := invoked c |},
           w')
      end
  end.

Definition run (evs : list UiEvent) (s : Component * World) : Component * World :=
  foldl (λ s ev, step ev s) s evs.

(** ** Observations on attempts, traces and stores

    The vocabulary in which the properties of the pipeline are stated. *)

(** The attempt succeeded: status 200 and a first candidate with text. *)
Definition succeeds (r : AxiosReply) : option string :=
  match r with
  | Resolved status (Some (WithText text :: _)) =>
      if bool_decide (status = 200) then Some text else None
  | _ => None
  end.

(** The attempt failed with a validation or authorization status. *)
Definition fatal (r : AxiosReply) : bool :=
  match r with
  | Rejected e => Gemini.status_in [400; 401; 403] (Gemini.statusCodeOf e)
  | Resolved _ _ => false
  end.

(** The attempt failed and the fallback goes on. *)
Definition retryable (r : AxiosReply) : bool :=
  negb (bool_decide (is_Some (succeeds r))) && negb (fatal r).

(** The attempt raised an exception inside the [try] block: a rejected
    request, or a first candidate whose text cannot be read. *)
Definition raises (r : AxiosReply) : bool :=
  match r with
  | Rejected _ => true
  | Resolved status (Some (NoContent :: _)) => bool_decide (status = 200)
  | Resolved _ _ => false
  end.

(** The wait between the call at position [i] of a trace and the call
    after it: [Some ms] when exactly a [Sleep ms] stands between them. *)
Fixpoint waitAfter (i : nat) (tr : list Event) : option Z :=
  match tr with
  | [] => None
  | ModelCall _ _ :: rest =>
      match i with
      | O =>
          match rest with
          | Sleep ms :: ModelCall _ _ :: _ => Some ms
          | _ => None
          end
      | S i' => waitAfter i' rest
      end
  | _ :: rest => waitAfter i rest
  end.

(** The entry of the day [i] days before [today], read through [get]:
    present when the day has a text that is not empty. *)
Definition entryOf (get : string → option string) (fmt : Z → string)
    (today : Z) (dataKey : string) (i : nat) : option HistoryEntry :=
  let date := JsDate.subDays today (Z.of_nat i) in
  let cacheKey := cacheKeyOf (fmt date) dataKey in
  match get cacheKey with
  | Some (String c r) =>
      Some {| he_date := fmt date;
              he_analysis := String c r;
              he_timestamp :=
                Str.or_else (get (timestampKeyOf cacheKey)) (JsDate.toISOString date) |}
  | _ => None
  end.

(** The days of the trailing window that hit, the most recent first. *)
Definition hits (get : string → option string) (fmt : Z → string)
    (today : Z) (dataKey : string) (window : nat) : list HistoryEntry :=
  omap (entryOf get fmt today dataKey) (seq 0 window).

(** The same on the calendar of the browser, for the scan of the local
    storage: the entry of the day [i] days before [today] in the time zone,
    and the days of the trailing window that hit. *)
Definition localEntryOf (zone : JsDate.Zone) (get : string → option string)
    (today : Z) (dataKey : string) (i : nat) : option HistoryEntry :=
  let date := JsDate.subLocalDays zone today (Z.of_nat i) in
  let dateStr := JsDate.format_yyyy_MM_dd zone date in
  let cacheKey := cacheKeyOf dateStr dataKey in
  match get cacheKey with
  | Some (String c r) =>
      Some {| he_date := dateStr;
              he_analysis := String c r;
              he_timestamp :=
                Str.or_else (get (timestampKeyOf cacheKey)) (JsDate.toISOString date) |}
  | _ => None
  end.

Definition localHits (zone : JsDate.Zone) (get : string → option string)
    (today : Z) (dataKey : string) (window : nat) : list HistoryEntry :=
  omap (localEntryOf zone get today dataKey) (seq 0 window).

(** The request for the history of a key, as [getAnalysisHistory] sends
    it. *)
Definition historyRequest (dataKey : string) : Request :=
  {| method := "GET"; url := Some "/api/analysis/history";
     query := {[ "dataKey" := dataKey ]}; body := None |}.

(** No command among the next [k] is rejected. *)
Definition accepts (r : Redis.t) (k : nat) : Prop :=
  ∀ p, (p < k)%nat → Redis.rejects r (length (Redis.cmds r) + p) = None.

(** The writes among the commands sent. *)
Definition writes (r : Redis.t) : list Redis.Cmd := filter Redis.is_write (Redis.cmds r).

(** The error kept as [lastError] after an attempt that did not succeed. *)
Definition lastErrorOf (model : string) (r : AxiosReply) : JsError :=
  match r with
  | Rejected e => e
  | Resolved _ _ =>
      if raises r then Error "Cannot read properties of undefined (reading 'parts')"
      else Error (Gemini.noContentMessage model)
  end.

(** The error thrown for a fatal attempt. *)
Definition fatalErrorOf (r : AxiosReply) : JsError :=
  match r with
  | Rejected e =>
      Error (Gemini.fatalMessage (default 0 (Gemini.statusCodeOf e)) (Gemini.errorMessageOf e))
  | Resolved _ _ => Error ""
  end.

(** The wait after a retryable attempt at position [i] of [n]. *)
Definition backoffOf (n i : nat) (r : AxiosReply) : list Event :=
  if raises r && bool_decide (i < n - 1)%nat then [Sleep 2000] else [].

(** The store after more commands were sent, none of them a write that
    took effect. *)
Definition afterSending (cs : list Redis.Cmd) (r : Redis.t) : Redis.t :=
  {| Redis.kv := Redis.kv r; Redis.rejects := Redis.rejects r;
     Redis.cmds := Redis.cmds r ++ cs |}.

(** The two lookups of each day of a scan. *)
Definition scanCmds (fmt : Z → string) (today : Z) (dataKey : string)
    (days : list nat) : list Redis.Cmd :=
  days ≫= λ i,
    let cacheKey := cacheKeyOf (fmt (JsDate.subDays today (Z.of_nat i))) dataKey in
    [Redis.GET cacheKey; Redis.GET (timestampKeyOf cacheKey)].

(** The world after more events were logged. *)
Definition logged (es : list Event) (w : World) : World := with_log w (log w ++ es).

(** The number of requests sent to the endpoint so far. *)
Definition requests (w : World) : nat := length (filter is_CacheRequest (log w)).

(** A computation that leaves the clock as it was. *)
Definition keepsClock {A} (m : M World A) : Prop := ∀ w, clock (m w).2 = clock w.

(** The cache lookup of the coordinator, skipped on a forced refresh. *)
Definition cacheLookup (forceRefresh : bool) (dataKey : string) : M World (option Json) :=
  if negb forceRefresh then Cache.getCachedAnalysis dataKey else ret None.

(** The guard and the pending invocations agree: the flag is set exactly
    while one invocation is pending, and no more than one ever is. *)
Definition guarded (c : Component) : Prop :=
  (isGeneratingRef c = true ∧ length (pending c) = 1%nat) ∨
  (isGeneratingRef c = false ∧ pending c = []).

(** ** Sample environments

    Concrete backends, stores and worlds on which the definitions are run. *)

Module Sample.

Definition rateLimited : JsError :=
  {| err_message := "Request failed with status code 429";
     err_response := Some {| err_status := 429;
                             err_apiMessage := Some "Resource has been exhausted" |} |}.

Definition forbidden : JsError :=
  {| err_message := "Request failed with status code 403";
     err_response := Some {| err_status := 403;
                             err_apiMessage := Some "API key not valid" |} |}.

(** The first model is rate limited, every other one answers. *)
Definition secondAnswers (i : nat) (model : string) : AxiosReply :=
  match i with
  | O => Rejected rateLimited
  | _ => Resolved 200 (Some [WithText ("texto de " +:+ model)])
  end.

(** The first model refuses the key, every other one would answer. *)
Definition firstForbidden (i : nat) (model : string) : AxiosReply :=
  match i with
  | O => Rejected forbidden
  | _ => Resolved 200 (Some [WithText ("texto de " +:+ model)])
  end.

(** The first model answers 200 with no candidate, every other one
    answers. *)
Definition firstEmpty (i : nat) (model : string) : AxiosReply :=
  match i with
  | O => Resolved 200 (Some [])
  | _ => Resolved 200 (Some [WithText ("texto de " +:+ model)])
  end.

(** An instant of 8 December 2025, and the key of the dashboard with no
    campaign selected, 245 rows and 1582340 impressions. *)
Definition instant : Z := 20430 * 86400000 + 3723004.

Definition key : string := "all-245-1582340".

Definition expiry : Z := instant + 2592000 * 1000.

(** A store that holds the analysis of today, with its timestamp, and the
    analysis of three days ago, without one. *)
Definition entries : gmap string (string * Z) :=
  <["analysis:2025-12-08:all-245-1582340" := ("texto de hoje", expiry)]>
  (<["analysis:2025-12-08:all-245-1582340:timestamp" := ("2025-12-08T00:30:00.000Z", expiry)]>
  (<["analysis:2025-12-05:all-245-1582340" := ("texto de sexta", expiry)]> ∅)).

Definition store : Redis.t :=
  {| Redis.kv := entries; Redis.rejects := λ _, None; Redis.cmds := [] |}.

(** The same store, on a connection that rejects its third command: the
    first lookup of yesterday in a scan. *)
Definition flakyStore : Redis.t :=
  {| Redis.kv := entries;
     Redis.rejects := λ p, if bool_decide (p = 2%nat) then Some "Connection is closed." else None;
     Redis.cmds := [] |}.

(** A store that rejects every command. *)
Definition downStore : Redis.t :=
  {| Redis.kv := entries;
     Redis.rejects := λ _, Some "Connection is closed.";
     Redis.cmds := [] |}.

Definition world (prod : bool) (srv : Redis.t) (post : nat → string → AxiosReply) : World :=
  {| PROD := prod; clock := instant; localTZA := JsDate.utc; server := srv;
     offline := λ _, false;
     localStorage := ∅; storageDenied := false; storageFull := false;
     gemini := λ i model _, post i model;
     buildAnalysisPrompt := λ _ _, Return "prompt";
     log := [] |}.

(** A [POST] that names the key and carries no analysis text. *)
Definition postWithoutAnalysis : Request :=
  {| method := "POST"; url := Some "/api/analysis"; query := ∅;
     body := Some {| body_dataKey := Some key; body_analysis := None |} |}.

Definition row (day : Z) (n : Z) : ProcessedCampaignData :=
  {| date := day * 86400000; campaignName := "BRB"; impressions := n; clicks := 1;
     videoViews := 0; videoCompletions := 0; totalEngagements := 0;
     veiculo := "Meta"; tipoDeCompra := "CPM"; campanha := "Cartões" |}.

(** Four weeks of rows: [weekB] has the rows of [weekA] changed, with as
    many rows and the same sum; [weekC] has another sum; [weekD] has the
    sum of [weekA] in one row. *)
Definition weekA : list ProcessedCampaignData := [row 20430 100; row 20431 200].
Definition weekB : list ProcessedCampaignData := [row 20430 150; row 20431 150].
Definition weekC : list ProcessedCampaignData := [row 20430 100; row 20431 201].
Definition weekD : list ProcessedCampaignData := [row 20430 300].

(** A browser outside production, whose local storage holds the analysis
    of today and an analysis of October. *)
Definition localWorld : World :=
  {| PROD := false; clock := instant; localTZA := JsDate.utc; server := store;
     offline := λ _, false;
     localStorage :=
       <["analysis:2025-12-08:all-245-1582340" := "texto de hoje"]>
       (<["analysis:2025-10-01:all-245-1582340" := "texto de outubro"]>
       (<["tema" := "escuro"]> ∅));
     storageDenied := false; storageFull := false;
     gemini := λ i model _, secondAnswers i model;
     buildAnalysisPrompt := λ _ _, Return "prompt";
     log := [] |}.

(** The time zone of São Paulo, three hours behind UTC; and a zone one
    hour ahead of UTC in summer, whose summer time ends at the instant
    [t0]. *)
Definition saoPaulo : JsDate.Zone := λ _ _, -10800000.

Definition summerTimeUntil (t0 : Z) : JsDate.Zone := λ t isUTC,
  if bool_decide (t < (if isUTC then t0 else t0 + 3600000)) then 3600000 else 0.

(** The browser of [localWorld] in a time zone, with an analysis of the
    seventh of December and one of the seventh of November as well. *)
Definition localWorldIn (zone : JsDate.Zone) : World :=
  {| PROD := false; clock := instant; localTZA := zone; server := store;
     offline := λ _, false;
     localStorage :=
       <["analysis:2025-12-07:all-245-1582340" := "texto de domingo"]>
       (<["analysis:2025-11-07:all-245-1582340" := "texto de novembro"]>
       (localStorage localWorld));
     storageDenied := false; storageFull := false;
     gemini := λ i model _, secondAnswers i model;
     buildAnalysisPrompt := λ _ _, Return "prompt";
     log := [] |}.

(** The props of the component on [weekA] with the campaign BRB selected,
    and a world in production with the sample store. *)
Definition propsA : Props :=
  {| data := weekA; allData := weekA; periodFilter := Days7;
     selectedCampaign := Some "BRB" |}.

Definition worldA : World := world true store secondAnswers.

End Sample.

(** ** More of the cache service, and more observations *)

(** [getAnalysisByDate] of [src/services/cache.ts]: the entry of a key on
    a given day. *)
Definition getAnalysisByDate (dataKey day : string) : M World (option Json) :=
  try_catch
    (let* api := Cache.readUrl in
     match api with
     | Some apiUrl =>
         try_catch
           (let* data :=
              axiosCache {| method := "GET"; url := Some apiUrl;
                            query := <["date" := day]> {[ "dataKey" := dataKey ]};
                            body := None |} in
            ret (Some data))
           (λ error, if Cache.is404 error then ret None else throw error)
     | None =>
         let cacheKey := cacheKeyOf day dataKey in
         let* cached := getItem cacheKey in
         let* timestamp := getItem (timestampKeyOf cacheKey) in
         match cached with
         | Some (String c r) =>
             let* t := now in
             ret (Some (Cache.cacheResponse (String c r) true
                          (Str.or_else timestamp (JsDate.toISOString t))))
         | _ => ret None
         end
     end)
    (λ _, ret None).

(** The requests that the cache service sends for a key: the lookup of
    today's entry, the lookup of the entry of a day, and the save. *)
Definition lookupRequest (dataKey : string) : Request :=
  {| method := "GET"; url := Some "/api/analysis";
     query := {[ "dataKey" := dataKey ]}; body := None |}.

Definition lookupByDayRequest (dataKey day : string) : Request :=
  {| method := "GET"; url := Some "/api/analysis";
     query := <["date" := day]> {[ "dataKey" := dataKey ]}; body := None |}.

Definition saveRequest (dataKey a : string) : Request :=
  {| method := "POST"; url := Some "/api/analysis"; query := ∅;
     body := Some {| body_dataKey := Some dataKey; body_analysis := Some a |} |}.

(** The store after both writes of a save at [now] were accepted. *)
Definition afterSave (now : Z) (cacheKey a : string) (ttl : Z) (r : Redis.t) : Redis.t :=
  {| Redis.kv :=
       <[timestampKeyOf cacheKey := (JsDate.toISOString now, now + ttl * 1000)]>
         (<[cacheKey := (a, now + ttl * 1000)]> (Redis.kv r));
     Redis.rejects := Redis.rejects r;
     Redis.cmds := Redis.cmds r ++
       [Redis.SET cacheKey a ttl;
        Redis.SET (timestampKeyOf cacheKey) (JsDate.toISOString now) ttl] |}.

(** The retention of the extended deployment, in milliseconds. *)
Definition retention : Z := 2592000 * 1000.

(** The cutoff date of [cleanOldCache]: the day thirty days before today
    on the calendar of the browser. *)
Definition cutoffDateOf (w : World) : string :=
  JsDate.format_yyyy_MM_dd (localTZA w) (JsDate.subLocalDays (localTZA w) (clock w) 30).

(** The keys that [cleanOldCache] removes, for a cutoff date. *)
Definition isOld (cutoffDate key : string) : bool :=
  Str.startsWith "analysis:" key &&
  match Cache.dateMatch key with
  | Some d => Str.lt d cutoffDate
  | None => false
  end.

(** The error kept as [lastError] when every model from position [i] on
    failed. *)
Fixpoint lastErrorAfter (post : nat → string → AxiosReply) (i : nat)
    (models : list string) (lastError : option JsError) : option JsError :=
  match models with
  | [] => lastError
  | model :: rest => lastErrorAfter post (S i) rest (Some (lastErrorOf model (post i model)))
  end.

(** The computations of the handler that send lookups only. *)
Definition readsOnly (m : M Redis.t Response) : Prop :=
  ∀ r, ∃ cs, (m r).2 = afterSending cs r ∧ Forall (λ c, Redis.is_write c = false) cs.

(** The computations of the handler that respond with one of the given
    status codes when they return. *)
Definition answers (codes : list Z) (m : M Redis.t Response) : Prop :=
  ∀ r, match (m r).1 with
       | Return resp => status resp ∈ codes
       | Throw _ => True
       end.

(** A computation that keeps an observation [f] of the world. *)
Definition keeps {A X} (f : World → X) (m : M World A) : Prop := ∀ w, f (m w).2 = f w.

(** A world in which every request reaches the endpoint, the store answers
    every command and the local storage can be read. *)
Definition healthy (w : World) : Prop :=
  (∀ n, offline w n = false) ∧
  (∀ n, Redis.rejects (server w) n = None) ∧
  storageDenied w = false.

(** ** The aggregation of the rows ([aggregateByCampaign], [gemini.ts])

    The totals are accumulated with the addition of numbers
    ([Number.add]).  The three rates of a campaign and of a vehicle are
    numbers with a fraction: the type of these numbers, its zero and the
    operation [(a / b) * 100] on two counts are taken as given. *)

Section Aggregation.

Variable F : Type.
Variable zero : F.
(** [(a / b) * 100]. *)
Variable percent : Z → Z → F.

Record VehicleMetrics := {
  vm_veiculo : string;
  vm_tipoDeCompra : string;
  impressoes : Z;
  cliques : Z;
  views : Z;
  views100 : Z;
  engajamentos : Z;
  vm_ctr : F;
  vm_vtr : F;
  vm_taxaEngajamento : F;
}.

Record CampaignMetrics := {
  cm_campanha : string;
  totalImpressoes : Z;
  totalCliques : Z;
  totalViews : Z;
  totalViews100 : Z;
  totalEngajamentos : Z;
  cm_ctr : F;
  cm_vtr : F;
  cm_taxaEngajamento : F;
  veiculos : list VehicleMetrics;
}.

(** The vehicle of a row, with the counts of the row added. *)
Definition addToVehicle (item : ProcessedCampaignData) (v : VehicleMetrics)
    : VehicleMetrics :=
  {| vm_veiculo := vm_veiculo v; vm_tipoDeCompra := vm_tipoDeCompra v;
     impressoes := Number.add (impressoes v) (impressions item);
     cliques := Number.add (cliques v) (clicks item);
     views := Number.add (views v) (videoViews item);
     views100 := Number.add (views100 v) (videoCompletions item);
     engajamentos := Number.add (engajamentos v) (totalEngagements item);
     vm_ctr := vm_ctr v; vm_vtr := vm_vtr v;
     vm_taxaEngajamento := vm_taxaEngajamento v |}.

Definition newVehicle (item : ProcessedCampaignData) : VehicleMetrics :=
  {| vm_veiculo := veiculo item; vm_tipoDeCompra := tipoDeCompra item;
     impressoes := 0; cliques := 0; views := 0; views100 := 0; engajamentos := 0;
     vm_ctr := zero; vm_vtr := zero; vm_taxaEngajamento := zero |}.

Definition sameVehicle (item : ProcessedCampaignData) (v : VehicleMetrics) : bool :=
  bool_decide (vm_veiculo v = veiculo item) &&
  bool_decide (vm_tipoDeCompra v = tipoDeCompra item).

(** [veiculos.find(...)], the vehicle pushed when there is none, and the
    counts added to it, in place. *)
Fixpoint upsertVehicle (item : ProcessedCampaignData) (vs : list VehicleMetrics)
    : list VehicleMetrics :=
  match vs with
  | [] => [addToVehicle item (newVehicle item)]
  | v :: rest =>
      if sameVehicle item v then addToVehicle item v :: rest
      else v :: upsertVehicle item rest
  end.

(** [item.campanha || 'Sem campanha']. *)
Definition campanhaOf (item : ProcessedCampaignData) : string :=
  Str.or_else (Some (campanha item)) "Sem campanha".

Definition addToCampaign (item : ProcessedCampaignData) (c : CampaignMetrics)
    : CampaignMetrics :=
  {| cm_campanha := cm_campanha c;
     totalImpressoes := Number.add (totalImpressoes c) (impressions item);
     totalCliques := Number.add (totalCliques c) (clicks item);
     totalViews := Number.add (totalViews c) (videoViews item);
     totalViews100 := Number.add (totalViews100 c) (videoCompletions item);
     totalEngajamentos := Number.add (totalEngajamentos c) (totalEngagements item);
     cm_ctr := cm_ctr c; cm_vtr := cm_vtr c;
     cm_taxaEngajamento := cm_taxaEngajamento c;
     veiculos := upsertVehicle item (veiculos c) |}.

Definition newCampaign (name : string) : CampaignMetrics :=
  {| cm_campanha := name;
     totalImpressoes := 0; totalCliques := 0; totalViews := 0; totalViews100 := 0;
     totalEngajamentos := 0;
     cm_ctr := zero; cm_vtr := zero; cm_taxaEngajamento := zero;
     veiculos := [] |}.

(** The map of the campaigns, in the order in which their keys were set:
    the campaign of the row is created at the end when it is missing, and
    the row is added to it where it stands. *)
Fixpoint upsertCampaign (item : ProcessedCampaignData) (m : list CampaignMetrics)
    : list CampaignMetrics :=
  match m with
  | [] => [addToCampaign item (newCampaign (campanhaOf item))]
  | c :: rest =>
      if bool_decide (cm_campanha c = campanhaOf item) then addToCampaign item c :: rest
      else c :: upsertCampaign item rest
  end.

(** The first [forEach]: the rows, from the first to the last. *)
Definition accumulate (data : list ProcessedCampaignData) : list CampaignMetrics :=
  foldl (λ m item, upsertCampaign item m) [] data.

(** [array.sort((a, b) => key(b) - key(a))]: a stable sort by decreasing
    key. *)
Fixpoint insertDesc {A} (key : A → Z) (x : A) (l : list A) : list A :=
  match l with
  | [] => [x]
  | y :: rest =>
      if bool_decide (key y ≤ key x) then x :: y :: rest
      else y :: insertDesc key x rest
  end.

Definition sortDesc {A} (key : A → Z) (l : list A) : list A :=
  foldr (insertDesc key) [] l.

(** The rates of a vehicle and of a campaign, from their totals. *)
Definition rateVehicle (v : VehicleMetrics) : VehicleMetrics :=
  if bool_decide (0 < impressoes v) then
    {| vm_veiculo := vm_veiculo v; vm_tipoDeCompra := vm_tipoDeCompra v;
       impressoes := impressoes v; cliques := cliques v; views := views v;
       views100 := views100 v; engajamentos := engajamentos v;
       vm_ctr := percent (cliques v) (impressoes v);
       vm_vtr := percent (views100 v) (impressoes v);
       vm_taxaEngajamento := percent (engajamentos v) (impressoes v) |}
  else v.

(** The second [forEach], on one campaign: its rates, the rates of its
    vehicles, and its vehicles sorted by impressions. *)
Definition finishCampaign (c : CampaignMetrics) : CampaignMetrics :=
  {| cm_campanha := cm_campanha c;
     totalImpressoes := totalImpressoes c; totalCliques := totalCliques c;
     totalViews := totalViews c; totalViews100 := totalViews100 c;
     totalEngajamentos := totalEngajamentos c;
     cm_ctr := if bool_decide (0 < totalImpressoes c)
               then percent (totalCliques c) (totalImpressoes c) else cm_ctr c;
     cm_vtr := if bool_decide (0 < totalImpressoes c)
               then percent (totalViews100 c) (totalImpressoes c) else cm_vtr c;
     cm_taxaEngajamento :=
       if bool_decide (0 < totalImpressoes c)
       then percent (totalEngajamentos c) (totalImpressoes c)
       else cm_taxaEngajamento c;
     veiculos := sortDesc impressoes (map rateVehicle (veiculos c)) |}.

Definition aggregateByCampaign (data : list ProcessedCampaignData) : list CampaignMetrics :=
  sortDesc totalImpressoes (map finishCampaign (accumulate data)).

(** The sum of a count over a list, as an integer. *)
Definition total {A} (f : A → Z) (l : list A) : Z := foldr (λ x acc, f x + acc) 0 l.

(** Counts in the range where numbers add exactly: their magnitudes add
    up to [Number.MAX_SAFE_INTEGER] at most, so that every sum of some of
    them, in any order and grouping, is a safe integer. *)
Definition magnitude {A} (f : A → Z) (l : list A) : Z := total (λ x, Z.abs (f x)) l.

Definition safe {A} (f : A → Z) (l : list A) : Prop :=
  magnitude f l ≤ Number.MAX_SAFE_INTEGER.

Definition safeCounts (data : list ProcessedCampaignData) : Prop :=
  safe impressions data ∧ safe clicks data ∧ safe videoViews data ∧
  safe videoCompletions data ∧ safe totalEngagements data.

(** A list in decreasing order of a key. *)
Fixpoint decreasing {A} (key : A → Z) (l : list A) : Prop :=
  match l with
  | [] => True
  | x :: rest => Forall (λ y, key y ≤ key x) rest ∧ decreasing key rest
  end.

(** The rows of a campaign. *)
Definition rowsOf (name : string) (data : list ProcessedCampaignData)
    : list ProcessedCampaignData :=
  filter (λ item, campanhaOf item = name) data.

(** What [find] compares of a vehicle. *)
Definition vehicleKey (v : VehicleMetrics) : string * string :=
  (vm_veiculo v, vm_tipoDeCompra v).

(** The rows of a vehicle of a campaign. *)
Definition rowsOfVehicle (name : string) (k : string * string)
    (data : list ProcessedCampaignData) : list ProcessedCampaignData :=
  filter (λ item, (veiculo item, tipoDeCompra item) = k) (rowsOf name data).

(** The five totals of a campaign are the sums over its rows. *)
Definition sumsRows (data : list ProcessedCampaignData) (c : CampaignMetrics) : Prop :=
  totalImpressoes c = total impressions (rowsOf (cm_campanha c) data) ∧
  totalCliques c = total clicks (rowsOf (cm_campanha c) data) ∧
  totalViews c = total videoViews (rowsOf (cm_campanha c) data) ∧
  totalViews100 c = total videoCompletions (rowsOf (cm_campanha c) data) ∧
  totalEngajamentos c = total totalEngagements (rowsOf (cm_campanha c) data).

(** The five totals of a campaign are the sums over its vehicles. *)
Definition sumsVehicles (c : CampaignMetrics) : Prop :=
  total impressoes (veiculos c) = totalImpressoes c ∧
  total cliques (veiculos c) = totalCliques c ∧
  total views (veiculos c) = totalViews c ∧
  total views100 (veiculos c) = totalViews100 c ∧
  total engajamentos (veiculos c) = totalEngajamentos c.

(** The rates of a campaign: computed from its totals when it has
    impressions, zero otherwise. *)
Definition rated (c : CampaignMetrics) : Prop :=
  if bool_decide (0 < totalImpressoes c) then
    cm_ctr c = percent (totalCliques c) (totalImpressoes c) ∧
    cm_vtr c = percent (totalViews100 c) (totalImpressoes c) ∧
    cm_taxaEngajamento c = percent (totalEngajamentos c) (totalImpressoes c)
  else cm_ctr c = zero ∧ cm_vtr c = zero ∧ cm_taxaEngajamento c = zero.

Definition unrated (c : CampaignMetrics) : Prop :=
  cm_ctr c = zero ∧ cm_vtr c = zero ∧ cm_taxaEngajamento c = zero.

(** The same of a vehicle. *)
Definition ratedVehicle (v : VehicleMetrics) : Prop :=
  if bool_decide (0 < impressoes v) then
    vm_ctr v = percent (cliques v) (impressoes v) ∧
    vm_vtr v = percent (views100 v) (impressoes v) ∧
    vm_taxaEngajamento v = percent (engajamentos v) (impressoes v)
  else vm_ctr v = zero ∧ vm_vtr v = zero ∧ vm_taxaEngajamento v = zero.

Definition unratedVehicle (v : VehicleMetrics) : Prop :=
  vm_ctr v = zero ∧ vm_vtr v = zero ∧ vm_taxaEngajamento v = zero.

End Aggregation.

Arguments vm_veiculo {F} _.
Arguments vm_tipoDeCompra {F} _.
Arguments impressoes {F} _.
Arguments cliques {F} _.
Arguments views {F} _.
Arguments views100 {F} _.
Arguments engajamentos {F} _.
Arguments vm_ctr {F} _.
Arguments vm_vtr {F} _.
Arguments vm_taxaEngajamento {F} _.
Arguments cm_campanha {F} _.
Arguments totalImpressoes {F} _.
Arguments totalCliques {F} _.
Arguments totalViews {F} _.
Arguments totalViews100 {F} _.
Arguments totalEngajamentos {F} _.
Arguments cm_ctr {F} _.
Arguments cm_vtr {F} _.
Arguments cm_taxaEngajamento {F} _.
Arguments veiculos {F} _.
Arguments addToVehicle {F} _ _.
Arguments newVehicle {F} _ _.
Arguments sameVehicle {F} _ _.
Arguments upsertVehicle {F} _ _ _.
Arguments addToCampaign {F} _ _ _.
Arguments newCampaign {F} _ _.
Arguments upsertCampaign {F} _ _ _.
Arguments accumulate {F} _ _.
Arguments rateVehicle {F} _ _.
Arguments finishCampaign {F} _ _.
Arguments aggregateByCampaign {F} _ _ _.
Arguments vehicleKey {F} _.
Arguments sumsRows {F} _ _.
Arguments sumsVehicles {F} _.
Arguments rated {F} _ _ _.
Arguments unrated {F} _ _.
Arguments ratedVehicle {F} _ _ _.
Arguments unratedVehicle {F} _ _.

(** Rows of three campaigns, one of them without a name and one of them
    without impressions, and rates kept as fractions. *)
Module SampleRows.

Definition fraction : Type := Z * Z.

Definition percent (a b : Z) : fraction := (a * 100, b).

Definition row (name vehicle purchase : string) (n k : Z) : ProcessedCampaignData :=
  {| date := 20430 * 86400000; campaignName := "BRB"; impressions := n; clicks := k;
     videoViews := 0; videoCompletions := 0; totalEngagements := 0;
     veiculo := vehicle; tipoDeCompra := purchase; campanha := name |}.

Definition rows : list ProcessedCampaignData :=
  [ row "Cartões" "Meta" "CPM" 100 1;
    row "" "TikTok" "CPV" 50 2;
    row "Seguros" "Meta" "CPM" 0 0;
    row "Cartões" "TikTok" "CPM" 300 3;
    row "Cartões" "Meta" "CPM" 250 4;
    row "" "TikTok" "CPV" 400 5 ].

End SampleRows.

(** * Lemmas and theorems *)

(** ** Strings and numerals *)

Section StringFacts.

Implicit Types s t : string.

Lemma append_nil s : "" +:+ s = s.
Proof. reflexivity. Qed.

Lemma append_cons a s t : String a s +:+ t = String a (s +:+ t).
Proof. reflexivity. Qed.

Lemma includes_append c s t :
  Str.includes c (s +:+ t) = Str.includes c s || Str.includes c t.
Proof.
  induction s as [|a s IH]; [done|].
  rewrite append_cons. simpl. case_decide; [done|apply IH].
Qed.

Lemma length_append s t :
  String.length (s +:+ t) = (String.length s + String.length t)%nat.
Proof.
  induction s as [|a s IH]; [done|].
  rewrite append_cons. simpl. by rewrite IH.
Qed.

(** Concatenation cancels on the right. *)
Lemma append_inj_r t s1 s2 : s1 +:+ t = s2 +:+ t → s1 = s2.
Proof.
  revert s2. induction s1 as [|a s1 IH]; intros [|b s2] H.
  - done.
  - apply (f_equal String.length) in H.
    rewrite !length_append in H. simpl in H. lia.
  - apply (f_equal String.length) in H.
    rewrite !length_append in H. simpl in H. lia.
  - rewrite !append_cons in H. injection H as -> H. f_equal. by apply IH.
Qed.

Lemma all_chars_excludes P c s :
  P c = false → all_chars P s = true → Str.includes c s = false.
Proof.
  intros Hc. induction s as [|a s IH]; simpl; [done|].
  intros [Ha Hs]%andb_prop. case_decide; [congruence|auto].
Qed.

End StringFacts.

Lemma pretty_N_char_digit x : is_digit (pretty_N_char x) = true.
Proof. unfold pretty_N_char. by repeat case_match. Qed.

Lemma pretty_N_go_digits x s :
  all_chars is_digit s = true → all_chars is_digit (pretty_N_go x s) = true.
Proof.
  revert s. induction (N.lt_wf_0 x) as [x _ IH]; intros s Hs.
  destruct (decide (x = 0)%N) as [->|Hx].
  - by rewrite pretty_N_go_0.
  - rewrite pretty_N_go_step by lia. apply IH.
    + apply N.div_lt; lia.
    + simpl. by rewrite pretty_N_char_digit.
Qed.

Lemma pretty_N_digits (x : N) : all_chars is_digit (pretty x) = true.
Proof.
  unfold pretty, pretty_N. case_decide; [done|].
  by apply pretty_N_go_digits.
Qed.

Lemma pretty_N_no_colon (x : N) : Str.includes ":" (pretty x) = false.
Proof.
  apply (all_chars_excludes is_digit); [done|apply pretty_N_digits].
Qed.

Lemma numberToString_no_colon n : Str.includes ":" (numberToString n) = false.
Proof.
  destruct n as [|p|p]; [done| |].
  - apply (pretty_N_no_colon (Npos p)).
  - change (numberToString (Z.neg p)) with ("-" +:+ pretty (Npos p)).
    rewrite includes_append. by rewrite pretty_N_no_colon.
Qed.

Lemma numberToString_inj n m : numberToString n = numberToString m → n = m.
Proof. apply (inj pretty). Qed.

Example numberToString_245 : numberToString 245 = "245".
Proof. reflexivity. Qed.

Example numberToString_negative : numberToString (-17) = "-17".
Proof. reflexivity. Qed.

Example toISOString_sample :
  JsDate.toISOString (20430 * 86400000 + 3723004) = "2025-12-08T01:02:03.004Z".
Proof. reflexivity. Qed.

Example isoDay_leap : JsDate.isoDay 1709251199999 = "2024-02-29".
Proof. reflexivity. Qed.

(** ** Numbers *)

(** A safe integer is a binary64 value. *)
Lemma round_safe (x : Z) : Z.abs x ≤ Number.MAX_SAFE_INTEGER → Number.round x = x.
Proof.
  intros Hx. unfold Number.round. cbv zeta.
  rewrite bool_decide_eq_true_2; [done|].
  destruct (decide (Z.abs x = 0)) as [->|Hne]; [done|].
  assert (Z.log2 (Z.abs x) < 53); [|lia].
  apply Z.log2_lt_pow2; [lia|].
  unfold Number.MAX_SAFE_INTEGER in Hx. lia.
Qed.

(** Two numbers whose sum is a safe integer add exactly. *)
Lemma add_safe (a b : Z) :
  Z.abs (a + b) ≤ Number.MAX_SAFE_INTEGER → Number.add a b = a + b.
Proof. apply round_safe. Qed.

(** Beyond the safe integers a sum is rounded: [2^53 + 1] is [2^53]. *)
Example add_rounds :
  Number.add 9007199254740992 1 = 9007199254740992 ∧
  Number.add 9007199254740992 3 = 9007199254740996 ∧
  Number.add (Number.add 9007199254740992 1) 1 = 9007199254740992.
Proof. by vm_compute. Qed.

Section Totals.

Context {A : Type}.

Implicit Types (f : A → Z) (l k : list A).

Lemma total_app f l k : total f (l ++ k) = total f l + total f k.
Proof. induction l as [|x l IH]; simpl; [done|]. rewrite IH. lia. Qed.

Lemma total_perm f l k : l ≡ₚ k → total f l = total f k.
Proof. induction 1; simpl; lia. Qed.

Lemma total_ext f g l : (∀ x, f x = g x) → total f l = total g l.
Proof. intros H. induction l as [|x l IH]; simpl; [done|]. by rewrite H, IH. Qed.

Lemma total_map {B} (f : B → Z) (g : A → B) l :
  total f (map g l) = total (λ x, f (g x)) l.
Proof. induction l as [|x l IH]; simpl; [done|]. by rewrite IH. Qed.

Lemma magnitude_app f l k : magnitude f (l ++ k) = magnitude f l + magnitude f k.
Proof. apply total_app. Qed.

Lemma magnitude_nonneg f l : 0 ≤ magnitude f l.
Proof. unfold magnitude. induction l as [|x l IH]; simpl; lia. Qed.

Lemma abs_total_le f l : Z.abs (total f l) ≤ magnitude f l.
Proof. unfold magnitude. induction l as [|x l IH]; simpl; lia. Qed.

Lemma magnitude_filter f (P : A → Prop) `{!∀ x, Decision (P x)} l :
  magnitude f (filter P l) ≤ magnitude f l.
Proof.
  unfold magnitude. induction l as [|x l IH]; [done|].
  destruct (decide (P x)).
  - rewrite filter_cons_True by done. simpl. lia.
  - rewrite filter_cons_False by done. simpl. lia.
Qed.

Lemma safe_snoc f l x : safe f (l ++ [x]) → safe f l.
Proof.
  unfold safe. rewrite magnitude_app. pose proof (magnitude_nonneg f [x]). lia.
Qed.

(** The running sum of [reduce] over counts in the safe range is their
    sum. *)
Lemma foldl_add_exact f l :
  safe f l → foldl (λ sum x, Number.add sum (f x)) 0 l = total f l.
Proof.
  induction l as [|x l IH] using rev_ind; [done|].
  intros Hs. rewrite foldl_app. simpl. rewrite IH by (by eapply safe_snoc).
  rewrite add_safe.
  - rewrite total_app. simpl. lia.
  - pose proof (abs_total_le f (l ++ [x])) as H. rewrite total_app in H.
    simpl in H. unfold safe in Hs. lia.
Qed.

End Totals.

Lemma totalImpressions_exact (data : list ProcessedCampaignData) :
  safe impressions data → totalImpressions data = total impressions data.
Proof. apply foldl_add_exact. Qed.

(** ** The cache key *)

Example derive_all : derive None 245 1582340 = "all-245-1582340".
Proof. reflexivity. Qed.

Example derive_empty_selection : derive (Some "") 2 10 = "all-2-10".
Proof. reflexivity. Qed.

Lemma derive_inj_count sel n n' sum :
  derive sel n sum = derive sel n' sum → n = n'.
Proof.
  unfold derive. intros H.
  apply (inj (String.app _)) in H.
  apply (inj (String.app "-")) in H.
  apply append_inj_r in H.
  apply numberToString_inj in H. lia.
Qed.

Lemma derive_inj_sum sel n sum sum' :
  derive sel n sum = derive sel n sum' → sum = sum'.
Proof.
  unfold derive. intros H.
  do 4 apply (inj (String.app _)) in H.
  by apply numberToString_inj.
Qed.

Lemma dataKey_Days7 d sel :
  d ≠ [] → dataKey d Days7 sel = Some (derive sel (length d) (totalImpressions d)).
Proof.
  intros Hd. unfold dataKey.
  rewrite bool_decide_eq_false_2 by (intros H; by apply H).
  rewrite bool_decide_eq_false_2; [done|].
  by destruct d.
Qed.

Lemma dataKey_empty pf sel : dataKey [] pf sel = None.
Proof. unfold dataKey. simpl. by rewrite orb_true_r. Qed.

(** C5.  For rows whose impressions are counts in the range where numbers
    add exactly, the key is a function of the selected campaign, the number
    of rows and the sum of the impressions: two data sets under one
    selection with as many rows and the same sum have the same key,
    whatever their rows; and, the period being the seven days, the key
    changes when the number of rows changes at an equal sum, and when the
    sum changes at an equal number of rows. *)
Theorem dataKey_count_and_sum (sel : option string) (d1 d2 : list ProcessedCampaignData) :
  safe impressions d1 → safe impressions d2 →
  (length d1 = length d2 → total impressions d1 = total impressions d2 →
   ∀ pf, dataKey d1 pf sel = dataKey d2 pf sel) ∧
  (length d1 ≠ length d2 → total impressions d1 = total impressions d2 →
   dataKey d1 Days7 sel ≠ dataKey d2 Days7 sel) ∧
  (length d1 = length d2 → total impressions d1 ≠ total impressions d2 →
   dataKey d1 Days7 sel ≠ dataKey d2 Days7 sel).
Proof.
  intros Hs1 Hs2. rewrite <- !totalImpressions_exact by done.
  split; [|split].
  - intros Hlen Hsum pf. unfold dataKey. by rewrite Hlen, Hsum.
  - intros Hlen Hsum.
    destruct d1 as [|x1 d1], d2 as [|x2 d2]; [done|..].
    + by rewrite dataKey_empty, dataKey_Days7.
    + by rewrite dataKey_empty, dataKey_Days7.
    + rewrite !dataKey_Days7 by done. rewrite Hsum. intros [= H].
      by apply derive_inj_count in H.
  - intros Hlen Hsum.
    destruct d1 as [|x1 d1], d2 as [|x2 d2]; [done..|].
    rewrite !dataKey_Days7 by done. rewrite Hlen. intros [= H].
    by apply derive_inj_sum in H.
Qed.

Lemma dataKey_count_and_sum_witness :
  dataKey Sample.weekA Days7 (Some "BRB") = dataKey Sample.weekB Days7 (Some "BRB") ∧
  dataKey Sample.weekA Days7 (Some "BRB") ≠ dataKey Sample.weekD Days7 (Some "BRB") ∧
  dataKey Sample.weekA Days7 (Some "BRB") ≠ dataKey Sample.weekC Days7 (Some "BRB").
Proof.
  split; [|split].
  - apply (proj1 (dataKey_count_and_sum (Some "BRB") Sample.weekA Sample.weekB
                    ltac:(by vm_compute) ltac:(by vm_compute)));
      reflexivity.
  - apply (proj1 (proj2 (dataKey_count_and_sum (Some "BRB") Sample.weekA Sample.weekD
                           ltac:(by vm_compute) ltac:(by vm_compute)))).
    + simpl. lia.
    + reflexivity.
  - apply (proj2 (proj2 (dataKey_count_and_sum (Some "BRB") Sample.weekA Sample.weekC
                           ltac:(by vm_compute) ltac:(by vm_compute)))).
    + reflexivity.
    + vm_compute. discriminate.
Defined.

(** Outside that range the sum that the key is made of is a rounded one:
    two data sets with as many rows whose sums differ can have one key. *)
Example dataKey_rounded_sum :
  let d1 := [Sample.row 20430 9007199254740992; Sample.row 20431 1] in
  let d2 := [Sample.row 20430 9007199254740992; Sample.row 20431 0] in
  total impressions d1 ≠ total impressions d2 ∧
  dataKey d1 Days7 None = Some "all-2-9007199254740992" ∧
  dataKey d2 Days7 None = Some "all-2-9007199254740992".
Proof. cbv zeta. split_and!; by vm_compute. Qed.

Example dataKey_weekA : dataKey Sample.weekA Days7 (Some "BRB") = Some "BRB-2-300".
Proof. reflexivity. Qed.

(** C9, as amended.  The key holds the delimiter [:] exactly when the
    selected campaign name does; with no campaign selected it holds
    none. *)
Theorem derive_colon (sel : option string) (n : nat) (sum : Z) :
  Str.includes ":" (derive sel n sum) = Str.includes ":" (Str.or_else sel "all") ∧
  Str.includes ":" (derive None n sum) = false.
Proof.
  assert (∀ s, Str.includes ":" (derive s n sum)
               = Str.includes ":" (Str.or_else s "all")) as H.
  { intros s. unfold derive.
    rewrite !includes_append, !numberToString_no_colon. simpl.
    by rewrite !orb_false_r. }
  split; [apply H|]. by rewrite H.
Qed.

(** C9, as stated, fails: a campaign name with a colon gives a key with a
    colon. *)
Lemma derive_colon_counterexample :
  ¬ (∀ (sel : option string) (n : nat) (sum : Z),
       Str.includes ":" (derive sel n sum) = false).
Proof. intros H. by specialize (H (Some "BRB: Cartões") 3%nat 1200). Qed.

(** ** The fallback over the models *)

Section Orchestrator.

Variable post : nat → string → AxiosReply.
Variable prompt : string.
Variable n : nat.

Lemma status_in_disjoint c :
  Gemini.status_in [429; 503; 500] c = true → Gemini.status_in [400; 403; 401] c = false.
Proof.
  destruct c as [c|]; [|done]. simpl.
  intros H%bool_decide_eq_true. apply bool_decide_eq_false.
  rewrite !elem_of_cons, elem_of_nil in H |- *. lia.
Qed.

Lemma status_in_fatal c :
  Gemini.status_in [400; 403; 401] c = Gemini.status_in [400; 401; 403] c.
Proof.
  destruct c as [c|]; [|done]. simpl. apply bool_decide_ext.
  rewrite !elem_of_cons, !elem_of_nil. lia.
Qed.

(** One turn of the loop, by the kind of the attempt. *)
Lemma tryModels_cons i model rest lastError :
  Gemini.tryModels post prompt n i (model :: rest) lastError =
  match succeeds (post i model) with
  | Some text => (Return text, [ModelCall model prompt])
  | None =>
      if fatal (post i model)
      then (Throw (fatalErrorOf (post i model)), [ModelCall model prompt])
      else
        let '(r, tr) :=
          Gemini.tryModels post prompt n (S i) rest
            (Some (lastErrorOf model (post i model))) in
        (r, ModelCall model prompt :: backoffOf n i (post i model) ++ tr)
  end.
Proof.
  simpl. destruct (post i model) as [st cands|e] eqn:Hp; simpl.
  - destruct cands as [[|[text|] cs]|]; simpl;
      unfold backoffOf; simpl; repeat case_bool_decide; simpl; try done.
  - unfold backoffOf. simpl. rewrite <-status_in_fatal.
    destruct (Gemini.status_in [429; 503; 500] _) eqn:H1.
    + rewrite (status_in_disjoint _ H1). by case_bool_decide.
    + destruct (Gemini.status_in [400; 403; 401] _) eqn:H2; [done|].
      by case_bool_decide.
Qed.

Lemma calls_backoffOf i r : calls (backoffOf n i r) = [].
Proof. unfold backoffOf. by case_match. Qed.

Lemma calls_turn model wait tr :
  calls wait = [] → calls (ModelCall model prompt :: wait ++ tr) = model :: calls tr.
Proof.
  intros Hw. unfold calls in *. simpl. by rewrite omap_app, Hw.
Qed.

(** A loop over at least one model starts with a call of the first one. *)
Lemma tryModels_starts i model rest lastError :
  ∃ tr, (Gemini.tryModels post prompt n i (model :: rest) lastError).2
        = ModelCall model prompt :: tr.
Proof.
  rewrite tryModels_cons.
  destruct (succeeds _); [by eexists|].
  destruct (fatal _); [by eexists|].
  destruct (Gemini.tryModels _ _ _ _ _ _) as [r tr]. by eexists.
Qed.

(** The models are called in the order of the list, from the first on. *)
Lemma tryModels_prefix i models lastError :
  calls (Gemini.tryModels post prompt n i models lastError).2 `prefix_of` models.
Proof.
  revert i lastError. induction models as [|model rest IH]; intros i lastError.
  - simpl. by exists [].
  - rewrite tryModels_cons.
    destruct (succeeds _); [by apply (prefix_cons _ []), prefix_nil|].
    destruct (fatal _); [by apply (prefix_cons _ []), prefix_nil|].
    specialize (IH (S i) (Some (lastErrorOf model (post i model)))).
    destruct (Gemini.tryModels _ _ _ _ _ _) as [r tr]. cbn [fst snd] in *.
    rewrite calls_turn by apply calls_backoffOf.
    by apply prefix_cons.
Qed.

Lemma succeeds_not_fatal r text : succeeds r = Some text → fatal r = false.
Proof. by destruct r. Qed.

Lemma succeeds_not_raises r text : succeeds r = Some text → raises r = false.
Proof. by destruct r as [st [[|[t|] cs]|]|e]. Qed.

(** What the attempt at position [j] of the rest of the loop decides. *)
Lemma tryModels_at i models lastError j model :
  let res := Gemini.tryModels post prompt n i models lastError in
  (j < length (calls res.2))%nat → models !! j = Some model →
  (∀ text, succeeds (post (i + j)%nat model) = Some text →
     res.1 = Return text ∧ calls res.2 = take (S j) models) ∧
  (fatal (post (i + j)%nat model) = true →
     res.1 = Throw (fatalErrorOf (post (i + j)%nat model)) ∧
     calls res.2 = take (S j) models) ∧
  (raises (post (i + j)%nat model) = true → fatal (post (i + j)%nat model) = false →
   n = (i + length models)%nat → (S j < length models)%nat →
     waitAfter j res.2 = Some 2000).
Proof.
  revert i lastError j. induction models as [|m rest IH]; intros i lastError j; [done|].
  cbv zeta. rewrite tryModels_cons.
  destruct j as [|j].
  - intros _ [= ->]. rewrite Nat.add_0_r.
    destruct (succeeds (post i model)) as [text|] eqn:Hs.
    { rewrite (succeeds_not_fatal _ _ Hs), (succeeds_not_raises _ _ Hs).
      split_and!; [by intros ? [= ->]|done..]. }
    destruct (fatal (post i model)) eqn:Hf.
    { simpl. by split_and!. }
    split_and!; [done..|].
    intros Hr _ Hn Hlen. simpl in Hlen.
    destruct rest as [|m' rest']; [simpl in Hlen; lia|].
    destruct (tryModels_starts (S i) m' rest' (Some (lastErrorOf model (post i model))))
      as [tr' Htr'].
    destruct (Gemini.tryModels _ _ _ _ (m' :: rest') _) as [r tr].
    cbn [fst snd] in *. subst tr. simpl in Hn.
    unfold backoffOf. rewrite Hr, bool_decide_eq_true_2 by lia. done.
  - intros Hj Hm. simpl in Hm.
    destruct (succeeds (post i m)) as [text|] eqn:Hs; [simpl in Hj; lia|].
    destruct (fatal (post i m)) eqn:Hf; [simpl in Hj; lia|].
    specialize (IH (S i) (Some (lastErrorOf m (post i m))) j).
    destruct (Gemini.tryModels _ _ _ _ rest _) as [r tr]. cbn [fst snd] in *.
    rewrite calls_turn in Hj |- * by apply calls_backoffOf. simpl in Hj.
    replace (i + S j)%nat with (S i + j)%nat by lia.
    destruct (IH ltac:(lia) Hm) as (IH1 & IH2 & IH3).
    split_and!.
    + intros text Ht. destruct (IH1 _ Ht) as [-> ->]. done.
    + intros Ht. destruct (IH2 Ht) as [-> ->]. done.
    + intros Hr Hnf Hn Hlen.
      simpl in Hn, Hlen.
      assert (waitAfter j tr = Some 2000) as <- by (apply IH3; [done..|lia|lia]).
      unfold backoffOf. by case_match.
Qed.

(** An attempt of the rest of the loop is made when every attempt before
    it was retryable. *)
Lemma tryModels_reaches i models lastError j :
  (∀ k m, (k < j)%nat → models !! k = Some m → retryable (post (i + k)%nat m) = true) →
  (j < length models)%nat →
  (j < length (calls (Gemini.tryModels post prompt n i models lastError).2))%nat.
Proof.
  revert i lastError j. induction models as [|m rest IH]; intros i lastError j Hre Hj;
    [simpl in Hj; lia|].
  destruct (tryModels_starts i m rest lastError) as [tr Htr].
  destruct j as [|j]; [rewrite Htr; simpl; lia|].
  rewrite tryModels_cons.
  specialize (Hre 0%nat m ltac:(lia) eq_refl) as Hm.
  rewrite Nat.add_0_r in Hm. unfold retryable in Hm.
  apply andb_prop in Hm as [Hs%negb_true_iff Hf%negb_true_iff].
  apply bool_decide_eq_false in Hs.
  destruct (succeeds (post i m)) eqn:Hsk; [by destruct Hs|].
  rewrite Hf.
  specialize (IH (S i) (Some (lastErrorOf m (post i m))) j).
  destruct (Gemini.tryModels _ _ _ _ rest _) as [r tr'] eqn:Hrest. cbn [fst snd] in *.
  rewrite calls_turn by apply calls_backoffOf. simpl.
  apply ->Nat.succ_lt_mono. apply IH; [|simpl in Hj; lia].
  intros k m' Hk Hm'. replace (S i + k)%nat with (i + S k)%nat by lia.
  apply (Hre (S k)); [lia|done].
Qed.

End Orchestrator.

Example callGeminiAPIWith_secondAnswers :
  Gemini.callGeminiAPIWith Sample.secondAnswers Gemini.MODELS "p" =
  (Return "texto de gemini-2.5-flash-lite",
   [ModelCall "gemini-robotics-er-1.5-preview" "p"; Sleep 2000;
    ModelCall "gemini-2.5-flash-lite" "p"]).
Proof. reflexivity. Qed.

Example callGeminiAPIWith_firstEmpty :
  Gemini.callGeminiAPIWith Sample.firstEmpty Gemini.MODELS "p" =
  (Return "texto de gemini-2.5-flash-lite",
   [ModelCall "gemini-robotics-er-1.5-preview" "p";
    ModelCall "gemini-2.5-flash-lite" "p"]).
Proof. reflexivity. Qed.

Example callGeminiAPIWith_all_rate_limited :
  Gemini.callGeminiAPIWith (λ _ _, Rejected Sample.rateLimited) Gemini.MODELS "p" =
  (Throw (Error ("Todos os 3 modelos falharam ou atingiram o limite. " +:+
                 "Último erro: Request failed with status code 429. " +:+
                 "Tente novamente em alguns minutos.")),
   [ModelCall "gemini-robotics-er-1.5-preview" "p"; Sleep 2000;
    ModelCall "gemini-2.5-flash-lite" "p"; Sleep 2000;
    ModelCall "gemini-2.5-flash" "p"]).
Proof. reflexivity. Qed.

(** An attempt is made when every attempt before it was retryable. *)
Lemma callGeminiAPIWith_reaches post models prompt i :
  (∀ j m, (j < i)%nat → models !! j = Some m → retryable (post j m) = true) →
  (i < length models)%nat →
  (i < length (calls (Gemini.callGeminiAPIWith post models prompt).2))%nat.
Proof. intros Hre Hi. by apply tryModels_reaches. Qed.

(** C2.  The models are called in the order of the list, from the first
    one on; and when the attempt at position [i] is made and succeeds, the
    loop returns its text and the calls made are the first [i + 1] models of
    the list: no model after position [i] is called. *)
Theorem first_success_wins (post : nat → string → AxiosReply) (models : list string)
    (prompt : string) (i : nat) (model text : string) :
  let res := Gemini.callGeminiAPIWith post models prompt in
  calls res.2 `prefix_of` models ∧
  ((i < length (calls res.2))%nat → models !! i = Some model →
   succeeds (post i model) = Some text →
   res.1 = Return text ∧ calls res.2 = take (S i) models).
Proof.
  cbv zeta. split; [apply tryModels_prefix|].
  intros Hi Hm Hs.
  by apply (tryModels_at post prompt (length models) 0 models None i model Hi Hm).
Qed.

Lemma first_success_wins_witness :
  (Gemini.callGeminiAPIWith Sample.secondAnswers Gemini.MODELS "p").1
    = Return "texto de gemini-2.5-flash-lite" ∧
  calls (Gemini.callGeminiAPIWith Sample.secondAnswers Gemini.MODELS "p").2
    = ["gemini-robotics-er-1.5-preview"; "gemini-2.5-flash-lite"].
Proof.
  apply (proj2 (first_success_wins Sample.secondAnswers Gemini.MODELS "p" 1
                  "gemini-2.5-flash-lite" "texto de gemini-2.5-flash-lite")).
  - vm_compute. lia.
  - reflexivity.
  - reflexivity.
Defined.

(** C3.  When the attempt at position [i] is made and fails with status
    400, 401 or 403, the loop throws the fatal error of that attempt and the
    calls made are the first [i + 1] models of the list: no model after
    position [i] is called, whatever it would have answered. *)
Theorem fatal_failure_aborts (post : nat → string → AxiosReply) (models : list string)
    (prompt : string) (i : nat) (model : string) :
  let res := Gemini.callGeminiAPIWith post models prompt in
  (i < length (calls res.2))%nat → models !! i = Some model →
  fatal (post i model) = true →
  res.1 = Throw (fatalErrorOf (post i model)) ∧ calls res.2 = take (S i) models.
Proof.
  cbv zeta. intros Hi Hm Hf.
  by apply (tryModels_at post prompt (length models) 0 models None i model Hi Hm).
Qed.

Lemma fatal_failure_aborts_witness :
  (Gemini.callGeminiAPIWith Sample.firstForbidden Gemini.MODELS "p").1
    = Throw (Error "Erro fatal na API do Gemini (403): API key not valid") ∧
  calls (Gemini.callGeminiAPIWith Sample.firstForbidden Gemini.MODELS "p").2
    = ["gemini-robotics-er-1.5-preview"].
Proof.
  apply (fatal_failure_aborts Sample.firstForbidden Gemini.MODELS "p" 0
           "gemini-robotics-er-1.5-preview").
  - vm_compute. lia.
  - reflexivity.
  - reflexivity.
Defined.

(** C8, as amended.  When the attempt at position [i] is made, raises an
    exception that is not fatal (a rejected request with a status other
    than 400, 401 and 403 or with no status, or a candidate whose text
    cannot be read) and is not the last of the list, a wait of 2000 ms
    stands between its call and the call of the next model. *)
Theorem backoff_after_raised_failure (post : nat → string → AxiosReply)
    (models : list string) (prompt : string) (i : nat) (model : string) :
  let res := Gemini.callGeminiAPIWith post models prompt in
  (i < length (calls res.2))%nat → models !! i = Some model →
  raises (post i model) = true → fatal (post i model) = false →
  (S i < length models)%nat →
  waitAfter i res.2 = Some 2000.
Proof.
  cbv zeta. intros Hi Hm Hr Hf Hlen.
  by apply (tryModels_at post prompt (length models) 0 models None i model Hi Hm).
Qed.

Lemma backoff_after_raised_failure_witness :
  waitAfter 0 (Gemini.callGeminiAPIWith Sample.secondAnswers Gemini.MODELS "p").2
    = Some 2000.
Proof.
  apply (backoff_after_raised_failure Sample.secondAnswers Gemini.MODELS "p" 0
           "gemini-robotics-er-1.5-preview").
  - vm_compute. lia.
  - reflexivity.
  - reflexivity.
  - reflexivity.
  - vm_compute. lia.
Defined.

(** C8, as stated, fails: a 200 response without candidates is a retryable
    attempt, and the next model is called with no wait in between. *)
Lemma backoff_counterexample :
  ¬ (∀ (post : nat → string → AxiosReply) (models : list string) (prompt : string)
       (i : nat) (model : string),
       let res := Gemini.callGeminiAPIWith post models prompt in
       (i < length (calls res.2))%nat → models !! i = Some model →
       retryable (post i model) = true → (S i < length models)%nat →
       ∃ ms, 0 < ms ∧ waitAfter i res.2 = Some ms).
Proof.
  intros H.
  destruct (H Sample.firstEmpty Gemini.MODELS "p" 0%nat "gemini-robotics-er-1.5-preview")
    as (ms & _ & Hms).
  - vm_compute. lia.
  - reflexivity.
  - reflexivity.
  - vm_compute. lia.
  - vm_compute in Hms. discriminate.
Qed.
(** ** The store and the endpoint *)

Section Store.

Implicit Types (r : Redis.t) (cs : list Redis.Cmd).

Lemma afterSending_nil r : afterSending [] r = r.
Proof. destruct r. unfold afterSending. simpl. by rewrite app_nil_r. Qed.

Lemma afterSending_app cs1 cs2 r :
  afterSending cs2 (afterSending cs1 r) = afterSending (cs1 ++ cs2) r.
Proof. unfold afterSending. simpl. by rewrite app_assoc. Qed.

Lemma sent_afterSending c r : Redis.sent c r = afterSending [c] r.
Proof. done. Qed.

Lemma lookup_afterSending now key cs r :
  Redis.lookup now key (afterSending cs r) = Redis.lookup now key r.
Proof. done. Qed.

Lemma writes_afterSending cs r :
  Forall (λ c, Redis.is_write c = false) cs → writes (afterSending cs r) = writes r.
Proof.
  intros Hcs. unfold writes. simpl. rewrite filter_app.
  assert (filter Redis.is_write cs = []) as ->; [|by rewrite app_nil_r].
  induction Hcs as [|c cs Hc _ IH]; [done|].
  rewrite filter_cons_False; [done|]. rewrite Hc. by intros [].
Qed.

Lemma accepts_S r k c : accepts r (S k) → accepts (afterSending [c] r) k.
Proof.
  intros H p Hp. simpl. rewrite length_app. simpl.
  replace (length (Redis.cmds r) + 1 + p)%nat
    with (length (Redis.cmds r) + S p)%nat by lia.
  apply H. lia.
Qed.

Lemma accepts_le r k k' : (k' ≤ k)%nat → accepts r k → accepts r k'.
Proof. intros Hk H p Hp. apply H. lia. Qed.

Lemma get_accepted now key r :
  accepts r 1 →
  Redis.get now key r = (Return (Redis.lookup now key r), afterSending [Redis.GET key] r).
Proof.
  intros H. unfold Redis.get. specialize (H 0%nat ltac:(lia)).
  rewrite Nat.add_0_r in H. by rewrite H.
Qed.

Lemma get_rejected now key r msg :
  Redis.rejects r (length (Redis.cmds r)) = Some msg →
  Redis.get now key r = (Throw (Error msg), afterSending [Redis.GET key] r).
Proof. intros H. unfold Redis.get. by rewrite H. Qed.

(** A lookup never changes the keys and never writes. *)
Lemma get_reads now key r :
  ∃ o, Redis.get now key r = (o, afterSending [Redis.GET key] r).
Proof. unfold Redis.get. destruct (Redis.rejects _ _); by eexists. Qed.

End Store.

Section History.

Variables (now : Z) (dataKey : string).

Lemma scanCmds_cons fmt i days :
  scanCmds fmt now dataKey (i :: days) =
  ([Redis.GET (cacheKeyOf (fmt (JsDate.subDays now (Z.of_nat i))) dataKey);
    Redis.GET (timestampKeyOf (cacheKeyOf (fmt (JsDate.subDays now (Z.of_nat i))) dataKey))]
   ++ scanCmds fmt now dataKey days)%list.
Proof. reflexivity. Qed.

Lemma scanCmds_reads fmt days :
  Forall (λ c, Redis.is_write c = false) (scanCmds fmt now dataKey days).
Proof.
  induction days as [|i days IH]; [constructor|].
  rewrite scanCmds_cons. by repeat constructor.
Qed.

Lemma length_scanCmds fmt days :
  length (scanCmds fmt now dataKey days) = (2 * length days)%nat.
Proof.
  induction days as [|i days IH]; [done|].
  rewrite scanCmds_cons, length_app, IH. simpl. lia.
Qed.

(** The scan of the endpoint when the store answers every lookup. *)
Lemma api_historyLoop_accepted days history r :
  accepts r (2 * length days) →
  Api.historyLoop now dataKey days history r =
  (Return (history ++
           omap (entryOf (λ key, Redis.lookup now key r) JsDate.isoDay now dataKey) days),
   afterSending (scanCmds JsDate.isoDay now dataKey days) r).
Proof.
  revert history r. induction days as [|i days IH]; intros history r Hacc.
  - simpl. unfold ret. by rewrite app_nil_r, afterSending_nil.
  - simpl in Hacc. cbn [Api.historyLoop]. unfold bind at 1.
    rewrite get_accepted by (eapply accepts_le; [|done]; lia).
    unfold bind at 1.
    rewrite get_accepted by (apply accepts_S; eapply accepts_le; [|done]; lia).
    rewrite afterSending_app, lookup_afterSending.
    assert (accepts (afterSending
                       ([Redis.GET (cacheKeyOf (JsDate.isoDay (JsDate.subDays now (Z.of_nat i))) dataKey)] ++
                        [Redis.GET (timestampKeyOf (cacheKeyOf (JsDate.isoDay (JsDate.subDays now (Z.of_nat i))) dataKey))]) r)
                    (2 * length days)) as Hacc'.
    { rewrite <-afterSending_app. apply accepts_S, accepts_S.
      eapply accepts_le; [|done]. lia. }
    cbn [omap list_omap]. unfold entryOf at 1.
    destruct (Redis.lookup now (cacheKeyOf _ dataKey) r) as [[|c s]|] eqn:Hl.
    + rewrite IH by done. rewrite afterSending_app, scanCmds_cons.
      by change (λ key, Redis.lookup now key (afterSending ?cs r))
        with (λ key, Redis.lookup now key r).
    + rewrite IH by done. rewrite afterSending_app, scanCmds_cons, <-app_assoc.
      by change (λ key, Redis.lookup now key (afterSending ?cs r))
        with (λ key, Redis.lookup now key r).
    + rewrite IH by done. rewrite afterSending_app, scanCmds_cons.
      by change (λ key, Redis.lookup now key (afterSending ?cs r))
        with (λ key, Redis.lookup now key r).
Qed.

(** The scan of the endpoint when the store rejects one of its lookups:
    the scan throws, whatever the other days hold. *)
Lemma api_historyLoop_rejected days history r p :
  (p < 2 * length days)%nat →
  is_Some (Redis.rejects r (length (Redis.cmds r) + p)) →
  ∃ e cs, Api.historyLoop now dataKey days history r = (Throw e, afterSending cs r) ∧
          Forall (λ c, Redis.is_write c = false) cs.
Proof.
  revert history r p. induction days as [|i days IH]; intros history r p Hp Hrej;
    [simpl in Hp; lia|].
  cbn [Api.historyLoop]. unfold bind at 1.
  set (k1 := cacheKeyOf (JsDate.isoDay (JsDate.subDays now (Z.of_nat i))) dataKey).
  destruct (Redis.rejects r (length (Redis.cmds r))) as [msg|] eqn:H0.
  { rewrite (get_rejected _ _ _ _ H0). exists (Error msg), [Redis.GET k1].
    split; [done|]. by repeat constructor. }
  rewrite get_accepted
    by (intros q Hq; replace q with 0%nat by lia; by rewrite Nat.add_0_r).
  unfold bind at 1.
  destruct (Redis.rejects r (length (Redis.cmds r) + 1)) as [msg|] eqn:H1.
  { rewrite (get_rejected _ _ _ msg)
      by (simpl; rewrite length_app; simpl; done).
    rewrite afterSending_app.
    exists (Error msg), ([Redis.GET k1] ++ [Redis.GET (timestampKeyOf k1)]).
    split; [done|]. by repeat constructor. }
  rewrite get_accepted.
  2:{ intros q Hq. replace q with 0%nat by lia. simpl.
      rewrite length_app, Nat.add_0_r. simpl. done. }
  rewrite afterSending_app.
  assert (2 ≤ p)%nat as Hp2.
  { destruct p as [|[|p]]; [|by destruct Hrej as [? Hrej]; rewrite H1 in Hrej|lia].
    rewrite Nat.add_0_r in Hrej. destruct Hrej as [? Hrej]. by rewrite H0 in Hrej. }
  set (r2 := afterSending ([Redis.GET k1] ++ [Redis.GET (timestampKeyOf k1)]) r).
  assert (is_Some (Redis.rejects r2 (length (Redis.cmds r2) + (p - 2)))) as Hrej2.
  { unfold r2. simpl. rewrite length_app. simpl.
    replace (length (Redis.cmds r) + 2 + (p - 2))%nat
      with (length (Redis.cmds r) + p)%nat by lia. done. }
  assert (p - 2 < 2 * length days)%nat as Hp' by (simpl in Hp; lia).
  destruct (Redis.lookup now k1 r) as [[|c s]|].
  all: match goal with
       | |- context [Api.historyLoop _ _ _ ?h] =>
           destruct (IH h r2 (p - 2)%nat Hp' Hrej2) as (e & cs & -> & Hcs)
       end.
  all: exists e; eexists; unfold r2; rewrite afterSending_app; split; [done|].
  all: apply Forall_app; split; [by repeat constructor|done].
Qed.

End History.
Section Endpoint.

Variable now : Z.

Implicit Types (r : Redis.t) (req : Request).

(** The read branch sends lookups only. *)
Lemma readEntry_reads cacheKey r :
  ∃ out cs, Api.readEntry now cacheKey r = (out, afterSending cs r) ∧
            Forall (λ c, Redis.is_write c = false) cs.
Proof.
  unfold Api.readEntry, bind.
  destruct (get_reads now cacheKey r) as [o ->].
  destruct o as [[[|c s]|]|e].
  - exists (Return {| status := 404; json := Api.miss |}), [Redis.GET cacheKey].
    split; [done|]. by repeat constructor.
  - destruct (get_reads now (timestampKeyOf cacheKey) (afterSending [Redis.GET cacheKey] r))
      as [o ->].
    rewrite afterSending_app.
    destruct o as [t|e]; eexists; eexists; (split; [done|]); by repeat constructor.
  - exists (Return {| status := 404; json := Api.miss |}), [Redis.GET cacheKey].
    split; [done|]. by repeat constructor.
  - exists (Throw e), [Redis.GET cacheKey]. split; [done|]. by repeat constructor.
Qed.

(** The read branch when the store answers: 200 on a text that is not
    empty, 404 otherwise. *)
Lemma readEntry_accepted cacheKey r :
  accepts r 2 →
  (Api.readEntry now cacheKey r).1 =
  Return
    match Redis.lookup now cacheKey r with
    | Some (String c s) =>
        {| status := 200;
           json := Api.hit (String c s)
                     (Str.or_else (Redis.lookup now (timestampKeyOf cacheKey) r)
                        (JsDate.toISOString now)) |}
    | _ => {| status := 404; json := Api.miss |}
    end.
Proof.
  intros Hacc. unfold Api.readEntry, bind.
  rewrite get_accepted by (eapply accepts_le; [|done]; lia).
  destruct (Redis.lookup now cacheKey r) as [[|c s]|]; [done| |done].
  rewrite get_accepted by (by apply accepts_S). done.
Qed.

(** Catching with [serverError] keeps the outcome of a computation that
    returns, and the store in both cases. *)
Lemma try_catch_serverError (m : M Redis.t Response) r :
  (try_catch m Api.serverError r).2 = (m r).2 ∧
  ∀ resp, (m r).1 = Return resp → (try_catch m Api.serverError r).1 = Return resp.
Proof.
  unfold try_catch. destruct (m r) as [[resp|e] r']; simpl; [done|].
  split; [done|]. by intros ? [=].
Qed.

(** The handlers never throw. *)
Lemma try_catch_serverError_returns (m : M Redis.t Response) r :
  ∃ resp, (try_catch m Api.serverError r).1 = Return resp.
Proof.
  unfold try_catch. destruct (m r) as [[resp|e] r']; simpl; by eexists.
Qed.

Lemma handler_returns req r : ∃ resp, (Api.handler now req r).1 = Return resp.
Proof.
  unfold Api.handler. case_bool_decide; [by eexists|].
  apply try_catch_serverError_returns.
Qed.

(** What both handlers do with a [POST] that names a key and carries no
    analysis text: the read branch on today's key. *)
Lemma handler_post_without_analysis req b k r :
  method req = "POST" → body req = Some b → body_dataKey b = Some k → k ≠ "" →
  Str.truthy (body_analysis b) = false →
  Api.handler now req r =
    try_catch (Api.readEntry now (cacheKeyOf (JsDate.isoDay now) k)) Api.serverError r ∧
  Api.handler_kv now req r =
    try_catch (Api.readEntry now (cacheKeyOf (JsDate.isoDay now) k)) Api.serverError r.
Proof.
  intros Hm Hb Hk Hne Ha.
  assert (Str.truthy (Some k) = true) as Hkt by (by destruct k).
  unfold Api.handler, Api.handler_kv, Api.bodyField. rewrite Hm, Hb, Hk.
  change (bool_decide ("POST" = "OPTIONS")) with false.
  change (bool_decide ("POST" = "GET")) with false.
  change (bool_decide ("POST" = "POST")) with true.
  cbn [andb orb]. unfold try_catch, bind, ret. cbn [negb].
  rewrite Hkt, Ha. cbn [negb orb default]. done.
Qed.

End Endpoint.

(** C10.  A [POST] that names a key and whose body has no analysis text,
    or an empty one, sends no write to the store and leaves its keys as
    they were; when the store answers, the response is that of a read of
    today's entry of the key: status 200 with the stored text and its
    timestamp when the entry holds a text, status 404 otherwise.  Both
    deployments of the handler behave so. *)
Theorem post_without_analysis_is_a_read
    (h : Z → Request → M Redis.t Response) (now : Z) (req : Request)
    (b : AnalysisRequest) (k : string) (r : Redis.t) :
  h = Api.handler ∨ h = Api.handler_kv →
  method req = "POST" → body req = Some b →
  body_dataKey b = Some k → k ≠ "" →
  Str.truthy (body_analysis b) = false →
  let cacheKey := cacheKeyOf (JsDate.isoDay now) k in
  Redis.kv (h now req r).2 = Redis.kv r ∧
  writes (h now req r).2 = writes r ∧
  (accepts r 2 →
   (h now req r).1 =
   Return
     match Redis.lookup now cacheKey r with
     | Some (String c s) =>
         {| status := 200;
            json := Api.hit (String c s)
                      (Str.or_else (Redis.lookup now (timestampKeyOf cacheKey) r)
                         (JsDate.toISOString now)) |}
     | _ => {| status := 404; json := Api.miss |}
     end).
Proof.
  intros Hh Hm Hb Hk Hne Ha cacheKey.
  destruct (handler_post_without_analysis now req b k r Hm Hb Hk Hne Ha) as [H1 H2].
  assert (h now req r = try_catch (Api.readEntry now cacheKey) Api.serverError r) as ->
    by (by destruct Hh as [-> | ->]).
  destruct (try_catch_serverError (Api.readEntry now cacheKey) r) as [Hst Hout].
  destruct (readEntry_reads now cacheKey r) as (out & cs & Hrd & Hcs).
  rewrite Hst, Hrd. cbn [snd]. split_and!.
  - done.
  - by apply writes_afterSending.
  - intros Hacc. apply Hout. by apply readEntry_accepted.
Qed.

Section EndpointHistory.

Variables (now : Z) (dataKey : string).
Hypothesis dataKey_truthy : dataKey ≠ "".

Lemma handler_history_unfold r :
  Api.handler now (historyRequest dataKey) r =
  try_catch
    (let* history := Api.historyLoop now dataKey (seq 0 30) [] in
     Api.respond 200 (JArray history))
    Api.serverError r.
Proof.
  unfold Api.handler, historyRequest. cbn [method url query body].
  change (bool_decide ("GET" = "OPTIONS")) with false.
  change (bool_decide ("GET" = "GET")) with true.
  change (from_option (Str.includesStr "/history") false (Some "/api/analysis/history"))
    with true.
  cbn [andb]. rewrite lookup_singleton_eq.
  destruct dataKey as [|c s]; [done|]. done.
Qed.

(** The history request when the store answers the sixty lookups. *)
Lemma handler_history_accepted r :
  accepts r 60 →
  Api.handler now (historyRequest dataKey) r =
  (Return {| status := 200;
             json := JArray (hits (λ key, Redis.lookup now key r) JsDate.isoDay
                               now dataKey 30) |},
   afterSending (scanCmds JsDate.isoDay now dataKey (seq 0 30)) r).
Proof.
  intros Hacc. rewrite handler_history_unfold. unfold try_catch, bind.
  rewrite api_historyLoop_accepted by (rewrite length_seq; exact Hacc).
  unfold Api.respond, ret, hits. cbv beta iota. by rewrite app_nil_l.
Qed.

(** The history request when the store rejects one of the lookups. *)
Lemma handler_history_rejected r p :
  (p < 60)%nat → is_Some (Redis.rejects r (length (Redis.cmds r) + p)) →
  ∃ resp, (Api.handler now (historyRequest dataKey) r).1 = Return resp ∧
          status resp = 500.
Proof.
  intros Hp Hrej. rewrite handler_history_unfold. unfold try_catch, bind.
  destruct (api_historyLoop_rejected now dataKey (seq 0 30) [] r p) as (e & cs & -> & _);
    [by rewrite length_seq|done|].
  by eexists.
Qed.

(** The history request answers 200 with an array, or 500. *)
Lemma handler_history_shape r :
  ∃ resp, (Api.handler now (historyRequest dataKey) r).1 = Return resp ∧
          ((status resp = 200 ∧ ∃ h, json resp = JArray h) ∨ status resp = 500).
Proof.
  rewrite handler_history_unfold. unfold try_catch, bind.
  destruct (Api.historyLoop now dataKey (seq 0 30) [] r) as [[h|e] r'].
  - eexists. split; [done|]. left. split; [done|]. by eexists.
  - eexists. split; [done|]. by right.
Qed.

End EndpointHistory.

Lemma post_without_analysis_is_a_read_witness :
  (Api.handler Sample.instant Sample.postWithoutAnalysis Sample.store).1 =
    Return {| status := 200;
              json := Api.hit "texto de hoje" "2025-12-08T00:30:00.000Z" |} ∧
  writes (Api.handler Sample.instant Sample.postWithoutAnalysis Sample.store).2 = [].
Proof.
  destruct (post_without_analysis_is_a_read Api.handler Sample.instant
              Sample.postWithoutAnalysis
              {| body_dataKey := Some Sample.key; body_analysis := None |}
              Sample.key Sample.store) as (_ & Hw & Hr).
  - by left.
  - reflexivity.
  - reflexivity.
  - reflexivity.
  - discriminate.
  - reflexivity.
  - split.
    + rewrite Hr; [vm_compute; reflexivity|]. intros p _. reflexivity.
    + rewrite Hw. reflexivity.
Defined.

Example handler_miss :
  (Api.handler Sample.instant
     {| method := "POST"; url := Some "/api/analysis"; query := ∅;
        body := Some {| body_dataKey := Some "BRB-2-300"; body_analysis := Some "" |} |}
     Sample.store).1 =
  Return {| status := 404; json := Api.miss |}.
Proof. vm_compute. reflexivity. Qed.

Example handler_save :
  let res := Api.handler Sample.instant
     {| method := "POST"; url := Some "/api/analysis"; query := ∅;
        body := Some {| body_dataKey := Some "BRB-2-300";
                        body_analysis := Some "texto novo" |} |}
     Sample.store in
  res.1 = Return {| status := 200;
                    json := Api.saved "texto novo" "2025-12-08T01:02:03.004Z" |} ∧
  Redis.lookup Sample.instant "analysis:2025-12-08:BRB-2-300" res.2 = Some "texto novo" ∧
  Redis.cmds res.2 =
    [Redis.SET "analysis:2025-12-08:BRB-2-300" "texto novo" 2592000;
     Redis.SET "analysis:2025-12-08:BRB-2-300:timestamp" "2025-12-08T01:02:03.004Z" 2592000].
Proof. cbv zeta. split_and!; vm_compute; reflexivity. Qed.
(** ** The cache service *)

Section Worlds.

Implicit Types (w : World) (es : list Event).

Lemma logged_nil w : logged [] w = w.
Proof. destruct w. unfold logged, with_log. simpl. by rewrite app_nil_r. Qed.

Lemma logged_app es1 es2 w : logged es2 (logged es1 w) = logged (es1 ++ es2) w.
Proof. unfold logged, with_log. simpl. by rewrite app_assoc. Qed.

Lemma emit_logged e w : emit e w = logged [e] w.
Proof. done. Qed.

Lemma getItem_allowed key w :
  storageDenied w = false →
  getItem key w = (Return (localStorage w !! key), logged [StorageAccess (GetItem key)] w).
Proof. intros H. unfold getItem. by rewrite H. Qed.

Lemma getItem_denied key w :
  storageDenied w = true →
  getItem key w = (Throw (Error "SecurityError"), logged [StorageAccess (GetItem key)] w).
Proof. intros H. unfold getItem. by rewrite H. Qed.

Lemma axiosCache_offline req w :
  offline w (requests w) = true →
  (axiosCache req w).1 = Throw {| err_message := "Network Error"; err_response := None |}.
Proof. intros H. unfold axiosCache. fold (requests w). by rewrite H. Qed.

(** Online, axios resolves with the body of a 2xx response of the handler
    and rejects with the status of any other response. *)
Lemma axiosCache_online req w resp :
  offline w (requests w) = false →
  (Api.handler (clock w) req (server w)).1 = Return resp →
  (axiosCache req w).1 =
  if bool_decide (200 ≤ status resp) && bool_decide (status resp < 300)
  then Return (json resp)
  else Throw {| err_message := "Request failed with status code " +:+
                               numberToString (status resp);
                err_response := Some {| err_status := status resp;
                                        err_apiMessage := None |} |}.
Proof.
  intros Hon Hh. unfold axiosCache. fold (requests w). rewrite Hon.
  destruct (Api.handler (clock w) req (server w)) as [out srv]. simpl in Hh. subst out.
  by case_match.
Qed.

End Worlds.

Section ClientHistory.

Variable dataKey : string.
Hypothesis dataKey_truthy : dataKey ≠ "".

Implicit Types (w : World).

Lemma getAnalysisHistory_prod w :
  PROD w = true →
  Cache.getAnalysisHistory dataKey w =
  try_catch
    (try_catch (axiosCache (historyRequest dataKey)) (λ _, ret (JArray [])))
    (λ _, ret (JArray [])) w.
Proof.
  intros Hp. unfold Cache.getAnalysisHistory, Cache.readUrl, Cache.CACHE_API_URL.
  unfold try_catch at 1 3. unfold bind at 1. by rewrite Hp.
Qed.

Lemma getAnalysisHistory_local w :
  PROD w = false →
  Cache.getAnalysisHistory dataKey w =
  try_catch
    (let* history := Cache.historyLoop (localTZA w) (clock w) dataKey (seq 0 30) [] in
     ret (JArray history))
    (λ _, ret (JArray [])) w.
Proof.
  intros Hp. unfold Cache.getAnalysisHistory, Cache.readUrl, Cache.CACHE_API_URL.
  unfold try_catch, bind, now, timeZone. rewrite Hp. reflexivity.
Qed.

(** In production the result is what the handler answered with status 200,
    and the empty list for every other answer and for a failed
    transport. *)
Lemma getAnalysisHistory_prod_result w :
  PROD w = true →
  (Cache.getAnalysisHistory dataKey w).1 =
  if offline w (requests w) then Return (JArray [])
  else
    match (Api.handler (clock w) (historyRequest dataKey) (server w)).1 with
    | Return resp =>
        if bool_decide (status resp = 200) then Return (json resp)
        else Return (JArray [])
    | Throw _ => Return (JArray [])
    end.
Proof.
  intros Hp. rewrite getAnalysisHistory_prod by done.
  destruct (handler_history_shape (clock w) dataKey dataKey_truthy (server w))
    as (resp & Hresp & Hshape).
  unfold try_catch.
  destruct (offline w (requests w)) eqn:Hoff.
  - pose proof (axiosCache_offline (historyRequest dataKey) w Hoff) as H.
    destruct (axiosCache _ w) as [out w']. simpl in H. by subst out.
  - pose proof (axiosCache_online (historyRequest dataKey) w resp Hoff Hresp) as H.
    rewrite Hresp.
    destruct (axiosCache _ w) as [out w']. simpl in H. subst out.
    destruct Hshape as [[Hst _]|Hst]; rewrite Hst; done.
Qed.

(** The local scan when the storage can be read. *)
Lemma historyLoop_allowed zone today days history w :
  storageDenied w = false →
  ∃ es,
    Cache.historyLoop zone today dataKey days history w =
    (Return (history ++
             omap (localEntryOf zone (λ key, localStorage w !! key) today dataKey) days),
     logged es w).
Proof.
  revert history w. induction days as [|i days IH]; intros history w Hd.
  - exists []. simpl. unfold ret. by rewrite app_nil_r, logged_nil.
  - cbn [Cache.historyLoop]. unfold bind at 1. rewrite getItem_allowed by done.
    unfold bind at 1. rewrite getItem_allowed by done. rewrite logged_app.
    cbn [omap list_omap]. unfold localEntryOf at 1.
    change (localStorage (logged ?es w)) with (localStorage w).
    destruct (localStorage w !! cacheKeyOf _ dataKey) as [[|c s]|] eqn:Hl.
    all: match goal with
         | |- context [Cache.historyLoop _ _ _ _ ?h ?w2] =>
             destruct (IH h w2 Hd) as [es Hes]; rewrite Hes
         end.
    all: rewrite logged_app, <-?app_assoc; by eexists.
Qed.

(** The local scan when the storage cannot be read. *)
Lemma historyLoop_denied zone today i days history w :
  storageDenied w = true →
  ∃ e, (Cache.historyLoop zone today dataKey (i :: days) history w).1 = Throw e.
Proof.
  intros Hd. cbn [Cache.historyLoop]. unfold bind at 1.
  rewrite getItem_denied by done. by eexists.
Qed.

End ClientHistory.

(** C6, as amended.  The scan of the last 30 days never throws to its
    caller and always gives a list.  A day without a stored text is
    skipped: when every lookup is answered, the list holds exactly the days
    of the window that have a text, the most recent day first.  A lookup
    that fails is not a miss of its day: it ends the scan, and the list is
    empty.  The days of the endpoint are days of UTC; the days of the scan
    of the local storage are the days of the calendar of the browser, in
    its time zone. *)
Theorem history_scan (dataKey : string) (w : World) :
  dataKey ≠ "" →
  let res := (Cache.getAnalysisHistory dataKey w).1 in
  (∃ h, res = Return (JArray h)) ∧
  (PROD w = true → offline w (requests w) = false →
   (accepts (server w) 60 →
    res = Return (JArray (hits (λ key, Redis.lookup (clock w) key (server w))
                            JsDate.isoDay (clock w) dataKey 30))) ∧
   (∀ p, (p < 60)%nat →
         is_Some (Redis.rejects (server w) (length (Redis.cmds (server w)) + p)) →
         res = Return (JArray []))) ∧
  (PROD w = false →
   (storageDenied w = false →
    res = Return (JArray (localHits (localTZA w) (λ key, localStorage w !! key)
                            (clock w) dataKey 30))) ∧
   (storageDenied w = true → res = Return (JArray []))).
Proof.
  intros Hk. cbv zeta. split_and!.
  - destruct (PROD w) eqn:Hp.
    + rewrite getAnalysisHistory_prod_result by done.
      destruct (offline w (requests w)); [by eexists|].
      destruct (handler_history_shape (clock w) dataKey Hk (server w))
        as (resp & Hresp & Hshape).
      rewrite Hresp. destruct Hshape as [[Hst [h Hj]]|Hst]; rewrite Hst.
      * rewrite Hj. by eexists.
      * by eexists.
    + rewrite getAnalysisHistory_local by done. unfold try_catch, bind.
      destruct (Cache.historyLoop _ _ _ _ _ w) as [[h|e] w']; by eexists.
  - intros Hp Hon. rewrite getAnalysisHistory_prod_result, Hon by done. split.
    + intros Hacc. by rewrite handler_history_accepted.
    + intros p Hp60 Hrej.
      destruct (handler_history_rejected (clock w) dataKey Hk (server w) p Hp60 Hrej)
        as (resp & Hresp & Hst).
      by rewrite Hresp, Hst.
  - intros Hp. rewrite getAnalysisHistory_local by done. unfold try_catch, bind. split.
    + intros Hd.
      destruct (historyLoop_allowed dataKey (localTZA w) (clock w) (seq 0 30) [] w Hd)
        as [es Hes].
      rewrite Hes. unfold ret, localHits. cbn [fst]. rewrite app_nil_l. reflexivity.
    + intros Hd.
      destruct (historyLoop_denied dataKey (localTZA w) (clock w) 0 (seq 1 29) [] w Hd)
        as [e He].
      change (0%nat :: seq 1 29) with (seq 0 30) in He.
      destruct (Cache.historyLoop _ _ _ _ _ w) as [out w']. simpl in He. by subst out.
Qed.

Lemma history_scan_witness :
  (Cache.getAnalysisHistory Sample.key
     (Sample.world true Sample.store Sample.secondAnswers)).1 =
  Return (JArray [{| he_date := "2025-12-08"; he_analysis := "texto de hoje";
                     he_timestamp := "2025-12-08T00:30:00.000Z" |};
                  {| he_date := "2025-12-05"; he_analysis := "texto de sexta";
                     he_timestamp := "2025-12-05T01:02:03.004Z" |}]).
Proof.
  destruct (history_scan Sample.key (Sample.world true Sample.store Sample.secondAnswers))
    as (_ & Hprod & _); [done|].
  destruct (Hprod eq_refl eq_refl) as [Hacc _].
  rewrite Hacc; [vm_compute; reflexivity|].
  intros p _. reflexivity.
Defined.

Example history_scan_flaky :
  let w := Sample.world true Sample.flakyStore Sample.secondAnswers in
  Redis.rejects (server w) 2 = Some "Connection is closed." ∧
  (Api.handler (clock w) (historyRequest Sample.key) (server w)).1
  = Return {| status := 500;
              json := Api.failure "Erro ao processar requisição"
                        (Some "Connection is closed.") |} ∧
  (Cache.getAnalysisHistory Sample.key w).1 = Return (JArray []).
Proof. cbv zeta. split_and!; vm_compute; reflexivity. Qed.

Example history_scan_local :
  (Cache.getAnalysisHistory Sample.key Sample.localWorld).1 =
  Return (JArray [{| he_date := "2025-12-08"; he_analysis := "texto de hoje";
                     he_timestamp := "2025-12-08T01:02:03.004Z" |}]).
Proof. vm_compute. reflexivity. Qed.

(** The days of the local scan are days of the browser.  At one instant,
    01:02 of the eighth of December in UTC, the scan of one storage lists
    the eighth and the seventh in UTC, and the seventh only in São Paulo,
    where it is 22:02 of the seventh; an entry without a timestamp gets
    the instant of its day of the scan. *)
Example history_scan_local_zone :
  (Cache.getAnalysisHistory Sample.key (Sample.localWorldIn JsDate.utc)).1 =
  Return (JArray [{| he_date := "2025-12-08"; he_analysis := "texto de hoje";
                     he_timestamp := "2025-12-08T01:02:03.004Z" |};
                  {| he_date := "2025-12-07"; he_analysis := "texto de domingo";
                     he_timestamp := "2025-12-07T01:02:03.004Z" |}]) ∧
  (Cache.getAnalysisHistory Sample.key (Sample.localWorldIn Sample.saoPaulo)).1 =
  Return (JArray [{| he_date := "2025-12-07"; he_analysis := "texto de domingo";
                     he_timestamp := "2025-12-08T01:02:03.004Z" |}]).
Proof. split; vm_compute; reflexivity. Qed.

(** Where the summer time ended on the 26th of October at 01:00 UTC, sixty
    days before the sample instant is the ninth of October at the same
    local time, an hour earlier in UTC. *)
Example subLocalDays_summer_time :
  let zone := Sample.summerTimeUntil (20387 * 86400000 + 3600000) in
  JsDate.toISOString (JsDate.subLocalDays zone Sample.instant 60)
  = "2025-10-09T00:02:03.004Z" ∧
  JsDate.format_yyyy_MM_dd zone (JsDate.subLocalDays zone Sample.instant 60)
  = "2025-10-09" ∧
  JsDate.toISOString (JsDate.subDays Sample.instant 60) = "2025-10-09T01:02:03.004Z".
Proof. cbv zeta. split_and!; vm_compute; reflexivity. Qed.

(** Saving locally writes the text and its timestamp under today's key and
    removes the entries older than thirty days. *)
Example setCachedAnalysis_local :
  let w := (Cache.setCachedAnalysis "BRB-2-300" "texto novo" Sample.localWorld).2 in
  localStorage w !! "analysis:2025-12-08:BRB-2-300" = Some "texto novo" ∧
  localStorage w !! "analysis:2025-12-08:BRB-2-300:timestamp"
    = Some "2025-12-08T01:02:03.004Z" ∧
  localStorage w !! "analysis:2025-10-01:all-245-1582340" = None ∧
  localStorage w !! "analysis:2025-12-08:all-245-1582340" = Some "texto de hoje" ∧
  localStorage w !! "tema" = Some "escuro".
Proof. cbv zeta. split_and!; vm_compute; reflexivity. Qed.

(** C6, as stated, fails.  Were a lookup that errors a miss of its day
    only, the entry of today would be in the result whenever the two
    lookups of today are answered and today has a text.  On a connection
    that answers them and rejects the first lookup of yesterday, the
    endpoint answers 500 and the scan gives no day. *)
Lemma history_scan_counterexample :
  ¬ (∀ (w : World) (dataKey : string) (e : HistoryEntry),
       PROD w = true → offline w (requests w) = false → dataKey ≠ "" →
       accepts (server w) 2 →
       entryOf (λ key, Redis.lookup (clock w) key (server w)) JsDate.isoDay (clock w)
         dataKey 0 = Some e →
       ∃ h, (Cache.getAnalysisHistory dataKey w).1 = Return (JArray h) ∧ e ∈ h).
Proof.
  intros H.
  destruct (H (Sample.world true Sample.flakyStore Sample.secondAnswers) Sample.key
              {| he_date := "2025-12-08"; he_analysis := "texto de hoje";
                 he_timestamp := "2025-12-08T00:30:00.000Z" |})
    as (h & Hres & Hin).
  - reflexivity.
  - reflexivity.
  - discriminate.
  - intros [|[|p]] Hp; [reflexivity..|lia].
  - vm_compute. reflexivity.
  - vm_compute in Hres. injection Hres as <-. by apply elem_of_nil in Hin.
Qed.
(** ** The coordinator *)

Section Clock.

Lemma keepsClock_ret {A} (a : A) : keepsClock (ret a).
Proof. by intros w. Qed.

Lemma keepsClock_throw {A} e : keepsClock (@throw World A e).
Proof. by intros w. Qed.

Lemma keepsClock_bind {A B} (m : M World A) (k : A → M World B) :
  keepsClock m → (∀ a, keepsClock (k a)) → keepsClock (bind m k).
Proof.
  intros Hm Hk w. unfold bind. specialize (Hm w).
  destruct (m w) as [[a|e] w1]; simpl in *; [|done].
  by rewrite Hk.
Qed.

Lemma keepsClock_try_catch {A} (m : M World A) (h : JsError → M World A) :
  keepsClock m → (∀ e, keepsClock (h e)) → keepsClock (try_catch m h).
Proof.
  intros Hm Hh w. unfold try_catch. specialize (Hm w).
  destruct (m w) as [[a|e] w1]; simpl in *; [done|].
  by rewrite Hh.
Qed.

Lemma keepsClock_now : keepsClock now.
Proof. by intros w. Qed.

Lemma keepsClock_timeZone : keepsClock timeZone.
Proof. by intros w. Qed.

Lemma keepsClock_readUrl : keepsClock Cache.readUrl.
Proof. by intros w. Qed.

Lemma keepsClock_getItem key : keepsClock (getItem key).
Proof. intros w. unfold getItem. by destruct (storageDenied w). Qed.

Lemma keepsClock_setItem key value : keepsClock (setItem key value).
Proof.
  intros w. unfold setItem. by destruct (storageDenied w), (storageFull w).
Qed.

Lemma keepsClock_removeItem key : keepsClock (removeItem key).
Proof. intros w. unfold removeItem. by destruct (storageDenied w). Qed.

Lemma keepsClock_storageKeys : keepsClock storageKeys.
Proof. intros w. unfold storageKeys. by destruct (storageDenied w). Qed.

Lemma keepsClock_axiosCache req : keepsClock (axiosCache req).
Proof.
  intros w. unfold axiosCache. destruct (offline w _); [done|].
  destruct (Api.handler _ _ _) as [[resp|e] srv]; [|done].
  by case_match.
Qed.

Lemma keepsClock_removeOld cutoffDate keys : keepsClock (Cache.removeOld cutoffDate keys).
Proof.
  induction keys as [|key keys IH]; [apply keepsClock_ret|].
  cbn [Cache.removeOld]. apply keepsClock_bind; [|done].
  repeat case_match;
    auto using keepsClock_ret, keepsClock_removeItem.
Qed.

Lemma keepsClock_cleanOldCache : keepsClock Cache.cleanOldCache.
Proof.
  apply keepsClock_try_catch; [|intros; apply keepsClock_ret].
  apply keepsClock_bind; [apply keepsClock_storageKeys|intros keys].
  apply keepsClock_bind; [apply keepsClock_now|intros t].
  apply keepsClock_bind; [apply keepsClock_timeZone|intros zone].
  apply keepsClock_removeOld.
Qed.

Lemma keepsClock_setCachedAnalysis dataKey a :
  keepsClock (Cache.setCachedAnalysis dataKey a).
Proof.
  apply keepsClock_try_catch; [|intros; apply keepsClock_ret].
  apply keepsClock_bind; [apply keepsClock_now|intros t].
  apply keepsClock_bind; [apply keepsClock_readUrl|intros [apiUrl|]].
  - apply keepsClock_bind; [apply keepsClock_axiosCache|intros; apply keepsClock_ret].
  - apply keepsClock_bind; [apply keepsClock_setItem|intros _].
    apply keepsClock_bind; [apply keepsClock_setItem|intros _].
    apply keepsClock_cleanOldCache.
Qed.

End Clock.

(** Saving never throws: a failed write is logged and dropped. *)
Lemma setCachedAnalysis_returns dataKey a w :
  (Cache.setCachedAnalysis dataKey a w).1 = Return ().
Proof.
  unfold Cache.setCachedAnalysis, try_catch.
  by destruct (bind _ _ w) as [[[]|e] w'].
Qed.

(** Reading the cache never throws: a failed read is a miss. *)
Lemma getCachedAnalysis_returns dataKey w :
  ∃ c, (Cache.getCachedAnalysis dataKey w).1 = Return c.
Proof.
  unfold Cache.getCachedAnalysis. unfold try_catch at 1.
  destruct (bind _ _ w) as [[c|e] w']; by eexists.
Qed.

(** C4.  With no row of the current week, [generateWeeklyAnalysis] returns
    the fixed text with [cached] false, and the world is as it was: no
    request to the endpoint, no access to the local storage, no call of a
    model, no command to the store. *)
Theorem no_data_short_circuit (allData : list ProcessedCampaignData)
    (dataKey : string) (forceRefresh : bool) (w : World) :
  generateWeeklyAnalysis [] allData dataKey forceRefresh w =
  (Return (JObject {| analysis := Some noDataText; cached := Some false;
                      timestamp := Some (JsDate.toISOString (clock w));
                      message := None; error := None |}),
   w).
Proof. reflexivity. Qed.

(** C7.  When the cache is skipped or misses, the prompt is built and a
    model answers with a text, [generateWeeklyAnalysis] returns that text
    with [cached] false, whatever becomes of the write that follows: the
    save returns in every world, also where the endpoint or the local
    storage refuses the write. *)
Theorem generated_text_survives_save (currentWeekData allData : list ProcessedCampaignData)
    (dataKey : string) (forceRefresh : bool) (w w1 w2 : World)
    (c : option Json) (prompt text : string) :
  currentWeekData ≠ [] →
  cacheLookup forceRefresh dataKey w = (Return c, w1) → truthyJson c = false →
  buildPrompt currentWeekData (previousWeek currentWeekData allData) w1
    = (Return prompt, w1) →
  callGeminiAPI prompt w1 = (Return text, w2) →
  (Cache.setCachedAnalysis dataKey text w2).1 = Return () ∧
  generateWeeklyAnalysis currentWeekData allData dataKey forceRefresh w =
  (Return (Cache.cacheResponse text false (JsDate.toISOString (clock w2))),
   (Cache.setCachedAnalysis dataKey text w2).2).
Proof.
  intros Hne Hc Htruthy Hprompt Hcall.
  split; [apply setCachedAnalysis_returns|].
  unfold generateWeeklyAnalysis.
  rewrite bool_decide_eq_false_2 by (by destruct currentWeekData).
  unfold try_catch. unfold bind at 1.
  fold (cacheLookup forceRefresh dataKey). rewrite Hc, Htruthy.
  unfold bind at 1. rewrite Hprompt.
  unfold bind at 1. rewrite Hcall.
  unfold bind at 1.
  pose proof (setCachedAnalysis_returns dataKey text w2) as Hret.
  pose proof (keepsClock_setCachedAnalysis dataKey text w2) as Hclock.
  destruct (Cache.setCachedAnalysis dataKey text w2) as [out w3].
  simpl in Hret, Hclock. subst out.
  unfold bind, now, ret. by rewrite Hclock.
Qed.

Lemma generated_text_survives_save_witness :
  let w := Sample.world true Sample.downStore Sample.secondAnswers in
  let res := generateWeeklyAnalysis Sample.weekA Sample.weekA "BRB-2-300" false w in
  res.1 = Return (Cache.cacheResponse "texto de gemini-2.5-flash-lite" false
                    "2025-12-08T01:02:05.004Z") ∧
  Redis.lookup (clock res.2) "analysis:2025-12-08:BRB-2-300" (server res.2) = None.
Proof.
  cbv zeta.
  pose (w := Sample.world true Sample.downStore Sample.secondAnswers).
  pose (w1 := (cacheLookup false "BRB-2-300" w).2).
  pose (w2 := (callGeminiAPI "prompt" w1).2).
  destruct (generated_text_survives_save Sample.weekA Sample.weekA "BRB-2-300" false
              w w1 w2 None "prompt" "texto de gemini-2.5-flash-lite") as [_ H].
  - discriminate.
  - vm_compute. reflexivity.
  - reflexivity.
  - vm_compute. reflexivity.
  - vm_compute. reflexivity.
  - fold w. rewrite H. split; vm_compute; reflexivity.
Defined.

Example generateWeeklyAnalysis_cached :
  let w := Sample.world true Sample.store Sample.secondAnswers in
  let res := generateWeeklyAnalysis Sample.weekA Sample.weekA Sample.key false w in
  res.1 = Return (Api.hit "texto de hoje" "2025-12-08T00:30:00.000Z") ∧
  calls (log res.2) = [].
Proof. cbv zeta. split; vm_compute; reflexivity. Qed.

Example generateWeeklyAnalysis_fresh :
  let w := Sample.world true Sample.store Sample.secondAnswers in
  let res := generateWeeklyAnalysis Sample.weekA Sample.weekA "BRB-2-300" false w in
  res.1 = Return (Cache.cacheResponse "texto de gemini-2.5-flash-lite" false
                    "2025-12-08T01:02:05.004Z") ∧
  calls (log res.2) = ["gemini-robotics-er-1.5-preview"; "gemini-2.5-flash-lite"] ∧
  Redis.lookup (clock res.2) "analysis:2025-12-08:BRB-2-300" (server res.2)
  = Some "texto de gemini-2.5-flash-lite".
Proof. cbv zeta. split_and!; vm_compute; reflexivity. Qed.

Example generateWeeklyAnalysis_fatal :
  let w := Sample.world true Sample.store Sample.firstForbidden in
  (generateWeeklyAnalysis Sample.weekA Sample.weekA "BRB-2-300" false w).1 =
  Throw (Error "Erro fatal na API do Gemini (403): API key not valid").
Proof. vm_compute. reflexivity. Qed.
(** ** The single-flight guard of the component *)

Section Guard.

Implicit Types (c : Component) (w : World) (ev : UiEvent).

Lemma guarded_mount p : guarded (mount p).
Proof. by right. Qed.

(** Calling [generateAnalysis] while an invocation is pending does
    nothing at all. *)
Lemma generateAnalysis_busy f c : isGeneratingRef c = true → generateAnalysis f c = c.
Proof. intros H. unfold generateAnalysis. by rewrite H. Qed.

Lemma generateAnalysis_guarded f c : guarded c → guarded (generateAnalysis f c).
Proof.
  intros [[Hg Hp]|[Hg Hp]]; unfold generateAnalysis; rewrite Hg; [by left|].
  destruct (keyOf (props c)) as [[|a r]|]; [by right| |by right].
  left. simpl. by rewrite Hp.
Qed.

Lemma generateAnalysis_invoked f c :
  invoked (generateAnalysis f c) =
  if isGeneratingRef c then invoked c
  else if Str.truthy (keyOf (props c)) then S (invoked c) else invoked c.
Proof.
  unfold generateAnalysis. destruct (isGeneratingRef c); [done|].
  by destruct (keyOf (props c)) as [[|a r]|].
Qed.

(** A second call right after a first one changes nothing. *)
Lemma generateAnalysis_twice f1 f2 c :
  generateAnalysis f2 (generateAnalysis f1 c) = generateAnalysis f1 c.
Proof.
  destruct (isGeneratingRef c) eqn:Hg.
  - rewrite (generateAnalysis_busy f1 c Hg). by apply generateAnalysis_busy.
  - destruct (keyOf (props c)) as [[|a r]|] eqn:Hk.
    + unfold generateAnalysis. by rewrite Hg, Hk, Hg, Hk.
    + apply generateAnalysis_busy. unfold generateAnalysis. by rewrite Hg, Hk.
    + unfold generateAnalysis. by rewrite Hg, Hk, Hg, Hk.
Qed.

Lemma effect_guarded c : guarded c → guarded (effect c).
Proof.
  intros Hc. unfold effect.
  destruct (_ && _ && _).
  - case_bool_decide; [done|].
    destruct (isGeneratingRef c) eqn:Hg; [done|].
    apply generateAnalysis_guarded. destruct Hc as [[? ?]|[? ?]]; [congruence|].
    by right.
  - done.
Qed.

Lemma render_guarded p c : guarded c → guarded (render p c).
Proof.
  intros Hc. unfold render. case_bool_decide; [done|].
  by apply effect_guarded.
Qed.

(** The [finally] block clears the flag, however the promise settled. *)
Lemma resume_releases (r : Outcome Json) c :
  isGeneratingRef (resume r c) = false ∧ pending (resume r c) = pending c ∧
  invoked (resume r c) = invoked c.
Proof. unfold resume. by destruct r as [[]|]. Qed.

Lemma step_guarded ev c w : guarded c → guarded (step ev (c, w)).1.
Proof.
  intros Hc. destruct ev as [p| |]; simpl.
  - by apply render_guarded.
  - by apply generateAnalysis_guarded.
  - destruct (pending c) as [|inv rest] eqn:Hp; [done|].
    destruct (generateWeeklyAnalysis _ _ _ _ w) as [r w']. simpl.
    right. destruct (resume_releases r
      {| props := props c; st_analysis := st_analysis c; st_loading := st_loading c;
         st_error := st_error c; isGeneratingRef := isGeneratingRef c;
         lastProcessedKeyRef := lastProcessedKeyRef c; deps := deps c;
         pending := rest; invoked := invoked c |}) as (-> & -> & _).
    split; [done|]. simpl.
    destruct Hc as [[_ Hlen]|[_ Hnil]]; [|congruence].
    rewrite Hp in Hlen. by destruct rest.
Qed.

Lemma run_guarded evs c w : guarded c → guarded (run evs (c, w)).1.
Proof.
  revert c w. induction evs as [|ev evs IH]; intros c w Hc; [done|].
  change (run (ev :: evs) (c, w)) with (run evs (step ev (c, w))).
  pose proof (step_guarded ev c w Hc) as Hs.
  destruct (step ev (c, w)) as [c' w']. by apply IH.
Qed.

(** While an invocation is pending, a render or a click starts nothing:
    the pending invocations, their number, the flag and the world stay. *)
Lemma step_busy ev c w :
  isGeneratingRef c = true → ev ≠ Settle →
  let s := step ev (c, w) in
  invoked s.1 = invoked c ∧ pending s.1 = pending c ∧
  isGeneratingRef s.1 = true ∧ s.2 = w.
Proof.
  intros Hg Hev. destruct ev as [p| |]; [| |done]; simpl.
  - unfold render. case_bool_decide; [done|].
    unfold effect. simpl. rewrite Hg.
    destruct (_ && _ && _); [|done].
    by case_bool_decide.
  - by rewrite generateAnalysis_busy.
Qed.

End Guard.

(** C1.  In every state that the component reaches from its mount, at most
    one invocation of [generateWeeklyAnalysis] is pending, and the flag is
    set exactly while one is.  While one is pending, a render or a click
    starts no other: the number of invocations, the pending one and the
    world (so the calls of the models) stay as they were; two calls of
    [generateAnalysis] in a row from an idle component that has a key make
    exactly one invocation.  When the pending invocation settles, with a
    result or with an exception, the flag is cleared and nothing is
    pending. *)
Theorem single_flight (evs : list UiEvent) (p : Props) (w : World) :
  let s := run evs (mount p, w) in
  (length (pending s.1) ≤ 1)%nat ∧
  (isGeneratingRef s.1 = true ↔ pending s.1 ≠ []) ∧
  (pending s.1 ≠ [] → ∀ ev, ev ≠ Settle →
     invoked (step ev s).1 = invoked s.1 ∧ pending (step ev s).1 = pending s.1 ∧
     (step ev s).2 = s.2) ∧
  (pending s.1 = [] → Str.truthy (keyOf (props s.1)) = true → ∀ f1 f2,
     invoked (generateAnalysis f2 (generateAnalysis f1 s.1)) = S (invoked s.1) ∧
     length (pending (generateAnalysis f2 (generateAnalysis f1 s.1))) = 1%nat) ∧
  (pending s.1 ≠ [] →
     isGeneratingRef (step Settle s).1 = false ∧ pending (step Settle s).1 = []) ∧
  (∀ (r : Outcome Json) c, isGeneratingRef (resume r c) = false).
Proof.
  cbv zeta.
  pose proof (run_guarded evs (mount p) w (guarded_mount p)) as Hg.
  destruct (run evs (mount p, w)) as [c w'] eqn:Hrun. simpl in *.
  assert (isGeneratingRef c = true ↔ pending c ≠ []) as Hiff.
  { destruct Hg as [[Hf Hlen]|[Hf Hnil]].
    - split; [|done]. intros _ Hnil. by rewrite Hnil in Hlen.
    - rewrite Hf, Hnil. split; [done|]. by intros []. }
  split_and!.
  - destruct Hg as [[_ ->]|[_ ->]]; simpl; lia.
  - done.
  - intros Hp ev Hev. apply Hiff in Hp.
    destruct (step_busy ev c w' Hp Hev) as (? & ? & _ & ?). done.
  - intros Hp Hk f1 f2. rewrite generateAnalysis_twice.
    assert (isGeneratingRef c = false) as Hf.
    { destruct (isGeneratingRef c) eqn:E; [|done]. by destruct (proj1 Hiff). }
    rewrite generateAnalysis_invoked, Hf, Hk. split; [done|].
    unfold generateAnalysis. rewrite Hf.
    destruct (keyOf (props c)) as [[|a r]|]; [done| |done].
    simpl. by rewrite Hp.
  - intros Hp.
    pose proof (step_guarded Settle c w' Hg) as Hg'.
    simpl in *. destruct (pending c) as [|inv rest]; [done|].
    destruct (generateWeeklyAnalysis _ _ _ _ w') as [r w'']. simpl in *.
    destruct (resume_releases r
      {| props := props c; st_analysis := st_analysis c; st_loading := st_loading c;
         st_error := st_error c; isGeneratingRef := isGeneratingRef c;
         lastProcessedKeyRef := lastProcessedKeyRef c; deps := deps c;
         pending := rest; invoked := invoked c |}) as (Hrel & Hpend & _).
    split; [done|].
    destruct Hg' as [[Hf _]|[_ Hnil]]; [congruence|done].
  - intros r c0. apply resume_releases.
Qed.

Lemma single_flight_witness :
  let s := run [Render Sample.propsA] (mount Sample.propsA, Sample.worldA) in
  invoked s.1 = 1%nat ∧
  invoked (step RefreshClick s).1 = 1%nat ∧
  (step RefreshClick s).2 = s.2 ∧
  isGeneratingRef (step Settle s).1 = false.
Proof.
  cbv zeta.
  destruct (single_flight [Render Sample.propsA] Sample.propsA Sample.worldA)
    as (_ & _ & Hbusy & _ & Hsettle & _).
  assert (pending (run [Render Sample.propsA] (mount Sample.propsA, Sample.worldA)).1 ≠ [])
    as Hp by (vm_compute; discriminate).
  destruct (Hbusy Hp RefreshClick) as (Hi & _ & Hw); [discriminate|].
  destruct (Hsettle Hp) as [Hs _].
  split_and!.
  - reflexivity.
  - rewrite Hi. reflexivity.
  - exact Hw.
  - exact Hs.
Defined.

(** A render, a click while the invocation is pending, and the settling of
    the invocation: one invocation, one sequence of model calls, the text
    shown and the flag cleared. *)
Example component_scenario :
  let s := run [Render Sample.propsA; RefreshClick; Settle]
             (mount Sample.propsA, Sample.worldA) in
  invoked s.1 = 1%nat ∧
  isGeneratingRef s.1 = false ∧
  st_analysis s.1 = Some "texto de gemini-2.5-flash-lite" ∧
  lastProcessedKeyRef s.1 = Some "BRB-2-300" ∧
  calls (log s.2) = ["gemini-robotics-er-1.5-preview"; "gemini-2.5-flash-lite"].
Proof. cbv zeta. split_and!; vm_compute; reflexivity. Qed.

(** The same when the first model refuses the key: the error is shown and
    the flag is cleared all the same. *)
Example component_scenario_fatal :
  let s := run [Render Sample.propsA; Settle]
             (mount Sample.propsA,
              Sample.world true Sample.store Sample.firstForbidden) in
  isGeneratingRef s.1 = false ∧
  st_loading s.1 = false ∧
  st_error s.1 = Some "Erro fatal na API do Gemini (403): API key not valid".
Proof. cbv zeta. split_and!; vm_compute; reflexivity. Qed.
(** * Further properties *)

(** ** The endpoint *)

Section EndpointMore.

Variable now : Z.

Implicit Types (r : Redis.t) (req : Request) (k a : string).

Lemma or_else_Some s b : s ≠ "" → Str.or_else (Some s) b = s.
Proof. by destruct s. Qed.

Lemma truthy_Some s : s ≠ "" → Str.truthy (Some s) = true.
Proof. by destruct s. Qed.

Lemma toISOString_nonempty ms : JsDate.toISOString ms ≠ "".
Proof.
  unfold JsDate.toISOString. destruct (JsDate.civil _) as [[y m] d].
  intros H. apply (f_equal String.length) in H.
  rewrite !length_append in H. simpl in H. lia.
Qed.

Lemma timestampKeyOf_ne cacheKey : timestampKeyOf cacheKey ≠ cacheKey.
Proof.
  unfold timestampKeyOf. intros H. apply (f_equal String.length) in H.
  rewrite length_append in H. simpl in H. lia.
Qed.

Lemma cacheKeyOf_inj_day d1 d2 k : cacheKeyOf d1 k = cacheKeyOf d2 k → d1 = d2.
Proof.
  unfold cacheKeyOf. intros H. apply (inj (String.app _)) in H.
  by apply append_inj_r in H.
Qed.

Lemma cacheKeyOf_inj_key d k1 k2 : cacheKeyOf d k1 = cacheKeyOf d k2 → k1 = k2.
Proof. unfold cacheKeyOf. intros H. by do 3 apply (inj (String.app _)) in H. Qed.

Lemma set_accepted key value ex r :
  Redis.rejects r (length (Redis.cmds r)) = None →
  Redis.set now key value ex r =
  (Return (),
   {| Redis.kv := <[key := (value, now + ex * 1000)]> (Redis.kv r);
      Redis.rejects := Redis.rejects r;
      Redis.cmds := Redis.cmds r ++ [Redis.SET key value ex] |}).
Proof. intros H. unfold Redis.set. by rewrite H. Qed.

(** Both writes of a save, when the store accepts them. *)
Lemma writeEntry_accepted cacheKey a ttl r :
  accepts r 2 →
  Api.writeEntry now cacheKey a ttl r =
  (Return {| status := 200; json := Api.saved a (JsDate.toISOString now) |},
   afterSave now cacheKey a ttl r).
Proof.
  intros Hacc. unfold Api.writeEntry, bind.
  rewrite set_accepted
    by (rewrite <-(Nat.add_0_r (length _)); apply Hacc; lia).
  rewrite set_accepted.
  2:{ simpl. rewrite length_app. simpl. apply Hacc. lia. }
  unfold afterSave. simpl. by rewrite <-app_assoc.
Qed.

(** A save writes under its two keys only, accepted or not. *)
Lemma writeEntry_others cacheKey a ttl r key :
  key ≠ cacheKey → key ≠ timestampKeyOf cacheKey →
  Redis.kv (Api.writeEntry now cacheKey a ttl r).2 !! key = Redis.kv r !! key.
Proof.
  intros H1 H2. unfold Api.writeEntry, bind, Redis.set.
  destruct (Redis.rejects r _); [done|]. simpl.
  destruct (Redis.rejects r _); simpl.
  - by rewrite lookup_insert_ne.
  - by rewrite !lookup_insert_ne.
Qed.

Lemma accepts_afterSave cacheKey a ttl r n :
  accepts r (2 + n) → accepts (afterSave now cacheKey a ttl r) n.
Proof.
  intros H p Hp. simpl. rewrite length_app. simpl.
  replace (length (Redis.cmds r) + 2 + p)%nat
    with (length (Redis.cmds r) + (2 + p))%nat by lia.
  apply H. lia.
Qed.

Lemma lookup_afterSave_text t cacheKey a ttl r :
  Redis.lookup t cacheKey (afterSave now cacheKey a ttl r) =
  if bool_decide (t < now + ttl * 1000) then Some a else None.
Proof.
  unfold Redis.lookup, afterSave. simpl.
  rewrite lookup_insert_ne by apply timestampKeyOf_ne.
  by rewrite lookup_insert_eq.
Qed.

Lemma lookup_afterSave_timestamp t cacheKey a ttl r :
  Redis.lookup t (timestampKeyOf cacheKey) (afterSave now cacheKey a ttl r) =
  if bool_decide (t < now + ttl * 1000) then Some (JsDate.toISOString now) else None.
Proof. unfold Redis.lookup, afterSave. simpl. by rewrite lookup_insert_eq. Qed.

(** What the handler does with the save of a key and a text. *)
Lemma handler_saveRequest k a r :
  k ≠ "" → a ≠ "" →
  Api.handler now (saveRequest k a) r =
  try_catch (Api.writeEntry now (cacheKeyOf (JsDate.isoDay now) k) a 2592000)
    Api.serverError r.
Proof.
  intros Hk Ha. unfold Api.handler, saveRequest, Api.bodyField.
  cbn [method url query body body_dataKey body_analysis].
  change (bool_decide ("POST" = "OPTIONS")) with false.
  change (bool_decide ("POST" = "GET")) with false.
  change (bool_decide ("POST" = "POST")) with true.
  cbn [andb orb]. unfold try_catch, bind, ret. cbn [negb].
  rewrite (truthy_Some k Hk), (truthy_Some a Ha). reflexivity.
Qed.

(** What the handler does with the lookup of a key on a day. *)
Lemma handler_lookupByDayRequest k day r :
  k ≠ "" → day ≠ "" →
  Api.handler now (lookupByDayRequest k day) r =
  try_catch (Api.readEntry now (cacheKeyOf day k)) Api.serverError r.
Proof.
  intros Hk Hd. unfold Api.handler, lookupByDayRequest.
  cbn [method url query body].
  change (bool_decide ("GET" = "OPTIONS")) with false.
  change (bool_decide ("GET" = "GET")) with true.
  change (bool_decide ("GET" = "POST")) with false.
  change (from_option (Str.includesStr "/history") false (Some "/api/analysis"))
    with false.
  cbn [andb orb]. unfold try_catch, bind, ret.
  rewrite lookup_insert_ne by done. rewrite lookup_singleton_eq, lookup_insert_eq.
  rewrite (truthy_Some k Hk). cbn [negb]. by rewrite (or_else_Some day _ Hd).
Qed.

(** What the handler does with the lookup of today's entry of a key. *)
Lemma handler_lookupRequest k r :
  k ≠ "" →
  Api.handler now (lookupRequest k) r =
  try_catch (Api.readEntry now (cacheKeyOf (JsDate.isoDay now) k)) Api.serverError r.
Proof.
  intros Hk. unfold Api.handler, lookupRequest.
  cbn [method url query body].
  change (bool_decide ("GET" = "OPTIONS")) with false.
  change (bool_decide ("GET" = "GET")) with true.
  change (bool_decide ("GET" = "POST")) with false.
  change (from_option (Str.includesStr "/history") false (Some "/api/analysis"))
    with false.
  cbn [andb orb]. unfold try_catch, bind, ret.
  rewrite lookup_singleton_eq, lookup_singleton_ne by done.
  rewrite (truthy_Some k Hk). reflexivity.
Qed.

Lemma handler_saveRequest_accepted k a r :
  k ≠ "" → a ≠ "" → accepts r 2 →
  Api.handler now (saveRequest k a) r =
  (Return {| status := 200; json := Api.saved a (JsDate.toISOString now) |},
   afterSave now (cacheKeyOf (JsDate.isoDay now) k) a 2592000 r).
Proof.
  intros Hk Ha Hacc. rewrite handler_saveRequest by done. unfold try_catch.
  by rewrite writeEntry_accepted.
Qed.

End EndpointMore.

Section Numerals.

Lemma pretty_N_go_nonempty x s : s ≠ "" → pretty_N_go x s ≠ "".
Proof.
  revert s. induction (N.lt_wf_0 x) as [x _ IH]; intros s Hs.
  destruct (decide (x = 0)%N) as [->|Hx]; [by rewrite pretty_N_go_0|].
  rewrite pretty_N_go_step by lia. apply IH; [apply N.div_lt; lia|done].
Qed.

Lemma pretty_N_nonempty (x : N) : pretty x ≠ "".
Proof.
  unfold pretty, pretty_N. case_decide; [done|].
  rewrite pretty_N_go_step by lia. by apply pretty_N_go_nonempty.
Qed.

(** A numeral starts with a digit or with the minus sign. *)
Lemma numberToString_head n :
  ∃ c s, numberToString n = String c s ∧ (is_digit c = true ∨ c = "-"%char).
Proof.
  destruct n as [|p|p].
  - exists "0"%char, "". by split; [|left].
  - pose proof (pretty_N_nonempty (Npos p)) as Hne.
    pose proof (pretty_N_digits (Npos p)) as Hd.
    change (numberToString (Z.pos p)) with (pretty (Npos p)).
    destruct (pretty (Npos p)) as [|c s]; [done|].
    exists c, s. split; [done|]. left. simpl in Hd. by apply andb_prop in Hd as [? _].
  - change (numberToString (Z.neg p)) with ("-" +:+ pretty (Npos p)).
    eexists _, _. split; [reflexivity|by right].
Qed.

Lemma pad_head w n :
  ∃ c s, JsDate.pad w n = String c s ∧ (is_digit c = true ∨ c = "-"%char).
Proof.
  unfold JsDate.pad. destruct (w - _)%nat as [|z].
  - apply numberToString_head.
  - eexists _, _. split; [reflexivity|by left].
Qed.

Lemma isoDay_nonempty ms : JsDate.isoDay ms ≠ "".
Proof.
  unfold JsDate.isoDay, JsDate.toISOString.
  destruct (JsDate.civil _) as [[y m] d].
  destruct (pad_head 4 y) as (c & s & -> & Hc).
  rewrite append_cons. simpl. case_decide as Hct; [|done].
  subst c. by destruct Hc.
Qed.

End Numerals.

(** X1.  A text saved for a key at an instant, on a store that answers,
    is served with the timestamp of the save to every lookup of that day
    and key made before thirty days have passed, and to no lookup made
    from then on; a lookup without a day made on the day of the save finds
    it as well. *)
Theorem saved_entry_lifetime (now later : Z) (k a : string) (r : Redis.t) :
  k ≠ "" → a ≠ "" → accepts r 4 →
  let r1 := (Api.handler now (saveRequest k a) r).2 in
  let found := Return {| status := 200; json := Api.hit a (JsDate.toISOString now) |} in
  (later < now + retention →
   (Api.handler later (lookupByDayRequest k (JsDate.isoDay now)) r1).1 = found) ∧
  (now + retention ≤ later →
   (Api.handler later (lookupByDayRequest k (JsDate.isoDay now)) r1).1
   = Return {| status := 404; json := Api.miss |}) ∧
  (later < now + retention → JsDate.isoDay later = JsDate.isoDay now →
   (Api.handler later (lookupRequest k) r1).1 = found).
Proof.
  intros Hk Ha Hacc. cbv zeta.
  rewrite handler_saveRequest_accepted
    by first [done | eapply accepts_le; [|done]; lia].
  cbn [snd].
  set (key := cacheKeyOf (JsDate.isoDay now) k).
  assert (accepts (afterSave now key a 2592000 r) 2) as Hacc1
    by (by apply accepts_afterSave).
  assert (∀ t, t < now + retention →
    (Api.readEntry t key (afterSave now key a 2592000 r)).1 =
    Return {| status := 200; json := Api.hit a (JsDate.toISOString now) |}) as Hhit.
  { intros t Ht. rewrite readEntry_accepted by done.
    rewrite lookup_afterSave_text, lookup_afterSave_timestamp.
    rewrite bool_decide_eq_true_2 by (unfold retention in Ht; lia).
    destruct a as [|c s]; [done|].
    by rewrite or_else_Some by apply toISOString_nonempty. }
  split_and!.
  - intros Ht. rewrite handler_lookupByDayRequest by first [done | apply isoDay_nonempty].
    apply try_catch_serverError. by apply Hhit.
  - intros Ht. rewrite handler_lookupByDayRequest by first [done | apply isoDay_nonempty].
    apply try_catch_serverError. rewrite readEntry_accepted by done.
    rewrite lookup_afterSave_text.
    by rewrite bool_decide_eq_false_2 by (unfold retention in Ht; lia).
  - intros Ht Hday. rewrite handler_lookupRequest by done. rewrite Hday.
    apply try_catch_serverError. by apply Hhit.
Qed.

Lemma saved_entry_lifetime_witness :
  let r1 := (Api.handler Sample.instant (saveRequest "BRB-2-300" "texto novo")
               Sample.store).2 in
  (Api.handler (Sample.instant + 86400000 * 29)
     (lookupByDayRequest "BRB-2-300" "2025-12-08") r1).1
  = Return {| status := 200;
              json := Api.hit "texto novo" "2025-12-08T01:02:03.004Z" |} ∧
  (Api.handler (Sample.instant + 86400000 * 30)
     (lookupByDayRequest "BRB-2-300" "2025-12-08") r1).1
  = Return {| status := 404; json := Api.miss |}.
Proof.
  cbv zeta. split.
  - apply (saved_entry_lifetime Sample.instant (Sample.instant + 86400000 * 29)
             "BRB-2-300" "texto novo" Sample.store).
    + discriminate.
    + discriminate.
    + intros p _. reflexivity.
    + vm_compute. reflexivity.
  - apply (saved_entry_lifetime Sample.instant (Sample.instant + 86400000 * 30)
             "BRB-2-300" "texto novo" Sample.store).
    + discriminate.
    + discriminate.
    + intros p _. reflexivity.
    + vm_compute. discriminate.
Defined.

Section EndpointReads.

Variable now : Z.

Implicit Types (r : Redis.t) (req : Request).

(** The scan sends lookups only, however it ends. *)
Lemma api_historyLoop_reads dataKey days history r :
  ∃ out cs, Api.historyLoop now dataKey days history r = (out, afterSending cs r) ∧
            Forall (λ c, Redis.is_write c = false) cs.
Proof.
  revert history r. induction days as [|i days IH]; intros history r.
  - exists (Return history), []. by rewrite afterSending_nil.
  - cbn [Api.historyLoop]. unfold bind at 1.
    set (k1 := cacheKeyOf (JsDate.isoDay (JsDate.subDays now (Z.of_nat i))) dataKey).
    destruct (get_reads now k1 r) as [[cached|e] ->].
    2:{ exists (Throw e), [Redis.GET k1]. split; [done|]. by repeat constructor. }
    unfold bind at 1.
    destruct (get_reads now (timestampKeyOf k1) (afterSending [Redis.GET k1] r))
      as [[timestamp|e] ->]; rewrite afterSending_app.
    2:{ eexists (Throw e), _. split; [done|]. by repeat constructor. }
    destruct cached as [[|c s]|].
    all: match goal with
         | |- context [Api.historyLoop _ _ _ ?h ?r2] =>
             destruct (IH h r2) as (out & cs & -> & Hcs)
         end.
    all: rewrite afterSending_app; eexists out, _; split; [done|].
    all: apply Forall_app; split; [by repeat constructor|done].
Qed.

Lemma readsOnly_respond st j : readsOnly (Api.respond st j).
Proof. intros r. exists []. by rewrite afterSending_nil. Qed.

Lemma readsOnly_readEntry cacheKey : readsOnly (Api.readEntry now cacheKey).
Proof.
  intros r. destruct (readEntry_reads now cacheKey r) as (out & cs & -> & Hcs).
  by exists cs.
Qed.

Lemma readsOnly_try_catch m : readsOnly m → readsOnly (try_catch m Api.serverError).
Proof.
  intros Hm r. destruct (Hm r) as (cs & Heq & Hcs). exists cs.
  by rewrite (proj1 (try_catch_serverError m r)).
Qed.

End EndpointReads.

Lemma readsOnly_history now dataKey days :
  readsOnly (let* history := Api.historyLoop now dataKey days [] in
             Api.respond 200 (JArray history)).
Proof.
  intros r. unfold bind.
  destruct (api_historyLoop_reads now dataKey days [] r) as (out & cs & -> & Hcs).
  exists cs. by destruct out.
Qed.

Lemma handler_GET_readsOnly now req : method req = "GET" → readsOnly (Api.handler now req).
Proof.
  intros Hm. unfold Api.handler. rewrite Hm.
  change (bool_decide ("GET" = "OPTIONS")) with false.
  change (bool_decide ("GET" = "GET")) with true.
  change (bool_decide ("GET" = "POST")) with false.
  cbn [andb orb]. apply readsOnly_try_catch.
  destruct (from_option _ false (url req)).
  - destruct (negb _); [apply readsOnly_respond|apply readsOnly_history].
  - intros r. unfold bind, ret.
    destruct (negb _); [apply readsOnly_respond|apply readsOnly_readEntry].
Qed.

(** X2.  A [GET], whatever its path and parameters — a lookup, a lookup
    by day, the history — sends no write to the store and leaves every key
    as it was. *)
Theorem get_never_writes (now : Z) (req : Request) (r : Redis.t) :
  method req = "GET" →
  Redis.kv (Api.handler now req r).2 = Redis.kv r ∧
  writes (Api.handler now req r).2 = writes r.
Proof.
  intros Hm. destruct (handler_GET_readsOnly now req Hm r) as (cs & -> & Hcs).
  split; [done|]. by apply writes_afterSending.
Qed.

Lemma get_never_writes_witness :
  Redis.kv (Api.handler Sample.instant (historyRequest Sample.key) Sample.flakyStore).2
  = Sample.entries.
Proof.
  apply (get_never_writes Sample.instant (historyRequest Sample.key) Sample.flakyStore).
  reflexivity.
Defined.

(** X3.  A request that names no key — a [GET] without the [dataKey]
    parameter or with an empty one, any other request whose body has no
    [dataKey] or an empty one — is answered 400 before the store is
    touched: no command is sent. *)
Theorem missing_key_is_rejected_early (now : Z) (req : Request) (r : Redis.t) :
  method req ≠ "OPTIONS" →
  (method req = "GET" ∧ Str.truthy (query req !! "dataKey") = false ∨
   method req ≠ "GET" ∧ ∃ b, body req = Some b ∧ Str.truthy (body_dataKey b) = false) →
  Api.handler now req r =
  (Return {| status := 400; json := Api.failure "dataKey é obrigatório" None |}, r).
Proof.
  intros Hopt H. unfold Api.handler.
  rewrite (bool_decide_eq_false_2 _ Hopt).
  destruct H as [[Hm Hk]|(Hm & b & Hb & Hk)].
  - rewrite Hm.
    change (bool_decide ("GET" = "GET")) with true.
    cbn [andb]. unfold try_catch, bind, ret, Api.respond.
    destruct (from_option _ false (url req)); cbv beta iota; by rewrite Hk.
  - rewrite (bool_decide_eq_false_2 _ Hm). cbn [andb].
    unfold Api.bodyField. rewrite Hb.
    unfold try_catch, bind, ret, Api.respond.
    case_bool_decide; cbv beta iota; by rewrite Hk.
Qed.

Lemma missing_key_is_rejected_early_witness :
  Api.handler Sample.instant
    {| method := "POST"; url := Some "/api/analysis"; query := ∅;
       body := Some {| body_dataKey := Some ""; body_analysis := Some "texto" |} |}
    Sample.downStore =
  (Return {| status := 400; json := Api.failure "dataKey é obrigatório" None |},
   Sample.downStore).
Proof.
  apply missing_key_is_rejected_early.
  - discriminate.
  - right. split; [discriminate|]. eexists. split; reflexivity.
Defined.

Section EndpointStatus.

Variable now : Z.

Lemma answers_respond codes st j : st ∈ codes → answers codes (Api.respond st j).
Proof. by intros H r. Qed.

Lemma answers_readEntry cacheKey : answers [200; 404] (Api.readEntry now cacheKey).
Proof.
  intros r. unfold Api.readEntry, bind.
  destruct (Redis.get now cacheKey r) as [[[[|c s]|]|e] r1]; simpl;
    [by repeat constructor| |by repeat constructor|done].
  destruct (Redis.get now _ r1) as [[t|e] r2]; simpl; [by repeat constructor|done].
Qed.

Lemma answers_writeEntry cacheKey a ttl : answers [200] (Api.writeEntry now cacheKey a ttl).
Proof.
  intros r. unfold Api.writeEntry, bind.
  destruct (Redis.set now cacheKey a ttl r) as [[[]|e] r1]; simpl; [|done].
  destruct (Redis.set now _ _ ttl r1) as [[[]|e] r2]; simpl; [by repeat constructor|done].
Qed.

Lemma answers_weaken codes codes' m : codes ⊆ codes' → answers codes m → answers codes' m.
Proof.
  intros Hsub Hm r. specialize (Hm r). destruct ((m r).1); [|done]. by apply Hsub.
Qed.

(** Catching with [serverError] turns every exception into a 500. *)
Lemma answers_try_catch codes m :
  500 ∈ codes → answers codes m →
  ∀ r, ∃ resp, (try_catch m Api.serverError r).1 = Return resp ∧ status resp ∈ codes.
Proof.
  intros H500 Hm r. specialize (Hm r). unfold try_catch.
  destruct (m r) as [[resp|e] r1]; simpl in *; by eexists.
Qed.

End EndpointStatus.

Lemma answers_history now dataKey days :
  answers [200; 400; 404; 500]
    (let* history := Api.historyLoop now dataKey days [] in
     Api.respond 200 (JArray history)).
Proof.
  intros r. unfold bind.
  destruct (Api.historyLoop now dataKey days [] r) as [[h|e] r1]; simpl;
    [by repeat constructor|done].
Qed.

(** X4.  The handler of the extended deployment never throws, and its
    status is 200, 400, 404 or 500: in particular it never answers 405,
    since a request that is neither a [GET] nor a [POST] carries no
    analysis text for the handler and is served as a read. *)
Theorem handler_status (now : Z) (req : Request) (r : Redis.t) :
  ∃ resp, (Api.handler now req r).1 = Return resp ∧
          status resp ∈ [200; 400; 404; 500].
Proof.
  unfold Api.handler. case_bool_decide as Hopt.
  { eexists. split; [done|]. by repeat constructor. }
  apply answers_try_catch; [by repeat constructor|]. clear r.
  assert (answers [200; 400; 404; 500]
            (Api.respond 400 (Api.failure "dataKey é obrigatório" None))) as H400
    by (apply answers_respond; by repeat constructor).
  assert (∀ key, answers [200; 400; 404; 500] (Api.readEntry now key)) as Hread.
  { intros key. apply (answers_weaken [200; 404]); [|apply answers_readEntry].
    intros x. rewrite !elem_of_cons, !elem_of_nil. tauto. }
  assert (∀ key a, answers [200; 400; 404; 500] (Api.writeEntry now key a 2592000))
    as Hwrite.
  { intros key a. apply (answers_weaken [200]); [|apply answers_writeEntry].
    intros x. rewrite !elem_of_cons, !elem_of_nil. tauto. }
  destruct (bool_decide (method req = "GET")) eqn:Hget; cbn [andb orb].
  - destruct (from_option _ false (url req)).
    + destruct (negb _); [done|apply answers_history].
    + apply bool_decide_eq_true in Hget. rewrite Hget.
      change (bool_decide ("GET" = "POST")) with false.
      intros r. unfold bind, ret. cbv beta iota.
      destruct (negb _); [apply (H400 r)|apply (Hread _ r)].
  - intros r. unfold bind at 1.
    destruct (Api.bodyField req body_dataKey r) as [[dataKey|e] r1]; [|done].
    unfold bind at 1.
    destruct (bool_decide (method req = "POST")) eqn:Hpost.
    + destruct (Api.bodyField req body_analysis r1) as [[analysis|e] r2]; [|done].
      destruct (negb (Str.truthy dataKey)); [apply (H400 r2)|].
      destruct (Str.truthy analysis); cbn [negb andb];
        [apply (Hwrite _ _ r2)|apply (Hread _ r2)].
    + unfold ret. cbv beta iota.
      destruct (negb (Str.truthy dataKey)); [apply (H400 r1)|].
      cbn [Str.truthy negb]. apply (Hread _ r1).
Qed.

(** The handler of the minimal deployment reads the analysis text from the
    body for every method, and does answer 405. *)
Example handler_kv_405 :
  (Api.handler_kv Sample.instant
     {| method := "PUT"; url := Some "/api/analysis"; query := ∅;
        body := Some {| body_dataKey := Some Sample.key; body_analysis := Some "texto" |} |}
     Sample.store).1
  = Return {| status := 405; json := Api.failure "Método não permitido" None |}.
Proof. vm_compute. reflexivity. Qed.

Example handler_put_is_a_read :
  (Api.handler Sample.instant
     {| method := "PUT"; url := Some "/api/analysis"; query := ∅;
        body := Some {| body_dataKey := Some Sample.key; body_analysis := Some "texto" |} |}
     Sample.store).1
  = Return {| status := 200;
              json := Api.hit "texto de hoje" "2025-12-08T00:30:00.000Z" |}.
Proof. vm_compute. reflexivity. Qed.

(** X5.  A save writes under the two keys of its day and key only: every
    other key of the store holds what it held, whether the store accepted
    the writes or not. *)
Theorem save_touches_its_keys_only (now : Z) (k a key : string) (r : Redis.t) :
  k ≠ "" → a ≠ "" →
  key ≠ cacheKeyOf (JsDate.isoDay now) k →
  key ≠ timestampKeyOf (cacheKeyOf (JsDate.isoDay now) k) →
  Redis.kv (Api.handler now (saveRequest k a) r).2 !! key = Redis.kv r !! key.
Proof.
  intros Hk Ha H1 H2. rewrite handler_saveRequest by done.
  rewrite (proj1 (try_catch_serverError _ r)). by apply writeEntry_others.
Qed.

Lemma save_touches_its_keys_only_witness :
  Redis.kv (Api.handler Sample.instant (saveRequest "BRB-2-300" "texto novo")
              Sample.store).2 !! "analysis:2025-12-08:all-245-1582340"
  = Some ("texto de hoje", Sample.expiry).
Proof.
  rewrite (save_touches_its_keys_only Sample.instant "BRB-2-300" "texto novo"
             "analysis:2025-12-08:all-245-1582340" Sample.store).
  - reflexivity.
  - discriminate.
  - discriminate.
  - vm_compute. discriminate.
  - vm_compute. discriminate.
Defined.

(** X6.  The handler of the minimal deployment reads [dataKey] and
    [analysis] off the body before it looks at the method: a request
    without a body — every [GET] that the cache service sends — is
    answered 500, and the store is not touched. *)
Theorem handler_kv_needs_a_body (now : Z) (req : Request) (r : Redis.t) :
  method req ≠ "OPTIONS" → body req = None →
  ∃ resp, Api.handler_kv now req r = (Return resp, r) ∧ status resp = 500.
Proof.
  intros Hopt Hb. unfold Api.handler_kv, Api.bodyField.
  rewrite (bool_decide_eq_false_2 _ Hopt), Hb.
  by eexists.
Qed.

Lemma handler_kv_needs_a_body_witness :
  ∃ resp, Api.handler_kv Sample.instant (lookupRequest Sample.key) Sample.store
          = (Return resp, Sample.store) ∧ status resp = 500.
Proof.
  apply handler_kv_needs_a_body.
  - discriminate.
  - reflexivity.
Defined.

(** ** The cache service *)

Section CacheMore.

Implicit Types (w : World) (k a : string).

Lemma requests_emit_CacheRequest req w :
  requests (emit (CacheRequest req) w) = S (requests w).
Proof.
  unfold requests, emit. simpl. rewrite filter_app, length_app. simpl. lia.
Qed.

(** The world after a request that reached the handler. *)
Lemma axiosCache_world req w :
  offline w (requests w) = false →
  (axiosCache req w).2 =
  with_server (emit (CacheRequest req) w) (Api.handler (clock w) req (server w)).2.
Proof.
  intros Hon. unfold axiosCache. fold (requests w). rewrite Hon.
  destruct (Api.handler (clock w) req (server w)) as [[resp|e] srv]; [|done].
  by case_match.
Qed.

(** The world after a request that did not reach the handler. *)
Lemma axiosCache_world_offline req w :
  offline w (requests w) = true →
  (axiosCache req w).2 = emit (CacheRequest req) w.
Proof. intros Hoff. unfold axiosCache. fold (requests w). by rewrite Hoff. Qed.

Lemma getCachedAnalysis_prod k w :
  PROD w = true →
  Cache.getCachedAnalysis k w =
  try_catch
    (try_catch
       (let* data := axiosCache (lookupRequest k) in ret (Some data))
       (λ error, if Cache.is404 error then ret None else throw error))
    (λ _, ret None) w.
Proof.
  intros Hp. unfold Cache.getCachedAnalysis, Cache.readUrl, Cache.CACHE_API_URL.
  unfold try_catch at 1 3. unfold bind at 1. by rewrite Hp.
Qed.

Lemma setCachedAnalysis_prod k a w :
  PROD w = true →
  (Cache.setCachedAnalysis k a w).2 = (axiosCache (saveRequest k a) w).2.
Proof.
  intros Hp. unfold Cache.setCachedAnalysis, Cache.readUrl, Cache.CACHE_API_URL.
  unfold try_catch, bind, now. rewrite Hp. cbv beta iota.
  by destruct (axiosCache _ w) as [[j|e] w'].
Qed.

(** What [getCachedAnalysis] gives in production, by the outcome of the
    request. *)
Lemma getCachedAnalysis_prod_result k w :
  PROD w = true →
  (Cache.getCachedAnalysis k w).1 =
  match (axiosCache (lookupRequest k) w).1 with
  | Return data => Return (Some data)
  | Throw _ => Return None
  end.
Proof.
  intros Hp. rewrite getCachedAnalysis_prod by done. unfold try_catch, bind.
  destruct (axiosCache _ w) as [[data|e] w']; [done|].
  simpl. by destruct (Cache.is404 e).
Qed.

End CacheMore.

(** X7.  For [getCachedAnalysis] a failure is a miss: when the request does
    not reach the endpoint, when the store rejects the lookup (the endpoint
    answers 500), and, outside production, when the local storage cannot
    be read, it returns [null] as for a key that is not stored, and does
    not throw. *)
Theorem lookup_failure_is_a_miss (k : string) (w : World) :
  k ≠ "" →
  (PROD w = true →
   offline w (requests w) = true ∨
   is_Some (Redis.rejects (server w) (length (Redis.cmds (server w)))) →
   (Cache.getCachedAnalysis k w).1 = Return None) ∧
  (PROD w = false → storageDenied w = true →
   (Cache.getCachedAnalysis k w).1 = Return None).
Proof.
  intros Hk. split.
  - intros Hp Hfail. rewrite getCachedAnalysis_prod_result by done.
    destruct (offline w (requests w)) eqn:Hoff.
    { by rewrite axiosCache_offline. }
    destruct Hfail as [?|[msg Hrej]]; [done|].
    destruct (handler_returns (clock w) (lookupRequest k) (server w)) as [resp Hresp].
    rewrite (axiosCache_online _ _ resp Hoff Hresp).
    rewrite handler_lookupRequest in Hresp by done.
    unfold try_catch, Api.readEntry, bind in Hresp.
    rewrite (get_rejected _ _ _ msg Hrej) in Hresp. simpl in Hresp.
    injection Hresp as <-. done.
  - intros Hp Hd. unfold Cache.getCachedAnalysis, Cache.readUrl, Cache.CACHE_API_URL.
    unfold try_catch, bind, now. rewrite Hp. cbv beta iota.
    by rewrite getItem_denied.
Qed.

Lemma lookup_failure_is_a_miss_witness :
  (Cache.getCachedAnalysis Sample.key
     (Sample.world true Sample.downStore Sample.secondAnswers)).1 = Return None.
Proof.
  assert (Sample.key ≠ "") as Hk by discriminate.
  apply (proj1 (lookup_failure_is_a_miss Sample.key
                  (Sample.world true Sample.downStore Sample.secondAnswers) Hk)).
  - reflexivity.
  - right. by eexists.
Defined.

(** X8.  In production, with the endpoint reached twice and a store that
    answers, a text that is not empty saved with [setCachedAnalysis] is
    what [getCachedAnalysis] gives next for the key: the text, [cached]
    true and the timestamp of the save. *)
Theorem save_then_lookup (k a : string) (w : World) :
  PROD w = true → k ≠ "" → a ≠ "" →
  offline w (requests w) = false → offline w (S (requests w)) = false →
  accepts (server w) 4 →
  (Cache.getCachedAnalysis k (Cache.setCachedAnalysis k a w).2).1 =
  Return (Some (Cache.cacheResponse a true (JsDate.toISOString (clock w)))).
Proof.
  intros Hp Hk Ha Hon1 Hon2 Hacc.
  rewrite setCachedAnalysis_prod, axiosCache_world by done.
  rewrite handler_saveRequest_accepted
    by first [done | eapply accepts_le; [|done]; lia].
  cbn [snd].
  set (key := cacheKeyOf (JsDate.isoDay (clock w)) k).
  set (w1 := with_server _ _).
  assert (offline w1 (requests w1) = false) as Hon.
  { unfold w1. change (requests (with_server ?x ?s)) with (requests x).
    by rewrite requests_emit_CacheRequest. }
  rewrite getCachedAnalysis_prod_result by done.
  assert ((Api.handler (clock w1) (lookupRequest k) (server w1)).1 =
          Return {| status := 200;
                    json := Api.hit a (JsDate.toISOString (clock w)) |}) as Hresp.
  { unfold w1. cbn [clock server with_server emit with_log].
    rewrite handler_lookupRequest by done.
    apply try_catch_serverError.
    rewrite readEntry_accepted by (by apply accepts_afterSave).
    fold key. rewrite lookup_afterSave_text, lookup_afterSave_timestamp.
    rewrite bool_decide_eq_true_2 by lia.
    destruct a as [|c s]; [done|].
    by rewrite or_else_Some by apply toISOString_nonempty. }
  by rewrite (axiosCache_online _ _ _ Hon Hresp).
Qed.

Lemma save_then_lookup_witness :
  (Cache.getCachedAnalysis "BRB-2-300"
     (Cache.setCachedAnalysis "BRB-2-300" "texto novo" Sample.worldA).2).1 =
  Return (Some (Cache.cacheResponse "texto novo" true "2025-12-08T01:02:03.004Z")).
Proof.
  apply (save_then_lookup "BRB-2-300" "texto novo" Sample.worldA).
  - reflexivity.
  - discriminate.
  - discriminate.
  - reflexivity.
  - reflexivity.
  - intros p _. reflexivity.
Defined.

Section CleanOldCache.

Variable cutoffDate : string.

Implicit Types (w : World) (key : string).

(** One turn of the [forEach]. *)
Lemma removeOld_turn key w :
  storageDenied w = false →
  ∃ w1,
    (if Str.startsWith "analysis:" key then
       match Cache.dateMatch key with
       | Some d => if Str.lt d cutoffDate then removeItem key else ret ()
       | None => ret ()
       end
     else ret ()) w = (Return (), w1) ∧
    storageDenied w1 = false ∧
    localStorage w1 =
      (if isOld cutoffDate key then delete key (localStorage w) else localStorage w).
Proof.
  intros Hd. unfold isOld.
  destruct (Str.startsWith "analysis:" key); [|by exists w].
  destruct (Cache.dateMatch key) as [d|]; [|by exists w].
  cbn [andb]. destruct (Str.lt d cutoffDate); [|by exists w].
  unfold removeItem. rewrite Hd. by eexists.
Qed.

Lemma removeOld_allowed keys w :
  storageDenied w = false →
  (Cache.removeOld cutoffDate keys w).1 = Return () ∧
  ∀ key, localStorage (Cache.removeOld cutoffDate keys w).2 !! key =
         if isOld cutoffDate key && bool_decide (key ∈ keys) then None
         else localStorage w !! key.
Proof.
  revert w. induction keys as [|k keys IH]; intros w Hd.
  - split; [done|]. intros key. simpl. by rewrite andb_false_r.
  - cbn [Cache.removeOld]. unfold bind.
    destruct (removeOld_turn k w Hd) as (w1 & -> & Hd1 & Hst).
    destruct (IH w1 Hd1) as [Hret Hlook]. split; [done|].
    intros key. rewrite Hlook, Hst.
    destruct (decide (key = k)) as [->|Hne].
    + rewrite (bool_decide_eq_true_2 (k ∈ k :: keys)) by apply list_elem_of_here.
      destruct (isOld cutoffDate k); cbn [andb]; [|done].
      rewrite lookup_delete_eq. by case_bool_decide.
    + assert (bool_decide (key ∈ k :: keys) = bool_decide (key ∈ keys)) as ->.
      { apply bool_decide_ext. rewrite elem_of_cons. split; [by intros [?|?]|by right]. }
      destruct (isOld cutoffDate key && _); [done|].
      destruct (isOld cutoffDate k); [by rewrite lookup_delete_ne|done].
Qed.

End CleanOldCache.

Lemma cleanOldCache_returns w : (Cache.cleanOldCache w).1 = Return ().
Proof.
  unfold Cache.cleanOldCache, try_catch.
  by destruct (bind _ _ w) as [[[]|e] w'].
Qed.

Lemma cleanOldCache_lookup w key :
  storageDenied w = false →
  localStorage (Cache.cleanOldCache w).2 !! key =
  if isOld (cutoffDateOf w) key then None else localStorage w !! key.
Proof.
  intros Hd. unfold cutoffDateOf.
  unfold Cache.cleanOldCache, try_catch, bind, storageKeys, now, timeZone.
  rewrite Hd. cbv beta iota.
  change (localTZA (emit _ w)) with (localTZA w).
  change (clock (emit _ w)) with (clock w).
  set (cutoff := JsDate.format_yyyy_MM_dd _ _).
  set (w1 := emit _ w).
  destruct (removeOld_allowed cutoff
              (map fst (map_to_list (localStorage w))) w1 Hd) as [Hret Hlook].
  destruct (Cache.removeOld _ _ w1) as [out w2]. cbn [fst snd] in Hret, Hlook.
  subst out. cbn [snd]. rewrite Hlook.
  change (localStorage w1) with (localStorage w).
  destruct (isOld _ key); [|done]. cbn [andb].
  case_bool_decide as Hin; [done|].
  destruct (localStorage w !! key) as [v|] eqn:Hl; [|done].
  destruct Hin. apply list_elem_of_fmap. exists (key, v).
  split; [done|]. by apply elem_of_map_to_list.
Qed.

(** X9.  [cleanOldCache] never throws.  When the storage can be read it
    removes exactly the keys that start with [analysis:] and whose first
    date of the form [analysis:YYYY-MM-DD:] is before the cutoff, the day
    thirty days ago on the calendar of the browser, in its time zone;
    every other key — an entry of the last thirty days, a key of another
    feature — holds what it held. *)
Theorem cleanOldCache_removes_old_entries (w : World) :
  (Cache.cleanOldCache w).1 = Return () ∧
  (storageDenied w = false →
   ∀ key, localStorage (Cache.cleanOldCache w).2 !! key =
          if isOld (cutoffDateOf w) key then None else localStorage w !! key).
Proof.
  split; [apply cleanOldCache_returns|].
  intros Hd key. by apply cleanOldCache_lookup.
Qed.

(** In São Paulo, at 22:02 of the seventh of December, the cutoff is the
    seventh of November: the entry of that day stays. *)
Lemma cleanOldCache_removes_old_entries_witness :
  let w := Sample.localWorldIn Sample.saoPaulo in
  localStorage (Cache.cleanOldCache w).2
    !! "analysis:2025-10-01:all-245-1582340" = None ∧
  localStorage (Cache.cleanOldCache w).2
    !! "analysis:2025-11-07:all-245-1582340" = Some "texto de novembro" ∧
  localStorage (Cache.cleanOldCache w).2
    !! "analysis:2025-12-08:all-245-1582340" = Some "texto de hoje" ∧
  localStorage (Cache.cleanOldCache w).2 !! "tema" = Some "escuro".
Proof.
  cbv zeta.
  destruct (cleanOldCache_removes_old_entries (Sample.localWorldIn Sample.saoPaulo))
    as [_ H].
  specialize (H eq_refl).
  split_and!; rewrite H; vm_compute; reflexivity.
Defined.

(** At the same instant in UTC it is the eighth of December, the cutoff is
    the eighth of November, and the entry of the seventh is removed. *)
Example cleanOldCache_utc :
  cutoffDateOf (Sample.localWorldIn JsDate.utc) = "2025-11-08" ∧
  cutoffDateOf (Sample.localWorldIn Sample.saoPaulo) = "2025-11-07" ∧
  localStorage (Cache.cleanOldCache (Sample.localWorldIn JsDate.utc)).2
    !! "analysis:2025-11-07:all-245-1582340" = None.
Proof. split_and!; vm_compute; reflexivity. Qed.

(** Observations of the world that the cache service cannot change: those
    that do not depend on the log, on the local storage or on the store. *)
Section Keeps.

Context {X : Type} (f : World → X).
Hypothesis f_log : ∀ w l, f (with_log w l) = f w.
Hypothesis f_storage : ∀ w m, f (with_localStorage w m) = f w.
Hypothesis f_server : ∀ w s, f (with_server w s) = f w.

Lemma keeps_ret {A} (a : A) : keeps f (ret a).
Proof. by intros w. Qed.

Lemma keeps_throw {A} e : keeps f (@throw World A e).
Proof. by intros w. Qed.

Lemma keeps_bind {A B} (m : M World A) (k : A → M World B) :
  keeps f m → (∀ a, keeps f (k a)) → keeps f (bind m k).
Proof.
  intros Hm Hk w. unfold bind. specialize (Hm w).
  destruct (m w) as [[a|e] w1]; simpl in *; [|done].
  by rewrite Hk.
Qed.

Lemma keeps_try_catch {A} (m : M World A) (h : JsError → M World A) :
  keeps f m → (∀ e, keeps f (h e)) → keeps f (try_catch m h).
Proof.
  intros Hm Hh w. unfold try_catch. specialize (Hm w).
  destruct (m w) as [[a|e] w1]; simpl in *; [done|].
  by rewrite Hh.
Qed.

Lemma keeps_now : keeps f now.
Proof. by intros w. Qed.

Lemma keeps_timeZone : keeps f timeZone.
Proof. by intros w. Qed.

Lemma keeps_readUrl : keeps f Cache.readUrl.
Proof. by intros w. Qed.

Lemma keeps_getItem key : keeps f (getItem key).
Proof. intros w. unfold getItem, emit. destruct (storageDenied w); apply f_log. Qed.

Lemma keeps_setItem key value : keeps f (setItem key value).
Proof.
  intros w. unfold setItem, emit.
  destruct (storageDenied w), (storageFull w); simpl; rewrite ?f_storage; apply f_log.
Qed.

Lemma keeps_removeItem key : keeps f (removeItem key).
Proof.
  intros w. unfold removeItem, emit.
  destruct (storageDenied w); simpl; rewrite ?f_storage; apply f_log.
Qed.

Lemma keeps_storageKeys : keeps f storageKeys.
Proof. intros w. unfold storageKeys, emit. destruct (storageDenied w); apply f_log. Qed.

Lemma keeps_axiosCache req : keeps f (axiosCache req).
Proof.
  intros w. unfold axiosCache, emit. destruct (offline w _); [apply f_log|].
  destruct (Api.handler _ _ _) as [[resp|e] srv]; [case_match|];
    simpl; rewrite f_server; apply f_log.
Qed.

Lemma keeps_removeOld cutoffDate keys : keeps f (Cache.removeOld cutoffDate keys).
Proof.
  induction keys as [|key keys IH]; [apply keeps_ret|].
  cbn [Cache.removeOld]. apply keeps_bind; [|done].
  repeat case_match; auto using keeps_ret, keeps_removeItem.
Qed.

Lemma keeps_cleanOldCache : keeps f Cache.cleanOldCache.
Proof.
  apply keeps_try_catch; [|intros; apply keeps_ret].
  apply keeps_bind; [apply keeps_storageKeys|intros keys].
  apply keeps_bind; [apply keeps_now|intros t].
  apply keeps_bind; [apply keeps_timeZone|intros zone].
  apply keeps_removeOld.
Qed.

Lemma keeps_setCachedAnalysis dataKey a : keeps f (Cache.setCachedAnalysis dataKey a).
Proof.
  apply keeps_try_catch; [|intros; apply keeps_ret].
  apply keeps_bind; [apply keeps_now|intros t].
  apply keeps_bind; [apply keeps_readUrl|intros [apiUrl|]].
  - apply keeps_bind; [apply keeps_axiosCache|intros; apply keeps_ret].
  - apply keeps_bind; [apply keeps_setItem|intros _].
    apply keeps_bind; [apply keeps_setItem|intros _].
    apply keeps_cleanOldCache.
Qed.

Lemma keeps_historyLoop zone today dataKey days history :
  keeps f (Cache.historyLoop zone today dataKey days history).
Proof.
  revert history. induction days as [|i days IH]; intros history; [apply keeps_ret|].
  cbn [Cache.historyLoop].
  apply keeps_bind; [apply keeps_getItem|intros cached].
  apply keeps_bind; [apply keeps_getItem|intros timestamp].
  destruct cached as [[|c s]|]; apply IH.
Qed.

Lemma keeps_getAnalysisHistory dataKey : keeps f (Cache.getAnalysisHistory dataKey).
Proof.
  apply keeps_try_catch; [|intros; apply keeps_ret].
  apply keeps_bind; [apply keeps_readUrl|intros [apiUrl|]].
  - apply keeps_try_catch; [apply keeps_axiosCache|intros; apply keeps_ret].
  - apply keeps_bind; [apply keeps_now|intros t].
    apply keeps_bind; [apply keeps_timeZone|intros zone].
    apply keeps_bind; [apply keeps_historyLoop|intros; apply keeps_ret].
Qed.

End Keeps.

Lemma setCachedAnalysis_keeps_PROD k a w : PROD (Cache.setCachedAnalysis k a w).2 = PROD w.
Proof. by apply (keeps_setCachedAnalysis PROD). Qed.

Lemma setCachedAnalysis_keeps_storageDenied k a w :
  storageDenied (Cache.setCachedAnalysis k a w).2 = storageDenied w.
Proof. by apply (keeps_setCachedAnalysis storageDenied). Qed.

(** The local save, when the storage takes the writes. *)
Lemma setCachedAnalysis_local_key k a w :
  PROD w = false → storageDenied w = false → storageFull w = false →
  let key := cacheKeyOf (JsDate.isoDay (clock w)) k in
  localStorage (Cache.setCachedAnalysis k a w).2 !! key = Some a ∨
  localStorage (Cache.setCachedAnalysis k a w).2 !! key = None.
Proof.
  intros Hp Hd Hf key.
  assert (∃ w2, storageDenied w2 = false ∧ localStorage w2 !! key = Some a ∧
                (Cache.setCachedAnalysis k a w).2 = (Cache.cleanOldCache w2).2)
    as (w2 & Hd2 & Hkey & ->).
  { unfold Cache.setCachedAnalysis, Cache.readUrl, Cache.CACHE_API_URL.
    unfold try_catch at 1. unfold bind at 1. unfold now at 1. cbv beta iota.
    unfold bind at 1. rewrite Hp. cbv beta iota.
    unfold bind at 1. unfold setItem at 1. rewrite Hd, Hf. cbv beta iota.
    unfold bind at 1. unfold setItem at 1.
    cbn [storageDenied storageFull with_localStorage emit with_log].
    rewrite Hd, Hf. cbv beta iota.
    match goal with
    | |- context [Cache.cleanOldCache ?w2] =>
        exists w2; pose proof (cleanOldCache_returns w2) as Hret;
        destruct (Cache.cleanOldCache w2) as [out w3]; simpl in Hret; subst out
    end.
    split_and!; [exact Hd| |reflexivity].
    cbn [localStorage with_localStorage].
    rewrite lookup_insert_ne by apply timestampKeyOf_ne.
    by rewrite lookup_insert_eq. }
  rewrite cleanOldCache_lookup by done.
  destruct (isOld _ key); [by right|by left].
Qed.

(** X10.  An empty text is never served from the cache.  In production
    the endpoint takes the save of an empty text for a read: no write
    reaches the store and its keys stay.  Outside production the empty
    text is stored, and the next [getCachedAnalysis] reads it as a miss. *)
Theorem empty_text_is_not_cached (k : string) (w : World) :
  k ≠ "" →
  (PROD w = true →
   Redis.kv (server (Cache.setCachedAnalysis k "" w).2) = Redis.kv (server w) ∧
   writes (server (Cache.setCachedAnalysis k "" w).2) = writes (server w)) ∧
  (PROD w = false → storageDenied w = false → storageFull w = false →
   (Cache.getCachedAnalysis k (Cache.setCachedAnalysis k "" w).2).1 = Return None).
Proof.
  intros Hk. split.
  - intros Hp. rewrite setCachedAnalysis_prod by done.
    destruct (offline w (requests w)) eqn:Hoff.
    { by rewrite axiosCache_world_offline. }
    rewrite axiosCache_world by done. cbn [server with_server].
    destruct (handler_post_without_analysis (clock w) (saveRequest k "")
                {| body_dataKey := Some k; body_analysis := Some "" |} k (server w))
      as [-> _]; [done..|].
    destruct (readsOnly_try_catch _ (readsOnly_readEntry (clock w)
                (cacheKeyOf (JsDate.isoDay (clock w)) k)) (server w))
      as (cs & -> & Hcs).
    split; [done|]. by apply writes_afterSending.
  - intros Hp Hd Hf.
    pose proof (setCachedAnalysis_local_key k "" w Hp Hd Hf) as Hkey. cbv zeta in Hkey.
    pose proof (setCachedAnalysis_keeps_PROD k "" w) as Hp'.
    pose proof (setCachedAnalysis_keeps_storageDenied k "" w) as Hd'.
    pose proof (keepsClock_setCachedAnalysis k "" w) as Hc'.
    destruct (Cache.setCachedAnalysis k "" w) as [out w3]. cbn [snd] in *.
    unfold Cache.getCachedAnalysis, Cache.readUrl, Cache.CACHE_API_URL.
    unfold try_catch, bind, now. rewrite Hp', Hp. cbv beta iota.
    rewrite getItem_allowed by congruence.
    rewrite getItem_allowed by (cbn; congruence).
    change (localStorage (logged ?es w3)) with (localStorage w3).
    rewrite Hc'. by destruct Hkey as [-> | ->].
Qed.

Lemma empty_text_is_not_cached_witness :
  Redis.kv (server (Cache.setCachedAnalysis "BRB-2-300" "" Sample.worldA).2)
    = Sample.entries ∧
  (Cache.getCachedAnalysis Sample.key
     (Cache.setCachedAnalysis Sample.key "" Sample.localWorld).2).1 = Return None.
Proof.
  split.
  - apply (proj1 (empty_text_is_not_cached "BRB-2-300" Sample.worldA
                    ltac:(discriminate))).
    reflexivity.
  - apply (proj2 (empty_text_is_not_cached Sample.key Sample.localWorld
                    ltac:(discriminate))); reflexivity.
Defined.

Section OpenByDay.

Variable k : string.
Hypothesis k_truthy : k ≠ "".

Implicit Types (w : World).

(** An entry of the window comes from a day whose key holds its text. *)
Lemma elem_of_hits get fmt today window e :
  e ∈ hits get fmt today k window →
  get (cacheKeyOf (he_date e) k) = Some (he_analysis e) ∧ he_analysis e ≠ "" ∧
  ∃ i, he_date e = fmt (JsDate.subDays today (Z.of_nat i)).
Proof.
  unfold hits. intros (i & _ & He)%list_elem_of_omap.
  unfold entryOf in He.
  destruct (get (cacheKeyOf _ k)) as [[|c s]|] eqn:Hg; [done| |done].
  injection He as <-. simpl. split_and!; [done|done|by exists i].
Qed.

Lemma elem_of_localHits zone get today window e :
  e ∈ localHits zone get today k window →
  get (cacheKeyOf (he_date e) k) = Some (he_analysis e) ∧ he_analysis e ≠ "".
Proof.
  unfold localHits. intros (i & _ & He)%list_elem_of_omap.
  unfold localEntryOf in He.
  destruct (get (cacheKeyOf _ k)) as [[|c s]|] eqn:Hg; [done| |done].
  injection He as <-. simpl. by split.
Qed.

Lemma getAnalysisByDate_local day w :
  PROD w = false → storageDenied w = false →
  ∀ a, localStorage w !! cacheKeyOf day k = Some a → a ≠ "" →
  ∃ ts, (getAnalysisByDate k day w).1 = Return (Some (Cache.cacheResponse a true ts)).
Proof.
  intros Hp Hd a Ha Hne.
  unfold getAnalysisByDate, Cache.readUrl, Cache.CACHE_API_URL.
  unfold try_catch, bind, now. rewrite Hp. cbv beta iota.
  rewrite getItem_allowed by done.
  rewrite getItem_allowed by done.
  rewrite Ha. destruct a as [|c s]; [done|]. by eexists.
Qed.

Lemma getAnalysisByDate_prod day w :
  PROD w = true → day ≠ "" →
  offline w (requests w) = false → accepts (server w) 2 →
  ∀ a, Redis.lookup (clock w) (cacheKeyOf day k) (server w) = Some a → a ≠ "" →
  ∃ ts, (getAnalysisByDate k day w).1 = Return (Some (Cache.cacheResponse a true ts)).
Proof.
  intros Hp Hday Hon Hacc a Ha Hne.
  assert ((Api.handler (clock w) (lookupByDayRequest k day) (server w)).1 =
          Return {| status := 200;
                    json := Api.hit a
                      (Str.or_else
                         (Redis.lookup (clock w) (timestampKeyOf (cacheKeyOf day k))
                            (server w))
                         (JsDate.toISOString (clock w))) |}) as Hresp.
  { rewrite handler_lookupByDayRequest by done.
    apply try_catch_serverError. rewrite readEntry_accepted by done.
    rewrite Ha. by destruct a. }
  pose proof (axiosCache_online _ _ _ Hon Hresp) as Hax. simpl in Hax.
  unfold getAnalysisByDate, Cache.readUrl, Cache.CACHE_API_URL.
  unfold try_catch, bind. rewrite Hp. cbv beta iota.
  fold (lookupByDayRequest k day).
  destruct (axiosCache (lookupByDayRequest k day) w) as [out w1].
  simpl in Hax. subst out. by eexists.
Qed.

End OpenByDay.

(** The local scan of a storage that can be read: its result and the
    world it leaves. *)
Lemma history_scan_local_result k w :
  PROD w = false → storageDenied w = false →
  ∃ es, (Cache.getAnalysisHistory k w).2 = logged es w ∧
        (Cache.getAnalysisHistory k w).1 =
        Return (JArray (localHits (localTZA w) (λ key, localStorage w !! key)
                          (clock w) k 30)).
Proof.
  intros Hp Hd. rewrite getAnalysisHistory_local by done. unfold try_catch, bind.
  destruct (historyLoop_allowed k (localTZA w) (clock w) (seq 0 30) [] w Hd) as [es Hes].
  rewrite Hes. unfold ret, localHits. cbn [fst snd]. rewrite app_nil_l. by exists es.
Qed.

(** X11.  In a world where the endpoint is reached, the store answers and
    the local storage can be read, every entry that [getAnalysisHistory]
    lists can be opened: [getAnalysisByDate] with the date of the entry
    gives the text of the entry, in production and outside it. *)
Theorem listed_days_can_be_opened (k : string) (w : World) (h : list HistoryEntry)
    (e : HistoryEntry) :
  k ≠ "" → healthy w →
  (Cache.getAnalysisHistory k w).1 = Return (JArray h) → e ∈ h →
  ∃ ts, (getAnalysisByDate k (he_date e) (Cache.getAnalysisHistory k w).2).1 =
        Return (Some (Cache.cacheResponse (he_analysis e) true ts)).
Proof.
  intros Hk (Hon & Hacc & Hd) Hres He.
  assert (∀ r n, (∀ p, Redis.rejects r p = None) → accepts r n) as Hall
    by (intros r n Hr p _; apply Hr).
  destruct (PROD w) eqn:Hp.
  - rewrite getAnalysisHistory_prod_result, Hon in Hres by done.
    rewrite handler_history_accepted in Hres by auto.
    cbn [fst status json] in Hres.
    rewrite bool_decide_eq_true_2 in Hres by done.
    injection Hres as <-.
    apply elem_of_hits in He as (Hlook & Hne & i & Hdate).
    assert ((Cache.getAnalysisHistory k w).2 =
            with_server (emit (CacheRequest (historyRequest k)) w)
              (afterSending (scanCmds JsDate.isoDay (clock w) k (seq 0 30)) (server w)))
      as ->.
    { rewrite getAnalysisHistory_prod by done. unfold try_catch.
      pose proof (axiosCache_world (historyRequest k) w (Hon _)) as Hw.
      rewrite handler_history_accepted in Hw by auto.
      destruct (axiosCache (historyRequest k) w) as [[j|err] w1]; simpl in Hw; by subst w1. }
    apply getAnalysisByDate_prod; try done.
    + rewrite Hdate. apply isoDay_nonempty.
    + apply Hon.
    + apply Hall. apply Hacc.
  - destruct (history_scan_local_result k w Hp Hd) as (es & Hw & Hh).
    rewrite Hh in Hres. injection Hres as <-.
    apply elem_of_localHits in He as (Hlook & Hne).
    rewrite Hw. by apply getAnalysisByDate_local.
Qed.

Lemma listed_days_can_be_opened_witness :
  ∃ ts, (getAnalysisByDate Sample.key "2025-12-05"
           (Cache.getAnalysisHistory Sample.key Sample.worldA).2).1 =
        Return (Some (Cache.cacheResponse "texto de sexta" true ts)).
Proof.
  apply (listed_days_can_be_opened Sample.key Sample.worldA
           [{| he_date := "2025-12-08"; he_analysis := "texto de hoje";
               he_timestamp := "2025-12-08T00:30:00.000Z" |};
            {| he_date := "2025-12-05"; he_analysis := "texto de sexta";
               he_timestamp := "2025-12-05T01:02:03.004Z" |}]
           {| he_date := "2025-12-05"; he_analysis := "texto de sexta";
              he_timestamp := "2025-12-05T01:02:03.004Z" |}).
  - discriminate.
  - split_and!; intros; reflexivity.
  - vm_compute. reflexivity.
  - apply list_elem_of_further, list_elem_of_here.
Defined.

Example getAnalysisByDate_missing_day :
  (getAnalysisByDate Sample.key "2025-12-07" Sample.worldA).1 = Return None.
Proof. vm_compute. reflexivity. Qed.

(** ** The fallback over the models *)

Section OrchestratorMore.

Variable post : nat → string → AxiosReply.
Variable prompt : string.
Variable n : nat.

Lemma slept_app tr1 tr2 : slept (tr1 ++ tr2) = slept tr1 + slept tr2.
Proof.
  unfold slept. induction tr1 as [|e tr1 IH]; simpl; [done|].
  destruct e; rewrite IH; lia.
Qed.

Lemma slept_backoffOf i r : 0 ≤ slept (backoffOf n i r) ≤ if bool_decide (i < n - 1)%nat then 2000 else 0.
Proof.
  unfold backoffOf. destruct (raises r); case_bool_decide; simpl; lia.
Qed.

Lemma lastErrorAfter_snoc i init m lastError :
  lastErrorAfter post i (init ++ [m]) lastError
  = Some (lastErrorOf m (post (i + length init)%nat m)).
Proof.
  revert i lastError. induction init as [|x init IH]; intros i lastError; simpl.
  - by rewrite Nat.add_0_r.
  - rewrite IH. do 3 f_equal. lia.
Qed.

(** The three ways in which the loop ends. *)
Lemma tryModels_outcome i models lastError :
  let res := Gemini.tryModels post prompt n i models lastError in
  match res.1 with
  | Return text =>
      ∃ j m, models !! j = Some m ∧ succeeds (post (i + j)%nat m) = Some text ∧
             calls res.2 = take (S j) models
  | Throw e =>
      (∃ j m, models !! j = Some m ∧ fatal (post (i + j)%nat m) = true ∧
              e = fatalErrorOf (post (i + j)%nat m) ∧ calls res.2 = take (S j) models) ∨
      ((∀ j m, models !! j = Some m → retryable (post (i + j)%nat m) = true) ∧
       e = Error (Gemini.exhaustedMessage n (lastErrorAfter post i models lastError)) ∧
       calls res.2 = models)
  end.
Proof.
  revert i lastError. induction models as [|m rest IH]; intros i lastError.
  - simpl. right. by split_and!.
  - cbv zeta. rewrite tryModels_cons.
    destruct (succeeds (post i m)) as [text|] eqn:Hs.
    { simpl. exists 0%nat, m. by rewrite Nat.add_0_r. }
    destruct (fatal (post i m)) eqn:Hf.
    { simpl. left. exists 0%nat, m. by rewrite Nat.add_0_r. }
    specialize (IH (S i) (Some (lastErrorOf m (post i m)))). cbv zeta in IH.
    destruct (Gemini.tryModels _ _ _ _ rest _) as [[text|e] tr]; cbn [fst snd] in *.
    + destruct IH as (j & m' & Hm' & Hsucc & Hcalls).
      exists (S j), m'. replace (i + S j)%nat with (S i + j)%nat by lia.
      split_and!; [done..|].
      rewrite calls_turn by apply calls_backoffOf. by rewrite Hcalls.
    + destruct IH as [(j & m' & Hm' & Hfat & He & Hcalls)|(Hall & He & Hcalls)].
      * left. exists (S j), m'. replace (i + S j)%nat with (S i + j)%nat by lia.
        split_and!; [done..|].
        rewrite calls_turn by apply calls_backoffOf. by rewrite Hcalls.
      * right. split_and!.
        -- intros [|j] m' Hm'.
           ++ injection Hm' as <-. rewrite Nat.add_0_r. unfold retryable.
              by rewrite Hs, Hf.
           ++ replace (i + S j)%nat with (S i + j)%nat by lia. by apply Hall.
        -- done.
        -- rewrite calls_turn by apply calls_backoffOf. by rewrite Hcalls.
Qed.

(** The waits of the rest of the loop, and its last event. *)
Lemma tryModels_waits i models lastError :
  n = (i + length models)%nat → models ≠ [] →
  let tr := (Gemini.tryModels post prompt n i models lastError).2 in
  0 ≤ slept tr ≤ 2000 * (Z.of_nat (length models) - 1) ∧
  ∃ m, last tr = Some (ModelCall m prompt).
Proof.
  revert i lastError. induction models as [|m rest IH]; intros i lastError Hn Hne;
    [by destruct Hne|].
  cbv zeta. rewrite tryModels_cons.
  destruct (succeeds (post i m)) as [text|].
  { simpl. split; [lia|by eexists]. }
  destruct (fatal (post i m)).
  { simpl. split; [lia|by eexists]. }
  destruct rest as [|m' rest'].
  - simpl. unfold backoffOf.
    rewrite (bool_decide_eq_false_2 (i < n - 1)%nat) by (simpl in Hn; lia).
    rewrite andb_false_r. simpl. split; [lia|by eexists].
  - specialize (IH (S i) (Some (lastErrorOf m (post i m))) ltac:(simpl in *; lia)
                  ltac:(done)).
    cbv zeta in IH.
    destruct (Gemini.tryModels _ _ _ _ (m' :: rest') _) as [r tr]. cbn [fst snd] in *.
    destruct IH as [Hsl (mlast & Hlast)].
    change (slept (ModelCall m prompt :: backoffOf n i (post i m) ++ tr))
      with (slept (backoffOf n i (post i m) ++ tr)).
    rewrite slept_app.
    pose proof (slept_backoffOf i (post i m)) as Hb.
    destruct (bool_decide (i < n - 1)%nat); split;
      [simpl length in *; lia| |simpl length in *; lia|].
    all: exists mlast; rewrite last_cons, last_app, Hlast; done.
Qed.

End OrchestratorMore.

(** X12.  The loop ends in one of three ways.  It returns a text, which is
    the text of the first candidate of a 200 response of a model of the
    list, the last one called; or it throws the fatal error of an attempt
    that failed with status 400, 401 or 403, the last one made; or every
    attempt was retryable, every model of the list was called once, in
    order, and it throws the error that counts the models and quotes the
    last failure. *)
Theorem callGeminiAPIWith_outcome (post : nat → string → AxiosReply)
    (models : list string) (prompt : string) :
  let res := Gemini.callGeminiAPIWith post models prompt in
  match res.1 with
  | Return text =>
      ∃ i m, models !! i = Some m ∧ succeeds (post i m) = Some text ∧
             calls res.2 = take (S i) models
  | Throw e =>
      (∃ i m, models !! i = Some m ∧ fatal (post i m) = true ∧
              e = fatalErrorOf (post i m) ∧ calls res.2 = take (S i) models) ∨
      ((∀ i m, models !! i = Some m → retryable (post i m) = true) ∧
       e = Error (Gemini.exhaustedMessage (length models)
                    (lastErrorAfter post 0 models None)) ∧
       calls res.2 = models)
  end.
Proof. apply (tryModels_outcome post prompt (length models) 0 models None). Qed.

(** X13.  When every attempt is retryable, every model is called once, in
    the order of the list, and the loop throws the error that names the
    number of models and the message of the failure of the last one. *)
Theorem all_models_failed (post : nat → string → AxiosReply)
    (init : list string) (m prompt : string) :
  let models := init ++ [m] in
  (∀ i x, models !! i = Some x → retryable (post i x) = true) →
  let res := Gemini.callGeminiAPIWith post models prompt in
  res.1 = Throw (Error (Gemini.exhaustedMessage (length models)
                          (Some (lastErrorOf m (post (length init) m))))) ∧
  calls res.2 = models.
Proof.
  cbv zeta. intros Hall.
  pose proof (callGeminiAPIWith_reaches post (init ++ [m]) prompt (length init)) as Hreach.
  pose proof (tryModels_outcome post prompt (length (init ++ [m])) 0 (init ++ [m]) None)
    as Hout.
  cbv zeta in Hout. fold (Gemini.callGeminiAPIWith post (init ++ [m]) prompt) in Hout.
  destruct (Gemini.callGeminiAPIWith post (init ++ [m]) prompt) as [[text|e] tr];
    cbn [fst snd] in *.
  - destruct Hout as (i & x & Hx & Hs & _). cbn [Nat.add] in Hs.
    specialize (Hall i x Hx). unfold retryable in Hall. by rewrite Hs in Hall.
  - destruct Hout as [(i & x & Hx & Hf & _)|(_ & -> & ->)].
    + cbn [Nat.add] in Hf. specialize (Hall i x Hx). unfold retryable in Hall. rewrite Hf in Hall.
      by rewrite andb_false_r in Hall.
    + by rewrite lastErrorAfter_snoc.
Qed.

Lemma all_models_failed_witness :
  (Gemini.callGeminiAPIWith (λ _ _, Rejected Sample.rateLimited) Gemini.MODELS "p").1 =
  Throw (Error ("Todos os 3 modelos falharam ou atingiram o limite. " +:+
                "Último erro: Request failed with status code 429. " +:+
                "Tente novamente em alguns minutos.")).
Proof.
  apply (all_models_failed (λ _ _, Rejected Sample.rateLimited)
           ["gemini-robotics-er-1.5-preview"; "gemini-2.5-flash-lite"]
           "gemini-2.5-flash" "p").
  intros i x _. reflexivity.
Defined.

(** X14.  A run over a list of at least one model waits 2000 ms at most
    once per model but the last, so [2000 * (n - 1)] ms at most in all, and
    its last event is the call of a model: it never ends on a wait. *)
Theorem waits_are_bounded (post : nat → string → AxiosReply) (models : list string)
    (prompt : string) :
  models ≠ [] →
  let tr := (Gemini.callGeminiAPIWith post models prompt).2 in
  0 ≤ slept tr ≤ 2000 * (Z.of_nat (length models) - 1) ∧
  (length (calls tr) ≤ length models)%nat ∧
  ∃ m, last tr = Some (ModelCall m prompt).
Proof.
  intros Hne. cbv zeta.
  destruct (tryModels_waits post prompt (length models) 0 models None eq_refl Hne)
    as [Hsl Hlast].
  split_and!; [apply Hsl|apply Hsl| |done].
  apply prefix_length, tryModels_prefix.
Qed.

Lemma waits_are_bounded_witness :
  0 ≤ slept (Gemini.callGeminiAPIWith (λ _ _, Rejected Sample.rateLimited)
               Gemini.MODELS "p").2 ≤ 4000.
Proof.
  destruct (waits_are_bounded (λ _ _, Rejected Sample.rateLimited) Gemini.MODELS "p")
    as [H _]; [discriminate|].
  exact H.
Defined.

(** ** The coordinator *)

Section CoordinatorMore.

Implicit Types (w : World) (k : string).

(** The trace of the loop holds calls and waits only. *)
Lemma tryModels_no_request post prompt n i models lastError :
  filter is_CacheRequest (Gemini.tryModels post prompt n i models lastError).2 = [].
Proof.
  revert i lastError. induction models as [|m rest IH]; intros i lastError; [done|].
  rewrite tryModels_cons.
  destruct (succeeds _); [done|]. destruct (fatal _); [done|].
  specialize (IH (S i) (Some (lastErrorOf m (post i m)))).
  destruct (Gemini.tryModels _ _ _ _ rest _) as [r tr]. cbn [snd] in *.
  rewrite filter_cons_False by (by intros []).
  rewrite filter_app, IH. unfold backoffOf. by case_match.
Qed.

(** The model calls change the log and the clock, and nothing else: no
    request to the endpoint, no access to the storage. *)
Lemma callGeminiAPI_frame prompt w :
  let w' := (callGeminiAPI prompt w).2 in
  server w' = server w ∧ localStorage w' = localStorage w ∧ PROD w' = PROD w ∧
  offline w' = offline w ∧ requests w' = requests w.
Proof.
  cbv zeta. unfold callGeminiAPI, Gemini.callGeminiAPIWith.
  pose proof (tryModels_no_request
    (λ i model, gemini w (length (filter is_ModelCall (log w)) + i)%nat model prompt)
    prompt (length Gemini.MODELS) 0 Gemini.MODELS None) as Hreq.
  destruct (Gemini.tryModels _ _ _ _ _ _) as [r tr]. cbn [snd] in *.
  split_and!; [done..|].
  unfold requests. simpl. by rewrite filter_app, Hreq, app_nil_r.
Qed.

Lemma fatalMessage_nonempty st msg : Gemini.fatalMessage st msg ≠ "".
Proof. unfold Gemini.fatalMessage. by rewrite append_cons. Qed.

Lemma exhaustedMessage_nonempty n lastError : Gemini.exhaustedMessage n lastError ≠ "".
Proof. unfold Gemini.exhaustedMessage. by rewrite append_cons. Qed.

(** The errors of the loop have a message. *)
Lemma callGeminiAPI_error_message prompt w e :
  (callGeminiAPI prompt w).1 = Throw e → err_message e ≠ "".
Proof.
  unfold callGeminiAPI, Gemini.callGeminiAPIWith.
  pose proof (tryModels_outcome
    (λ i model, gemini w (length (filter is_ModelCall (log w)) + i)%nat model prompt)
    prompt (length Gemini.MODELS) 0 Gemini.MODELS None) as Hout.
  cbv zeta in Hout.
  destruct (Gemini.tryModels _ _ _ _ _ _) as [[text|e'] tr]; cbn [fst snd] in *; [done|].
  intros [= <-].
  destruct Hout as [(i & m & _ & Hf & -> & _)|(_ & -> & _)].
  - destruct (gemini w _ m prompt) as [|err]; [done|]. apply fatalMessage_nonempty.
  - apply exhaustedMessage_nonempty.
Qed.

End CoordinatorMore.

(** X15.  When the model loop throws, [generateWeeklyAnalysis] throws an
    error with the same message, and nothing is saved: no request is sent
    to the endpoint after the lookup, and the store and the local storage
    are as the lookup left them. *)
Theorem failed_generation_saves_nothing
    (currentWeekData allData : list ProcessedCampaignData) (dataKey : string)
    (forceRefresh : bool) (w w1 : World) (c : option Json) (prompt : string)
    (e : JsError) :
  currentWeekData ≠ [] →
  cacheLookup forceRefresh dataKey w = (Return c, w1) → truthyJson c = false →
  buildPrompt currentWeekData (previousWeek currentWeekData allData) w1
    = (Return prompt, w1) →
  (callGeminiAPI prompt w1).1 = Throw e →
  let res := generateWeeklyAnalysis currentWeekData allData dataKey forceRefresh w in
  res.1 = Throw (Error (err_message e)) ∧
  server res.2 = server w1 ∧ localStorage res.2 = localStorage w1 ∧
  requests res.2 = requests w1.
Proof.
  intros Hne Hc Htruthy Hprompt Hcall. cbv zeta.
  pose proof (callGeminiAPI_error_message prompt w1 e Hcall) as Hmsg.
  destruct (callGeminiAPI_frame prompt w1) as (Hs & Hl & _ & _ & Hr).
  assert (generateWeeklyAnalysis currentWeekData allData dataKey forceRefresh w =
          (Throw (Error (err_message e)), (callGeminiAPI prompt w1).2)) as ->.
  { unfold generateWeeklyAnalysis.
    rewrite bool_decide_eq_false_2 by (by destruct currentWeekData).
    unfold try_catch. unfold bind at 1.
    fold (cacheLookup forceRefresh dataKey). rewrite Hc, Htruthy.
    unfold bind at 1. rewrite Hprompt.
    unfold bind at 1.
    destruct (callGeminiAPI prompt w1) as [out w2]. cbn [fst snd] in *. subst out.
    unfold throw. by rewrite or_else_Some. }
  done.
Qed.

Lemma failed_generation_saves_nothing_witness :
  let w := Sample.world true Sample.store Sample.firstForbidden in
  let res := generateWeeklyAnalysis Sample.weekA Sample.weekA "BRB-2-300" false w in
  res.1 = Throw (Error "Erro fatal na API do Gemini (403): API key not valid") ∧
  Redis.kv (server res.2) = Sample.entries.
Proof.
  cbv zeta.
  pose (w := Sample.world true Sample.store Sample.firstForbidden).
  pose (w1 := (cacheLookup false "BRB-2-300" w).2).
  destruct (failed_generation_saves_nothing Sample.weekA Sample.weekA "BRB-2-300" false
              w w1 None "prompt"
              (Error "Erro fatal na API do Gemini (403): API key not valid"))
    as (H1 & H2 & _).
  - discriminate.
  - vm_compute. reflexivity.
  - reflexivity.
  - vm_compute. reflexivity.
  - vm_compute. reflexivity.
  - fold w. split; [exact H1|]. rewrite H2. vm_compute. reflexivity.
Defined.

Section CoordinatorStore.

Implicit Types (w : World) (k : string).

Lemma calls_emit_CacheRequest req w : calls (log (emit (CacheRequest req) w)) = calls (log w).
Proof. unfold calls, emit. simpl. by rewrite omap_app, app_nil_r. Qed.

(** The lookup of a key that the store holds, in production. *)
Lemma getCachedAnalysis_stored k a w :
  PROD w = true → k ≠ "" → a ≠ "" →
  offline w (requests w) = false → accepts (server w) 2 →
  Redis.lookup (clock w) (cacheKeyOf (JsDate.isoDay (clock w)) k) (server w) = Some a →
  ∃ ts, Cache.getCachedAnalysis k w =
        (Return (Some (Cache.cacheResponse a true ts)),
         with_server (emit (CacheRequest (lookupRequest k)) w)
           (Api.handler (clock w) (lookupRequest k) (server w)).2).
Proof.
  intros Hp Hk Ha Hon Hacc Hlook.
  assert ((Api.handler (clock w) (lookupRequest k) (server w)).1 =
          Return {| status := 200;
                    json := Api.hit a
                      (Str.or_else
                         (Redis.lookup (clock w)
                            (timestampKeyOf (cacheKeyOf (JsDate.isoDay (clock w)) k))
                            (server w))
                         (JsDate.toISOString (clock w))) |}) as Hresp.
  { rewrite handler_lookupRequest by done.
    apply try_catch_serverError. rewrite readEntry_accepted by done.
    rewrite Hlook. by destruct a. }
  pose proof (axiosCache_online _ _ _ Hon Hresp) as Hax. simpl in Hax.
  pose proof (axiosCache_world (lookupRequest k) w Hon) as Hw.
  rewrite getCachedAnalysis_prod by done. unfold try_catch, bind.
  destruct (axiosCache (lookupRequest k) w) as [out w1].
  cbn [fst snd] in *. subst out w1. by eexists.
Qed.

(** The run of the coordinator when the lookup misses or is skipped and a
    model answers. *)
Lemma generateWeeklyAnalysis_generated currentWeekData allData k forceRefresh w w1 w2 c
    prompt text :
  currentWeekData ≠ [] →
  cacheLookup forceRefresh k w = (Return c, w1) → truthyJson c = false →
  buildPrompt currentWeekData (previousWeek currentWeekData allData) w1
    = (Return prompt, w1) →
  callGeminiAPI prompt w1 = (Return text, w2) →
  (generateWeeklyAnalysis currentWeekData allData k forceRefresh w).2 =
  (Cache.setCachedAnalysis k text w2).2.
Proof.
  intros Hne Hc Htruthy Hprompt Hcall.
  unfold generateWeeklyAnalysis.
  rewrite bool_decide_eq_false_2 by (by destruct currentWeekData).
  unfold try_catch. unfold bind at 1.
  fold (cacheLookup forceRefresh k). rewrite Hc, Htruthy.
  unfold bind at 1. rewrite Hprompt.
  unfold bind at 1. rewrite Hcall.
  unfold bind at 1.
  pose proof (setCachedAnalysis_returns k text w2) as Hret.
  destruct (Cache.setCachedAnalysis k text w2) as [out w3].
  simpl in Hret. by subst out.
Qed.

End CoordinatorStore.

(** X16.  In production, when the endpoint is reached and the store holds
    a text for today and the key, [generateWeeklyAnalysis] without forced
    refresh returns that text with [cached] true: no model is called,
    nothing is written to the store, and no time is spent waiting. *)
Theorem cached_entry_is_reused (currentWeekData allData : list ProcessedCampaignData)
    (k a : string) (w : World) :
  currentWeekData ≠ [] → PROD w = true → k ≠ "" → a ≠ "" →
  offline w (requests w) = false → accepts (server w) 2 →
  Redis.lookup (clock w) (cacheKeyOf (JsDate.isoDay (clock w)) k) (server w) = Some a →
  let res := generateWeeklyAnalysis currentWeekData allData k false w in
  (∃ ts, res.1 = Return (Cache.cacheResponse a true ts)) ∧
  calls (log res.2) = calls (log w) ∧
  writes (server res.2) = writes (server w) ∧
  clock res.2 = clock w.
Proof.
  intros Hne Hp Hk Ha Hon Hacc Hlook. cbv zeta.
  destruct (getCachedAnalysis_stored k a w Hp Hk Ha Hon Hacc Hlook) as [ts Hget].
  assert (generateWeeklyAnalysis currentWeekData allData k false w =
          (Return (Cache.cacheResponse a true ts),
           with_server (emit (CacheRequest (lookupRequest k)) w)
             (Api.handler (clock w) (lookupRequest k) (server w)).2)) as ->.
  { unfold generateWeeklyAnalysis.
    rewrite bool_decide_eq_false_2 by (by destruct currentWeekData).
    unfold try_catch. unfold bind at 1. cbn [negb]. by rewrite Hget. }
  cbn [fst snd]. split_and!.
  - by exists ts.
  - apply calls_emit_CacheRequest.
  - cbn [server with_server].
    destruct (handler_GET_readsOnly (clock w) (lookupRequest k) eq_refl (server w))
      as (cs & -> & Hcs).
    by apply writes_afterSending.
  - done.
Qed.

Lemma cached_entry_is_reused_witness :
  let res := generateWeeklyAnalysis Sample.weekA Sample.weekA Sample.key false
               Sample.worldA in
  (∃ ts, res.1 = Return (Cache.cacheResponse "texto de hoje" true ts)) ∧
  calls (log res.2) = [].
Proof.
  cbv zeta.
  destruct (cached_entry_is_reused Sample.weekA Sample.weekA Sample.key "texto de hoje"
              Sample.worldA) as (H1 & H2 & _).
  - discriminate.
  - reflexivity.
  - discriminate.
  - discriminate.
  - reflexivity.
  - intros p _. reflexivity.
  - vm_compute. reflexivity.
  - split; [exact H1|exact H2].
Defined.

(** X17.  In production, a forced refresh does not consult the cache and
    overwrites today's entry: when the prompt is built, a model answers
    with a text that is not empty, the endpoint is reached and the store
    accepts the two writes, the store then holds the new text for today
    and the key, whatever it held, and the two writes are the only commands
    that it received. *)
Theorem forced_refresh_overwrites (currentWeekData allData : list ProcessedCampaignData)
    (k : string) (w w2 : World) (prompt text : string) :
  currentWeekData ≠ [] → PROD w = true → k ≠ "" → text ≠ "" →
  buildPrompt currentWeekData (previousWeek currentWeekData allData) w
    = (Return prompt, w) →
  callGeminiAPI prompt w = (Return text, w2) →
  offline w (requests w) = false → accepts (server w) 2 →
  let res := generateWeeklyAnalysis currentWeekData allData k true w in
  let key := cacheKeyOf (JsDate.isoDay (clock w2)) k in
  Redis.lookup (clock w2) key (server res.2) = Some text ∧
  Redis.cmds (server res.2) =
    Redis.cmds (server w) ++
    [Redis.SET key text 2592000;
     Redis.SET (timestampKeyOf key) (JsDate.toISOString (clock w2)) 2592000].
Proof.
  intros Hne Hp Hk Ht Hprompt Hcall Hon Hacc. cbv zeta.
  rewrite (generateWeeklyAnalysis_generated currentWeekData allData k true w w w2 None
             prompt text) by done.
  destruct (callGeminiAPI_frame prompt w) as (Hs & _ & Hp2 & Hoff & Hreq).
  rewrite Hcall in Hs, Hp2, Hoff, Hreq. cbn [snd] in *.
  rewrite setCachedAnalysis_prod by congruence.
  rewrite axiosCache_world by (by rewrite Hoff, Hreq).
  cbn [server with_server]. rewrite Hs.
  rewrite handler_saveRequest_accepted by done. cbn [snd].
  split; [|done].
  rewrite lookup_afterSave_text. by rewrite bool_decide_eq_true_2 by lia.
Qed.

Lemma forced_refresh_overwrites_witness :
  let res := generateWeeklyAnalysis Sample.weekA Sample.weekA Sample.key true
               Sample.worldA in
  Redis.lookup (Sample.instant + 2000) "analysis:2025-12-08:all-245-1582340"
    (server res.2) = Some "texto de gemini-2.5-flash-lite".
Proof.
  cbv zeta.
  destruct (forced_refresh_overwrites Sample.weekA Sample.weekA Sample.key
              Sample.worldA (callGeminiAPI "prompt" Sample.worldA).2
              "prompt" "texto de gemini-2.5-flash-lite") as [H _].
  - discriminate.
  - reflexivity.
  - discriminate.
  - discriminate.
  - reflexivity.
  - vm_compute. reflexivity.
  - reflexivity.
  - intros p _. reflexivity.
  - exact H.
Defined.

(** ** The cache key and the component *)

Section KeyMore.

Lemma numberToString_nat_digits (n : nat) :
  all_chars is_digit (numberToString (Z.of_nat n)) = true.
Proof.
  destruct (Z.of_nat n) as [|p|p] eqn:Hn; [done| |lia].
  apply (pretty_N_digits (Npos p)).
Qed.

(** A run of digits followed by a dash determines what follows. *)
Lemma digits_dash_inj a a' b b' :
  all_chars is_digit a = true → all_chars is_digit a' = true →
  a +:+ "-" +:+ b = a' +:+ "-" +:+ b' → a = a' ∧ b = b'.
Proof.
  revert a'. induction a as [|c a IH]; intros [|c' a'] Ha Ha' H.
  - by injection H.
  - rewrite append_nil, append_cons in H. injection H as <- _.
    simpl in Ha'. discriminate.
  - rewrite append_nil, append_cons in H. injection H as -> _.
    simpl in Ha. discriminate.
  - rewrite !append_cons in H. injection H as -> H.
    simpl in Ha, Ha'. apply andb_prop in Ha as [_ Ha]. apply andb_prop in Ha' as [_ Ha'].
    destruct (IH a' Ha Ha' H) as [-> ->]. done.
Qed.

Lemma derive_nonempty sel n sum : derive sel n sum ≠ "".
Proof.
  unfold derive. destruct sel as [[|c r]|]; simpl Str.or_else; by rewrite append_cons.
Qed.

(** The template tells the number of rows and the sum apart. *)
Lemma derive_pair_inj sel n n' sum sum' :
  derive sel n sum = derive sel n' sum' → n = n' ∧ sum = sum'.
Proof.
  unfold derive. intros H.
  apply (inj (String.app _)) in H. apply (inj (String.app "-")) in H.
  apply digits_dash_inj in H as [Hn Hs]; [|apply numberToString_nat_digits..].
  apply numberToString_inj in Hn. apply numberToString_inj in Hs.
  split; [lia|done].
Qed.

End KeyMore.

(** X18.  For rows whose impressions are counts in the range where
    numbers add exactly, the key of the seven days tells the number of
    rows and the sum apart, also when both change at once: under one
    selection, two data sets that differ in the number of rows or in the
    sum of the impressions never get the same key. *)
Theorem derive_injective (sel : option string) (d d' : list ProcessedCampaignData) :
  safe impressions d → safe impressions d' →
  length d ≠ length d' ∨ total impressions d ≠ total impressions d' →
  dataKey d Days7 sel ≠ dataKey d' Days7 sel.
Proof.
  intros Hs Hs' Hne. rewrite <- !totalImpressions_exact in Hne by done.
  destruct d as [|x d], d' as [|x' d'].
  - by destruct Hne.
  - by rewrite dataKey_empty, dataKey_Days7.
  - by rewrite dataKey_empty, dataKey_Days7.
  - rewrite !dataKey_Days7 by done. intros [= H].
    apply derive_pair_inj in H as [Hn Hsum]. destruct Hne as [Hne|Hne]; [|done].
    apply Hne. by apply Nat2Z.inj.
Qed.

(** Twelve rows that sum to 3 and one row of 23: [BRB-12-3] and
    [BRB-1-23]. *)
Lemma derive_injective_witness :
  dataKey (Sample.row 20430 3 :: replicate 11 (Sample.row 20430 0)) Days7 (Some "BRB")
  ≠ dataKey [Sample.row 20430 23] Days7 (Some "BRB").
Proof.
  apply derive_injective.
  - by vm_compute.
  - by vm_compute.
  - left. simpl. lia.
Defined.

Lemma dataKey_truthy_iff_aux data periodFilter selectedCampaign :
  Str.truthy (dataKey data periodFilter selectedCampaign) = true ↔
  periodFilter = Days7 ∧ data ≠ [].
Proof.
  unfold dataKey. split.
  - destruct periodFilter; [|done]. destruct data; [done|]. done.
  - intros [-> Hd]. destruct data as [|x data]; [done|].
    rewrite bool_decide_eq_false_2 by (intros H; by apply H).
    rewrite bool_decide_eq_false_2 by done. cbn [orb].
    pose proof (derive_nonempty selectedCampaign (length (x :: data))
                  (totalImpressions (x :: data))) as Hne.
    by destruct (derive _ _ _).
Qed.

(** X19.  The key exists, and is a string that is not empty, exactly when
    the period is the last seven days and there is at least one row: the
    truthiness test of the key in the component is the test of these two
    conditions. *)
Theorem dataKey_truthy (data : list ProcessedCampaignData) (periodFilter : PeriodFilter)
    (selectedCampaign : option string) :
  Str.truthy (dataKey data periodFilter selectedCampaign) = true ↔
  periodFilter = Days7 ∧ data ≠ [].
Proof. apply dataKey_truthy_iff_aux. Qed.

Section Stale.

Implicit Types (c : Component) (w : World) (p : Props).

Lemma keyOf_truthy p :
  Str.truthy (keyOf p) = true → periodFilter p = Days7 ∧ (0 < length (data p))%nat.
Proof.
  unfold keyOf. intros [Hpf Hd]%dataKey_truthy_iff_aux. split; [done|].
  destruct (data p); [done|simpl; lia].
Qed.

(** A render while an invocation is pending starts nothing and keeps the
    key that was processed last, when the new props have a key. *)
Lemma render_busy p c :
  isGeneratingRef c = true → Str.truthy (keyOf p) = true →
  let c' := render p c in
  invoked c' = invoked c ∧ pending c' = pending c ∧ isGeneratingRef c' = true ∧
  lastProcessedKeyRef c' = lastProcessedKeyRef c ∧
  deps c' = Some (keyOf p, periodFilter p).
Proof.
  intros Hg Hk. destruct (keyOf_truthy p Hk) as [Hpf Hd].
  cbv zeta. unfold render. case_bool_decide as Hdeps; [done|].
  unfold effect. cbn [props isGeneratingRef lastProcessedKeyRef].
  rewrite Hpf, Hk.
  rewrite bool_decide_eq_true_2 by done. rewrite bool_decide_eq_true_2 by done.
  cbn [andb]. rewrite Hg. by case_bool_decide.
Qed.

(** A render with the props and dependencies of the last one changes
    nothing. *)
Lemma render_same_deps p c :
  deps c = Some (keyOf p, periodFilter p) → props c = p → render p c = c.
Proof.
  intros Hdeps Hp. unfold render. rewrite bool_decide_eq_true_2 by done.
  destruct c. simpl in *. by subst.
Qed.

(** Resuming keeps the props, the key processed last and the
    dependencies. *)
Lemma resume_refs (r : Outcome Json) c :
  props (resume r c) = props c ∧
  lastProcessedKeyRef (resume r c) = lastProcessedKeyRef c ∧
  deps (resume r c) = deps c.
Proof. unfold resume. by destruct r as [[]|]. Qed.

End Stale.

(** X20.  A change of the data while an invocation is pending is dropped.
    The render with the new key starts nothing; when the pending
    invocation settles the component is idle, the key processed last is
    still the old one, and further renders with the same props start
    nothing either: no analysis is generated for the new key until the key
    changes again or the refresh button is used. *)
Theorem change_while_busy_is_dropped (c : Component) (w : World) (p : Props) (n : nat) :
  guarded c → isGeneratingRef c = true →
  Str.truthy (keyOf p) = true → keyOf p ≠ lastProcessedKeyRef c →
  let s := run (Render p :: Settle :: replicate n (Render p)) (c, w) in
  invoked s.1 = invoked c ∧ pending s.1 = [] ∧ isGeneratingRef s.1 = false ∧
  props s.1 = p ∧ lastProcessedKeyRef s.1 = lastProcessedKeyRef c ∧
  lastProcessedKeyRef s.1 ≠ keyOf p.
Proof.
  intros Hgd Hg Hk Hne. cbv zeta.
  change (run (Render p :: Settle :: replicate n (Render p)) (c, w))
    with (run (replicate n (Render p)) (step Settle (render p c, w))).
  destruct (render_busy p c Hg Hk) as (Hi & Hp & Hg1 & Hl & Hd). cbv zeta in Hi, Hp, Hg1, Hl, Hd.
  assert (props (render p c) = p) as Hprops.
  { unfold render. case_bool_decide; [done|]. unfold effect.
    cbn [props isGeneratingRef lastProcessedKeyRef]. rewrite Hg.
    destruct (_ && _ && _); [by case_bool_decide|done]. }
  assert (∃ c2 w2, step Settle (render p c, w) = (c2, w2) ∧
            invoked c2 = invoked c ∧ pending c2 = [] ∧ isGeneratingRef c2 = false ∧
            props c2 = p ∧ lastProcessedKeyRef c2 = lastProcessedKeyRef c ∧
            deps c2 = Some (keyOf p, periodFilter p)) as (c2 & w2 & -> & Hc2).
  { cbn [step]. destruct (pending (render p c)) as [|inv rest] eqn:Hpend.
    { destruct Hgd as [[_ Hlen]|[Hf _]]; [|congruence].
      by rewrite <-Hp in Hlen. }
    assert (rest = []) as ->.
    { destruct Hgd as [[_ Hlen]|[Hf _]]; [|congruence].
      rewrite <-Hp in Hlen. by destruct rest. }
    destruct (generateWeeklyAnalysis _ _ _ _ w) as [r w2]. eexists _, _. split; [done|].
    match goal with
    | |- context [resume r ?c1] =>
        destruct (resume_releases r c1) as (-> & -> & ->);
        destruct (resume_refs r c1) as (-> & -> & ->)
    end.
    by cbn [props lastProcessedKeyRef deps pending invoked]. }
  revert c2 w2 Hc2. induction n as [|n IH]; intros c2 w2 Hc2.
  - simpl. destruct Hc2 as (? & ? & ? & ? & Hl2 & ?). split_and!; try done. congruence.
  - change (run (replicate (S n) (Render p)) (c2, w2))
      with (run (replicate n (Render p)) (render p c2, w2)).
    destruct Hc2 as (? & ? & ? & ? & ? & ?).
    rewrite render_same_deps by done. apply IH. by split_and!.
Qed.

Lemma change_while_busy_is_dropped_witness :
  let busy := (run [Render Sample.propsA] (mount Sample.propsA, Sample.worldA)).1 in
  let p := {| data := Sample.weekC; allData := Sample.weekC; periodFilter := Days7;
              selectedCampaign := Some "BRB" |} in
  let s := run [Render p; Settle; Render p; Render p] (busy, Sample.worldA) in
  invoked s.1 = 1%nat ∧ lastProcessedKeyRef s.1 = Some "BRB-2-300" ∧
  keyOf (props s.1) = Some "BRB-2-301".
Proof.
  cbv zeta.
  pose (busy := (run [Render Sample.propsA] (mount Sample.propsA, Sample.worldA)).1).
  pose (p := {| data := Sample.weekC; allData := Sample.weekC; periodFilter := Days7;
                selectedCampaign := Some "BRB" |}).
  destruct (change_while_busy_is_dropped busy Sample.worldA p 2)
    as (Hi & _ & _ & Hp & Hl & _).
  - left. split; reflexivity.
  - reflexivity.
  - reflexivity.
  - vm_compute. discriminate.
  - split_and!.
    + exact (eq_trans Hi eq_refl).
    + exact (eq_trans Hl eq_refl).
    + exact (eq_trans (f_equal keyOf Hp) eq_refl).
Defined.
(** * The aggregation of the rows *)

Section Sorting.

Context {A : Type}.

Lemma insertDesc_perm (key : A → Z) (x : A) (l : list A) :
  insertDesc key x l ≡ₚ x :: l.
Proof.
  induction l as [|y l IH]; simpl; [done|].
  case_bool_decide; [done|]. rewrite IH. apply Permutation_swap.
Qed.

Lemma sortDesc_perm (key : A → Z) (l : list A) : sortDesc key l ≡ₚ l.
Proof.
  induction l as [|x l IH]; simpl; [done|].
  unfold sortDesc in IH. by rewrite insertDesc_perm, IH.
Qed.

Lemma insertDesc_decreasing (key : A → Z) (x : A) (l : list A) :
  decreasing key l → decreasing key (insertDesc key x l).
Proof.
  induction l as [|y l IH]; simpl.
  - by split.
  - intros [Hy Hl]. case_bool_decide as Hk.
    + split; [|by split]. constructor; [done|].
      eapply Forall_impl; [exact Hy|]. simpl. intros z Hz. lia.
    + split; [|by apply IH].
      rewrite insertDesc_perm. constructor; [lia|done].
Qed.

Lemma sortDesc_decreasing (key : A → Z) (l : list A) :
  decreasing key (sortDesc key l).
Proof.
  induction l as [|x l IH]; simpl; [done|]. by apply insertDesc_decreasing.
Qed.

Lemma Forall_sortDesc (P : A → Prop) (key : A → Z) (l : list A) :
  Forall P (sortDesc key l) ↔ Forall P l.
Proof. by rewrite sortDesc_perm. Qed.

End Sorting.

Section Aggregate.

Context {F : Type} (zero : F) (percent : Z → Z → F).

Implicit Types (item : ProcessedCampaignData) (data : list ProcessedCampaignData).
Implicit Types (v : VehicleMetrics F) (vs : list (VehicleMetrics F)).
Implicit Types (c : CampaignMetrics F) (m : list (CampaignMetrics F)).

(** *** One row *)

Lemma sameVehicle_spec item v :
  sameVehicle item v = true ↔ vehicleKey v = (veiculo item, tipoDeCompra item).
Proof.
  unfold sameVehicle, vehicleKey.
  rewrite andb_true_iff, !bool_decide_eq_true. split; [by intros [-> ->]|by intros [= -> ->]].
Qed.

Lemma upsertVehicle_keys item vs :
  map vehicleKey (upsertVehicle zero item vs)
  = if decide ((veiculo item, tipoDeCompra item) ∈ map vehicleKey vs)
    then map vehicleKey vs
    else map vehicleKey vs ++ [(veiculo item, tipoDeCompra item)].
Proof.
  induction vs as [|v vs IH].
  - case_decide as H; [by apply elem_of_nil in H|done].
  - simpl. destruct (sameVehicle item v) eqn:Hs; simpl.
    + apply sameVehicle_spec in Hs. rewrite decide_True; [done|].
      rewrite Hs. by left.
    + rewrite IH.
      assert (vehicleKey v ≠ (veiculo item, tipoDeCompra item)) as Hne.
      { intros H. apply sameVehicle_spec in H. congruence. }
      destruct (decide (_ ∈ map vehicleKey vs)) as [Hin|Hin].
      * rewrite decide_True; [done|]. by right.
      * rewrite decide_False; [done|]. rewrite elem_of_cons. intros [?|?]; [congruence|done].
Qed.

Lemma upsertVehicle_NoDup item vs :
  NoDup (map vehicleKey vs) → NoDup (map vehicleKey (upsertVehicle zero item vs)).
Proof.
  intros H. rewrite upsertVehicle_keys. case_decide; [done|].
  apply NoDup_app. split_and!; [done| |by apply NoDup_singleton].
  intros k Hk. rewrite list_elem_of_singleton. by intros ->.
Qed.

Lemma upsertCampaign_names item m :
  map cm_campanha (upsertCampaign zero item m)
  = if decide (campanhaOf item ∈ map cm_campanha m)
    then map cm_campanha m
    else map cm_campanha m ++ [campanhaOf item].
Proof.
  induction m as [|c m IH].
  - case_decide as H; [by apply elem_of_nil in H|done].
  - simpl. case_bool_decide as Hc; simpl.
    + rewrite decide_True; [done|]. rewrite Hc. by left.
    + rewrite IH. destruct (decide (_ ∈ map cm_campanha m)) as [Hin|Hin].
      * rewrite decide_True; [done|]. by right.
      * rewrite decide_False; [done|]. rewrite elem_of_cons. intros [?|?]; [congruence|done].
Qed.

Lemma upsertCampaign_NoDup item m :
  NoDup (map cm_campanha m) → NoDup (map cm_campanha (upsertCampaign zero item m)).
Proof.
  intros H. rewrite upsertCampaign_names. case_decide; [done|].
  apply NoDup_app. split_and!; [done| |by apply NoDup_singleton].
  intros k Hk. rewrite list_elem_of_singleton. by intros ->.
Qed.

(** What holds of every campaign after a row: of the campaign of the row,
    what holds once the row is added to it; of the others, what held. *)
Lemma upsertCampaign_Forall (P : CampaignMetrics F → Prop) item m :
  NoDup (map cm_campanha m) →
  Forall (λ c, if decide (cm_campanha c = campanhaOf item)
               then P (addToCampaign zero item c) else P c) m →
  (campanhaOf item ∉ map cm_campanha m →
   P (addToCampaign zero item (newCampaign zero (campanhaOf item)))) →
  Forall P (upsertCampaign zero item m).
Proof.
  intros Hnd Hm Hnew. induction m as [|c m IH]; simpl.
  - constructor; [|done]. apply Hnew. simpl. by intros ?%elem_of_nil.
  - apply Forall_cons in Hm as [Hc Hm]. simpl in Hnd. apply NoDup_cons in Hnd as [Hc' Hnd].
    case_bool_decide as Heq.
    + rewrite decide_True in Hc by done. constructor; [done|].
      apply Forall_forall. intros c' Hin.
      rewrite Forall_forall in Hm. specialize (Hm c' Hin).
      rewrite decide_False in Hm; [done|].
      intros H. apply Hc'. rewrite Heq, <- H.
      apply list_elem_of_fmap. by exists c'.
    + rewrite decide_False in Hc by done. constructor; [done|].
      apply IH; [done..|]. intros Hm'. apply Hnew.
      simpl. rewrite elem_of_cons. intros [?|?]; [congruence|done].
Qed.

Lemma accumulate_snoc data item :
  accumulate zero (data ++ [item]) = upsertCampaign zero item (accumulate zero data).
Proof. unfold accumulate. by rewrite foldl_app. Qed.

Lemma rowsOf_snoc name data item :
  rowsOf name (data ++ [item])
  = rowsOf name data ++ (if decide (campanhaOf item = name) then [item] else []).
Proof.
  unfold rowsOf. by rewrite filter_app.
Qed.

Lemma rowsOf_none name data :
  ¬ (∃ item, item ∈ data ∧ campanhaOf item = name) → rowsOf name data = [].
Proof.
  intros H. unfold rowsOf. induction data as [|i data IH]; [done|].
  rewrite filter_cons_False.
  - apply IH. intros (j & Hj & Hn). apply H. exists j. split; [by right|done].
  - intros Hn. apply H. exists i. split; [by left|done].
Qed.

(** *** All the rows *)

Lemma accumulate_NoDup data : NoDup (map cm_campanha (accumulate zero data)).
Proof.
  induction data as [|item data IH] using rev_ind.
  - constructor.
  - rewrite accumulate_snoc. by apply upsertCampaign_NoDup.
Qed.

Lemma accumulate_names data name :
  name ∈ map cm_campanha (accumulate zero data)
  ↔ ∃ item, item ∈ data ∧ campanhaOf item = name.
Proof.
  induction data as [|item data IH] using rev_ind.
  - simpl. rewrite elem_of_nil. split; [done|]. intros (i & Hi & _).
    by apply elem_of_nil in Hi.
  - rewrite accumulate_snoc, upsertCampaign_names.
    case_decide as Hin.
    + rewrite IH. split.
      * intros (i & Hi & <-). exists i. split; [|done]. apply elem_of_app. by left.
      * intros (i & Hi & <-). apply elem_of_app in Hi as [Hi|Hi].
        -- by exists i.
        -- apply list_elem_of_singleton in Hi as ->. by apply IH.
    + rewrite elem_of_app, list_elem_of_singleton, IH. split.
      * intros [(i & Hi & <-)| ->].
        -- exists i. split; [|done]. apply elem_of_app. by left.
        -- exists item. split; [|done]. apply elem_of_app. right.
           by apply list_elem_of_singleton.
      * intros (i & Hi & <-). apply elem_of_app in Hi as [Hi|Hi].
        -- left. by exists i.
        -- apply list_elem_of_singleton in Hi as ->. by right.
Qed.

Lemma rateVehicle_counts v :
  vehicleKey (rateVehicle percent v) = vehicleKey v ∧
  impressoes (rateVehicle percent v) = impressoes v ∧
  cliques (rateVehicle percent v) = cliques v ∧
  views (rateVehicle percent v) = views v ∧
  views100 (rateVehicle percent v) = views100 v ∧
  engajamentos (rateVehicle percent v) = engajamentos v.
Proof. unfold rateVehicle. by case_bool_decide. Qed.

Lemma total_finish (f : VehicleMetrics F → Z) vs :
  (∀ v, f (rateVehicle percent v) = f v) →
  total f (sortDesc impressoes (map (rateVehicle percent) vs)) = total f vs.
Proof.
  intros H. rewrite (total_perm _ _ _ (sortDesc_perm _ _)), total_map.
  by apply total_ext.
Qed.

Lemma accumulate_unrated data : Forall (unrated zero) (accumulate zero data).
Proof.
  induction data as [|item data IH] using rev_ind.
  - constructor.
  - rewrite accumulate_snoc. apply upsertCampaign_Forall.
    + apply accumulate_NoDup.
    + eapply Forall_impl; [exact IH|]. intros c Hc. by case_decide.
    + done.
Qed.

Lemma accumulate_vehicles_NoDup data :
  Forall (λ c, NoDup (map vehicleKey (veiculos c))) (accumulate zero data).
Proof.
  induction data as [|item data IH] using rev_ind.
  - constructor.
  - rewrite accumulate_snoc. apply upsertCampaign_Forall.
    + apply accumulate_NoDup.
    + eapply Forall_impl; [exact IH|]. intros c Hc. case_decide; [|done].
      simpl. by apply upsertVehicle_NoDup.
    + intros _. simpl. apply NoDup_singleton.
Qed.

(** *** The result *)

Lemma finishCampaign_names m :
  map cm_campanha (map (finishCampaign percent) m) = map cm_campanha m.
Proof. induction m as [|c m IH]; simpl; [done|]. by rewrite IH. Qed.

Lemma aggregateByCampaign_perm data :
  aggregateByCampaign zero percent data
  ≡ₚ map (finishCampaign percent) (accumulate zero data).
Proof. apply sortDesc_perm. Qed.

Lemma aggregateByCampaign_names data :
  map cm_campanha (aggregateByCampaign zero percent data)
  ≡ₚ map cm_campanha (accumulate zero data).
Proof. by rewrite aggregateByCampaign_perm, finishCampaign_names. Qed.

Lemma aggregateByCampaign_Forall (P : CampaignMetrics F → Prop) data :
  Forall (λ c, P (finishCampaign percent c)) (accumulate zero data) →
  Forall P (aggregateByCampaign zero percent data).
Proof. intros H. rewrite aggregateByCampaign_perm. by apply Forall_fmap. Qed.


Lemma upsertVehicle_Forall (P : VehicleMetrics F → Prop) item vs :
  Forall P vs →
  (∀ v, P v → P (addToVehicle item v)) →
  P (addToVehicle item (newVehicle zero item)) →
  Forall P (upsertVehicle zero item vs).
Proof.
  intros Hvs Hadd Hnew. induction Hvs as [|v vs Hv Hvs IH]; simpl.
  - by constructor.
  - destruct (sameVehicle item v); constructor; auto.
Qed.

Lemma accumulate_vehicles_unrated data :
  Forall (λ c, Forall (unratedVehicle zero) (veiculos c)) (accumulate zero data).
Proof.
  induction data as [|item data IH] using rev_ind.
  - constructor.
  - rewrite accumulate_snoc. apply upsertCampaign_Forall.
    + apply accumulate_NoDup.
    + eapply Forall_impl; [exact IH|]. intros c Hc. case_decide; [|done].
      simpl. by apply upsertVehicle_Forall.
    + intros _. simpl. by repeat constructor.
Qed.

Lemma rateVehicle_rated v :
  unratedVehicle zero v → ratedVehicle zero percent (rateVehicle percent v).
Proof.
  intros Hv. unfold ratedVehicle, rateVehicle.
  destruct (bool_decide (0 < impressoes v)) eqn:Hpos; simpl.
  - by rewrite Hpos.
  - by rewrite Hpos.
Qed.

(** *** The totals

    One of the five counts: the field [ft] of a campaign and the field
    [fv] of a vehicle that accumulate the field [g] of the rows. *)

Section Field.

Variable ft : CampaignMetrics F → Z.
Variable fv : VehicleMetrics F → Z.
Variable g : ProcessedCampaignData → Z.

Hypothesis ft_add : ∀ item c, ft (addToCampaign zero item c) = Number.add (ft c) (g item).
Hypothesis ft_new : ∀ name, ft (newCampaign zero name) = 0.
Hypothesis fv_add : ∀ item v, fv (addToVehicle item v) = Number.add (fv v) (g item).
Hypothesis fv_new : ∀ item, fv (newVehicle zero item) = 0.

(** A row added to the vehicles of a campaign, when the counts of the
    vehicles and the count of the row are in the safe range. *)
Lemma upsertVehicle_exact item vs (B : Z) :
  0 ≤ B → B + Z.abs (g item) ≤ Number.MAX_SAFE_INTEGER →
  Forall (λ v, Z.abs (fv v) ≤ B) vs →
  total fv (upsertVehicle zero item vs) = total fv vs + g item ∧
  Forall (λ v, Z.abs (fv v) ≤ B + Z.abs (g item)) (upsertVehicle zero item vs).
Proof.
  intros HB Hsafe Hvs. induction Hvs as [|v vs Hv Hvs IH]; simpl.
  - assert (fv (addToVehicle item (newVehicle zero item)) = g item) as Hnew.
    { rewrite fv_add, fv_new, add_safe by lia. done. }
    split; [lia|]. constructor; [lia|constructor].
  - destruct (sameVehicle item v); simpl.
    + assert (fv (addToVehicle item v) = fv v + g item) as Hadd.
      { rewrite fv_add, add_safe by lia. done. }
      split; [lia|].
      constructor; [lia|]. eapply Forall_impl; [exact Hvs|]. simpl. intros; lia.
    + destruct IH as [-> IH]. split; [lia|]. constructor; [lia|done].
Qed.

Lemma magnitude_rowsOf name data : magnitude g (rowsOf name data) ≤ magnitude g data.
Proof. apply magnitude_filter. Qed.

(** After the rows of a data set in the safe range, the field of a
    campaign is the sum over its rows and the sum over its vehicles, and
    no vehicle exceeds the magnitude of the data. *)
Lemma accumulate_exact data :
  safe g data →
  Forall (λ c, ft c = total g (rowsOf (cm_campanha c) data) ∧
               total fv (veiculos c) = ft c ∧
               Forall (λ v, Z.abs (fv v) ≤ magnitude g data) (veiculos c))
    (accumulate zero data).
Proof.
  induction data as [|item data IH] using rev_ind; intros Hsafe.
  - constructor.
  - specialize (IH (safe_snoc _ _ _ Hsafe)).
    unfold safe in Hsafe. rewrite magnitude_app in Hsafe.
    assert (magnitude g [item] = Z.abs (g item)) as Hitem
      by (unfold magnitude; simpl; lia).
    rewrite Hitem in Hsafe.
    pose proof (magnitude_nonneg g data) as Hpos.
    rewrite accumulate_snoc. apply upsertCampaign_Forall.
    + apply accumulate_NoDup.
    + eapply Forall_impl; [exact IH|]. intros c (Hrows & Hvs & Hb).
      rewrite magnitude_app, Hitem. case_decide as Hc.
      * destruct (upsertVehicle_exact item (veiculos c) (magnitude g data))
          as [Htot Hb']; [done..|].
        pose proof (abs_total_le g (rowsOf (cm_campanha c) data)) as Habs.
        pose proof (magnitude_rowsOf (cm_campanha c) data) as Hle.
        assert (ft (addToCampaign zero item c) = ft c + g item) as Hft.
        { rewrite ft_add, add_safe; [done|]. rewrite Hrows. lia. }
        change (cm_campanha (addToCampaign zero item c)) with (cm_campanha c).
        change (veiculos (addToCampaign zero item c))
          with (upsertVehicle zero item (veiculos c)).
        rewrite Hft, rowsOf_snoc, decide_True, total_app by done.
        split_and!; [simpl; lia|lia|done].
      * rewrite rowsOf_snoc, decide_False, app_nil_r by done.
        split_and!; [done..|].
        eapply Forall_impl; [exact Hb|]. simpl. intros; lia.
    + intros Hnew.
      assert (rowsOf (campanhaOf item) data = []) as Hnone.
      { apply rowsOf_none. by rewrite <- accumulate_names. }
      change (cm_campanha (addToCampaign zero item (newCampaign zero (campanhaOf item))))
        with (campanhaOf item).
      change (veiculos (addToCampaign zero item (newCampaign zero (campanhaOf item))))
        with (upsertVehicle zero item []).
      destruct (upsertVehicle_exact item [] (magnitude g data)) as [Htot Hb'];
        [done..|constructor|].
      rewrite ft_add, ft_new, add_safe by lia.
      rewrite rowsOf_snoc, decide_True, Hnone, magnitude_app, Hitem by done.
      simpl in *. split_and!; [lia|lia|done].
Qed.

Lemma upsertCampaign_total item m :
  Forall (λ c, ft (addToCampaign zero item c) = ft c + g item) m →
  ft (addToCampaign zero item (newCampaign zero (campanhaOf item))) = g item →
  total ft (upsertCampaign zero item m) = total ft m + g item.
Proof.
  intros Hm Hnew. induction Hm as [|c m Hc Hm IH]; simpl.
  - rewrite Hnew. lia.
  - case_bool_decide; simpl; [rewrite Hc|rewrite IH]; lia.
Qed.

(** The field of the campaigns adds up to the sum over all the rows. *)
Lemma accumulate_total data :
  safe g data → total ft (accumulate zero data) = total g data.
Proof.
  induction data as [|item data IH] using rev_ind; intros Hsafe; [done|].
  pose proof (accumulate_exact data (safe_snoc _ _ _ Hsafe)) as Hex.
  specialize (IH (safe_snoc _ _ _ Hsafe)).
  unfold safe in Hsafe. rewrite magnitude_app in Hsafe.
  assert (magnitude g [item] = Z.abs (g item)) as Hitem
    by (unfold magnitude; simpl; lia).
  rewrite Hitem in Hsafe.
  pose proof (magnitude_nonneg g data) as Hpos.
  rewrite accumulate_snoc, upsertCampaign_total, total_app, IH.
  - simpl. lia.
  - eapply Forall_impl; [exact Hex|]. intros c (Hrows & _ & _).
    pose proof (abs_total_le g (rowsOf (cm_campanha c) data)) as Habs.
    pose proof (magnitude_rowsOf (cm_campanha c) data) as Hle.
    rewrite ft_add, add_safe; [done|]. rewrite Hrows. lia.
  - rewrite ft_add, ft_new, add_safe by lia. done.
Qed.

End Field.

(** X21.  For rows whose counts are in the range where numbers add
    exactly, each of the five totals of a campaign of the result is the
    sum of that count over the rows of the campaign, a row without a
    campaign counting for the campaign [Sem campanha]. *)
Theorem campaign_totals_sum_the_rows data :
  safeCounts data → Forall (sumsRows data) (aggregateByCampaign zero percent data).
Proof.
  intros (H1 & H2 & H3 & H4 & H5).
  apply aggregateByCampaign_Forall, Forall_forall. intros c Hc.
  pose proof (accumulate_exact totalImpressoes impressoes impressions
                ltac:(done) ltac:(done) ltac:(done) ltac:(done) data H1) as E1.
  pose proof (accumulate_exact totalCliques cliques clicks
                ltac:(done) ltac:(done) ltac:(done) ltac:(done) data H2) as E2.
  pose proof (accumulate_exact totalViews views videoViews
                ltac:(done) ltac:(done) ltac:(done) ltac:(done) data H3) as E3.
  pose proof (accumulate_exact totalViews100 views100 videoCompletions
                ltac:(done) ltac:(done) ltac:(done) ltac:(done) data H4) as E4.
  pose proof (accumulate_exact totalEngajamentos engajamentos totalEngagements
                ltac:(done) ltac:(done) ltac:(done) ltac:(done) data H5) as E5.
  rewrite Forall_forall in E1, E2, E3, E4, E5.
  destruct (E1 c Hc) as [R1 _], (E2 c Hc) as [R2 _], (E3 c Hc) as [R3 _],
    (E4 c Hc) as [R4 _], (E5 c Hc) as [R5 _].
  by repeat split.
Qed.

(** X22.  For rows whose counts are in the range where numbers add
    exactly, each of the five totals of a campaign of the result is the
    sum of that count over the vehicles of the campaign. *)
Theorem campaign_totals_sum_the_vehicles data :
  safeCounts data → Forall sumsVehicles (aggregateByCampaign zero percent data).
Proof.
  intros (H1 & H2 & H3 & H4 & H5).
  apply aggregateByCampaign_Forall, Forall_forall. intros c Hc.
  pose proof (accumulate_exact totalImpressoes impressoes impressions
                ltac:(done) ltac:(done) ltac:(done) ltac:(done) data H1) as E1.
  pose proof (accumulate_exact totalCliques cliques clicks
                ltac:(done) ltac:(done) ltac:(done) ltac:(done) data H2) as E2.
  pose proof (accumulate_exact totalViews views videoViews
                ltac:(done) ltac:(done) ltac:(done) ltac:(done) data H3) as E3.
  pose proof (accumulate_exact totalViews100 views100 videoCompletions
                ltac:(done) ltac:(done) ltac:(done) ltac:(done) data H4) as E4.
  pose proof (accumulate_exact totalEngajamentos engajamentos totalEngagements
                ltac:(done) ltac:(done) ltac:(done) ltac:(done) data H5) as E5.
  rewrite Forall_forall in E1, E2, E3, E4, E5.
  destruct (E1 c Hc) as (_ & R1 & _), (E2 c Hc) as (_ & R2 & _),
    (E3 c Hc) as (_ & R3 & _), (E4 c Hc) as (_ & R4 & _), (E5 c Hc) as (_ & R5 & _).
  unfold sumsVehicles. simpl.
  rewrite !total_finish by apply rateVehicle_counts.
  by repeat split.
Qed.

(** X23.  The result has one campaign for each campaign name of the rows:
    no name twice, and a name exactly when a row has it. *)
Theorem one_campaign_per_name data :
  NoDup (map cm_campanha (aggregateByCampaign zero percent data)) ∧
  ∀ name, name ∈ map cm_campanha (aggregateByCampaign zero percent data)
          ↔ ∃ item, item ∈ data ∧ campanhaOf item = name.
Proof.
  split.
  - rewrite aggregateByCampaign_names. apply accumulate_NoDup.
  - intros name. rewrite aggregateByCampaign_names. apply accumulate_names.
Qed.

(** X24.  The campaigns of the result come by decreasing impressions, and
    so do the vehicles of each campaign. *)
Theorem aggregateByCampaign_sorted data :
  decreasing totalImpressoes (aggregateByCampaign zero percent data) ∧
  Forall (λ c, decreasing impressoes (veiculos c))
    (aggregateByCampaign zero percent data).
Proof.
  split.
  - apply sortDesc_decreasing.
  - apply aggregateByCampaign_Forall, Forall_forall. intros c _. simpl.
    apply sortDesc_decreasing.
Qed.

(** X25.  For rows whose impressions are counts in the range where
    numbers add exactly, the impressions of the campaigns of the result
    add up to the sum that the key of the component is derived from. *)
Theorem aggregateByCampaign_keeps_the_sum data :
  safe impressions data →
  total totalImpressoes (aggregateByCampaign zero percent data)
  = totalImpressions data.
Proof.
  intros Hsafe.
  rewrite (total_perm _ _ _ (aggregateByCampaign_perm data)), total_map.
  rewrite totalImpressions_exact by done.
  rewrite (total_ext _ totalImpressoes) by done.
  by apply (accumulate_total totalImpressoes impressoes impressions).
Qed.

(** X26.  The rates of a campaign and of a vehicle of the result are
    computed from its counts when it has impressions, and are zero
    otherwise: no rate is a division by zero impressions. *)
Theorem rates_need_impressions data :
  Forall (λ c, rated zero percent c ∧
               Forall (ratedVehicle zero percent) (veiculos c))
    (aggregateByCampaign zero percent data).
Proof.
  apply aggregateByCampaign_Forall.
  pose proof (accumulate_unrated data) as Hu.
  pose proof (accumulate_vehicles_unrated data) as Hv.
  rewrite Forall_forall in Hu, Hv. apply Forall_forall. intros c Hc. split.
  - destruct (Hu c Hc) as (H1 & H2 & H3). unfold rated. simpl.
    by case_bool_decide.
  - simpl. rewrite Forall_sortDesc, Forall_fmap.
    eapply Forall_impl; [exact (Hv c Hc)|]. intros v. apply rateVehicle_rated.
Qed.

(** X27.  A campaign of the result has one vehicle for each pair of a
    vehicle and a kind of purchase. *)
Theorem one_vehicle_per_pair data :
  Forall (λ c, NoDup (map vehicleKey (veiculos c)))
    (aggregateByCampaign zero percent data).
Proof.
  apply aggregateByCampaign_Forall.
  eapply Forall_impl; [apply accumulate_vehicles_NoDup|]. intros c Hc. simpl.
  rewrite sortDesc_perm.
  rewrite <- list_fmap_compose.
  erewrite list_fmap_ext; [exact Hc|].
  intros i v _. apply rateVehicle_counts.
Qed.

End Aggregate.

Example aggregateByCampaign_rows :
  map (λ c, (cm_campanha c, totalImpressoes c, totalCliques c, cm_ctr c,
             map (λ v, (vehicleKey v, impressoes v, vm_ctr v)) (veiculos c)))
      (aggregateByCampaign (0, 1) SampleRows.percent SampleRows.rows)
  = [ ("Cartões", 650, 8, (800, 650),
         [ (("Meta", "CPM"), 350, (500, 350)); (("TikTok", "CPM"), 300, (300, 300)) ]);
      ("Sem campanha", 450, 7, (700, 450),
         [ (("TikTok", "CPV"), 450, (700, 450)) ]);
      ("Seguros", 0, 0, (0, 1),
         [ (("Meta", "CPM"), 0, (0, 1)) ]) ].
Proof. vm_compute. reflexivity. Qed.

Lemma campaign_totals_sum_the_rows_witness :
  Forall (sumsRows SampleRows.rows)
    (aggregateByCampaign (0, 1) SampleRows.percent SampleRows.rows).
Proof.
  apply campaign_totals_sum_the_rows.
  unfold safeCounts, safe. split_and!; by vm_compute.
Defined.

Lemma campaign_totals_sum_the_vehicles_witness :
  Forall sumsVehicles (aggregateByCampaign (0, 1) SampleRows.percent SampleRows.rows).
Proof.
  apply campaign_totals_sum_the_vehicles.
  unfold safeCounts, safe. split_and!; by vm_compute.
Defined.

Lemma aggregateByCampaign_keeps_the_sum_witness :
  total totalImpressoes (aggregateByCampaign (0, 1) SampleRows.percent SampleRows.rows)
  = totalImpressions SampleRows.rows.
Proof.
  apply aggregateByCampaign_keeps_the_sum. unfold safe. by vm_compute.
Defined.

(** Outside the safe range the totals are rounded sums: a campaign of the
    rows [2^53], 1 and 1 has the total [2^53], and its two vehicles, of
    [2^53] and of 2, add up to more. *)
Example aggregateByCampaign_rounded :
  let rows := [ SampleRows.row "Cartões" "Meta" "CPM" 9007199254740992 0;
                SampleRows.row "Cartões" "TikTok" "CPM" 1 0;
                SampleRows.row "Cartões" "TikTok" "CPM" 1 0 ] in
  map (λ c, (totalImpressoes c, map impressoes (veiculos c)))
    (aggregateByCampaign (0, 1) SampleRows.percent rows)
  = [ (9007199254740992, [9007199254740992; 2]) ].
Proof. by vm_compute. Qed.
